(** * Intel IOMMU shared virtual memory: a model of drivers/iommu/intel/svm.c

    The development embeds the parts of [svm.c] that deal with
    - range invalidation ([intel_invalidate_range] and the flush helpers),
    - the page request queue reader ([prq_event_thread]),
    - the page request drain ([intel_svm_drain_prq]),
    - host-mode bind and unbind ([intel_svm_bind_mm], [intel_svm_unbind_mm]),
    - guest-mode bind and unbind ([intel_svm_bind_gpasid],
      [intel_svm_unbind_gpasid]) and the PASID free notification,
    - page responses ([intel_svm_page_response]), the capability check and
      the setup of the page request queue,
    - the version array slots of the enclave code that ends the file,
    and proves properties of them.

    Conventions.  A C [u64]/[unsigned long] is a [Z] in [0, 2^64) and every
    operation that can leave that range is followed by [u64].  Bit fields of
    the page request descriptor are read with [Z.testbit], [Z.shiftr] and
    [Z.land] from the two descriptor quad-words.  External kernel services
    (the PASID allocator, the memory manager, the invalidation queue, MMIO)
    are Section variables or recorded as events in a trace. *)

From Stdlib Require Import ZArith List Lia Bool.
From stdpp Require Import base option list gmap.
Import ListNotations.
Local Open Scope Z_scope.

(** ** Machine integers and kernel arithmetic helpers *)

Module K.

Definition u64 (x : Z) : Z := x mod 2 ^ 64.

(** [(long) x] for a 64-bit [x]: two's complement reinterpretation. *)
Definition s64 (x : Z) : Z := (x + 2 ^ 63) mod 2 ^ 64 - 2 ^ 63.

(** [(int) x]: two's complement reinterpretation on 32 bits. *)
Definition s32 (x : Z) : Z := (x + 2 ^ 31) mod 2 ^ 32 - 2 ^ 31.

Definition VTD_PAGE_SHIFT : Z := 12.
Definition PAGE_SIZE : Z := 4096.

(** Modelled from the spec: the helpers below stand for macros of
    linux/bitops.h, linux/log2.h and linux/align.h, which are outside the
    sources at hand; they compute what the spec calls "the largest
    power-of-two aligned range".  [fls_long] is the 1-based index of the
    most significant set bit of an [unsigned long], and 0 for 0. *)
Definition fls_long (x : Z) : Z := if x =? 0 then 0 else Z.log2 x + 1.

(** Modelled from the spec: [__roundup_pow_of_two(n)] of linux/log2.h is
    [1UL << fls_long(n - 1)].  For [n = 0] the shift count is 64 and the
    header documents the result as undefined: [None]. *)
Definition __roundup_pow_of_two (n : Z) : option Z :=
  if n =? 0 then None else Some (u64 (Z.shiftl 1 (fls_long (u64 (n - 1))))).

(** Modelled from the spec: [ilog2(n)] of linux/log2.h is [fls(n) - 1] for a
    run-time [n]; it is undefined for 0. *)
Definition ilog2 (n : Z) : option Z :=
  if n =? 0 then None else Some (fls_long n - 1).

(** Modelled from the spec: [order_base_2(n)] of linux/log2.h is 0 for
    [n <= 1] and [ilog2(n - 1) + 1] otherwise. *)
Definition order_base_2 (n : Z) : Z :=
  if n <=? 1 then 0 else Z.log2 (n - 1) + 1.

(** Modelled from the spec: [ALIGN(x, a)] of linux/align.h is
    [(x + (a - 1)) & ~(a - 1)] in the type of [x]. *)
Definition ALIGN (x a : Z) : Z :=
  Z.land (u64 (x + u64 (a - 1))) (u64 (Z.lnot (u64 (a - 1)))).

(** Modelled from the spec: [ALIGN_DOWN(x, a)] of linux/align.h is
    [ALIGN(x - (a - 1), a)]. *)
Definition ALIGN_DOWN (x a : Z) : Z := ALIGN (u64 (x - u64 (a - 1))) a.

End K.

(** ** Range invalidation: the address-space observer's flush path *)

Module Flush.
Import K.

(** What the two invalidation-queue helpers are called with. *)
Inductive flush_event : Type :=
| Piotlb (did pasid addr pages ih : Z)
| DevIotlb (sid pfsid pasid qdep addr order : Z).

(** The fields of [struct intel_svm_dev] ([did], [sid], [qdep]) and of the
    device's [device_domain_info] ([pfsid], [ats_enabled]) that the flush
    path reads.  The domain info, which [__flush_svm_range_dev] dereferences
    unchecked, is taken to exist, as it does for every device bind has
    accepted. *)
Record flush_dev : Type := mk_flush_dev {
  fd_did : Z;
  fd_sid : Z;
  fd_qdep : Z;
  fd_pfsid : Z;
  fd_ats_enabled : bool
}.

(** [__flush_svm_range_dev]: one PASID-scoped IOTLB flush and, with ATS, one
    device-TLB flush; nothing when [pages] is 0. *)
Definition __flush_svm_range_dev (pasid : Z) (sdev : flush_dev)
    (address pages ih : Z) : list flush_event :=
  if pages =? 0 then []
  else
    Piotlb (fd_did sdev) pasid address pages ih ::
    (if fd_ats_enabled sdev
     then [DevIotlb (fd_sid sdev) (fd_pfsid sdev) pasid (fd_qdep sdev)
             address (order_base_2 pages)]
     else []).

(** The loop [while (start < end) { flush; start += align; }].  It does not
    terminate when [align] is 0, hence the fuel; [None] is "out of fuel". *)
Fixpoint flush_loop (fuel : nat) (pasid : Z) (sdev : flush_dev)
    (start end_ align ih : Z) : option (list flush_event) :=
  if start <? end_ then
    match fuel with
    | O => None
    | S fuel' =>
        match flush_loop fuel' pasid sdev (u64 (start + align)) end_ align ih with
        | Some evs =>
            Some (__flush_svm_range_dev pasid sdev start
                    (Z.shiftr align VTD_PAGE_SHIFT) ih ++ evs)
        | None => None
        end
    end
  else Some [].

(** [intel_flush_svm_range_dev]. *)
Definition intel_flush_svm_range_dev (fuel : nat) (pasid : Z) (sdev : flush_dev)
    (address pages ih : Z) : option (list flush_event) :=
  match __roundup_pow_of_two pages with
  | None => None
  | Some p =>
      match ilog2 p with
      | None => None
      | Some shift =>
          let align := u64 (Z.shiftl 1 (VTD_PAGE_SHIFT + shift)) in
          let start := ALIGN_DOWN address align in
          let end_ := ALIGN (u64 (address + u64 (Z.shiftl pages VTD_PAGE_SHIFT))) align in
          flush_loop fuel pasid sdev start end_ align ih
      end
  end.

(** [intel_flush_svm_range]: every device of the binding, in list order. *)
Fixpoint intel_flush_svm_range (fuel : nat) (pasid : Z) (devs : list flush_dev)
    (address pages ih : Z) : option (list flush_event) :=
  match devs with
  | [] => Some []
  | sdev :: rest =>
      match intel_flush_svm_range_dev fuel pasid sdev address pages ih with
      | None => None
      | Some evs =>
          match intel_flush_svm_range fuel pasid rest address pages ih with
          | None => None
          | Some evs' => Some (evs ++ evs')
          end
      end
  end.

(** [intel_invalidate_range], the [invalidate_range] callback. *)
Definition intel_invalidate_range (fuel : nat) (pasid : Z) (devs : list flush_dev)
    (start end_ : Z) : option (list flush_event) :=
  intel_flush_svm_range fuel pasid devs start
    (Z.shiftr (u64 (u64 (end_ - start) + PAGE_SIZE - 1)) VTD_PAGE_SHIFT) 0.

(** *** Vocabulary of the flush properties *)

(** The range in the spec's words: pages, pages per sub-invalidation,
    rounding down and up to a multiple. *)
Definition spec_pages (start end_ : Z) : Z := (end_ - start + 4095) / 4096.

Definition spec_span (pages : Z) : Z := 2 ^ Z.log2_up pages.

Definition round_down (x a : Z) : Z := a * (x / a).

Definition round_up (x a : Z) : Z := a * ((x + a - 1) / a).

(** The (address, pages) pairs of the PASID-scoped IOTLB flushes of a trace. *)
Definition piotlb_ranges (evs : list flush_event) : list (Z * Z) :=
  flat_map (fun e => match e with
                     | Piotlb _ _ a p _ => [(a, p)]
                     | DevIotlb _ _ _ _ _ _ => []
                     end) evs.

(** The addresses [lo], [lo + step], ..., [n] of them. *)
Fixpoint ticks (n : nat) (lo step : Z) : list Z :=
  match n with
  | O => []
  | S n' => lo :: ticks n' (lo + step) step
  end.

(** [n] sub-invalidations of [span] pages each, from [lo] upwards, on one
    device. *)
Definition sub_invalidations (pasid : Z) (sdev : flush_dev) (lo span : Z)
    (n : nat) : list flush_event :=
  flat_map (fun a => __flush_svm_range_dev pasid sdev a span 0)
    (ticks n lo (span * 4096)).

End Flush.

(** ** Data: descriptors, devices, bindings *)

Module Svm.
Import K.

(** [struct page_req_dsc]: two quad-words of bit fields and 16 bytes of
    private data. *)
Record page_req_dsc : Type := mk_req {
  qw_0 : Z;
  qw_1 : Z;
  priv_data0 : Z;
  priv_data1 : Z
}.

(** The bit field of [len] bits that starts at bit [lo]. *)
Definition field (x lo len : Z) : Z := Z.land (Z.shiftr x lo) (Z.ones len).

Definition req_type (r : page_req_dsc) : Z := field (qw_0 r) 0 8.
Definition pasid_present (r : page_req_dsc) : bool := Z.testbit (qw_0 r) 8.
Definition priv_data_present (r : page_req_dsc) : bool := Z.testbit (qw_0 r) 9.
Definition rid (r : page_req_dsc) : Z := field (qw_0 r) 16 16.
Definition pasid (r : page_req_dsc) : Z := field (qw_0 r) 32 20.
Definition exe_req (r : page_req_dsc) : bool := Z.testbit (qw_0 r) 52.
Definition pm_req (r : page_req_dsc) : bool := Z.testbit (qw_0 r) 53.
Definition rd_req (r : page_req_dsc) : bool := Z.testbit (qw_1 r) 0.
Definition wr_req (r : page_req_dsc) : bool := Z.testbit (qw_1 r) 1.
Definition lpig (r : page_req_dsc) : bool := Z.testbit (qw_1 r) 2.
Definition prg_index (r : page_req_dsc) : Z := field (qw_1 r) 3 9.
Definition addr (r : page_req_dsc) : Z := field (qw_1 r) 12 52.

(** [sizeof(struct page_req_dsc)]. *)
Definition REQ_SIZE : Z := 32.

(** The fields of [struct device_domain_info] that svm.c reads.  [di_did] is
    [info->domain->iommu_did[info->iommu->seq_id]] and [di_has_subdevices] is
    [!list_empty(&info->subdevices)]. *)
Record device_domain_info : Type := mk_info {
  di_bus : Z;
  di_devfn : Z;
  di_pfsid : Z;
  di_ats_enabled : bool;
  di_ats_qdep : Z;
  di_pri_enabled : bool;
  di_domain : Z;
  di_did : Z;
  di_has_subdevices : bool
}.

(** What svm.c asks of [struct intel_iommu]: [intel_svm_capable] and
    [ecap_srs(iommu->ecap)]. *)
Record intel_iommu : Type := mk_iommu {
  iommu_id : Z;
  iommu_svm_capable : bool;
  iommu_ecap_srs : bool
}.

(** A [struct device *], identified by its address [dev_id], with what the
    helper calls on it return: [device_to_iommu], [dev_is_pci],
    [get_domain_info], [pci_max_pasids] and [pci_ats_queue_depth]. *)
Record device : Type := mk_device {
  dev_id : Z;
  dev_iommu : option intel_iommu;
  dev_is_pci : bool;
  dev_info : option device_domain_info;
  dev_max_pasids : Z;
  dev_ats_queue_depth : Z
}.

(** [PCI_DEVID(bus, devfn)] of linux/pci.h, truncated to the [u16] field
    it is stored in. *)
Definition PCI_DEVID (bus devfn : Z) : Z :=
  Z.lor (Z.shiftl bus 8) devfn mod 2 ^ 16.

(** [struct intel_svm_dev], one (device, binding) edge. *)
Record intel_svm_dev : Type := mk_sdev {
  sd_dev : device;
  sd_iommu : Z;
  sd_domain : Z;
  sd_users : Z;
  sd_did : Z;
  sd_sid : Z;
  sd_qdep : Z;
  sd_dev_iotlb : bool;
  sd_pasid : Z;
  sd_sva_dev : option Z
}.

(** [struct intel_svm], one PASID binding.  [svm_mm] is [None] for a NULL
    [mm]; [svm_devs] is the RCU list [devs], head first. *)
Record intel_svm : Type := mk_svm {
  svm_mm : option Z;
  svm_flags : Z;
  svm_pasid : Z;
  svm_gpasid : Z;
  svm_devs : list intel_svm_dev
}.

(** A [struct intel_svm *] as [ioasid_find] returns it: NULL, an error
    pointer [ERR_PTR(-e)], or a pointer to a binding. *)
Inductive svm_ptr : Type :=
| SvmNull
| SvmErr (errno : Z)
| SvmOk (svm : intel_svm).

(** [struct vm_area_struct], the two fields the fault path reads. *)
Record vm_area : Type := mk_vma {
  vm_start : Z;
  vm_flags : Z
}.

(** Page group response codes. *)
Inductive resp_code : Type := QI_RESP_SUCCESS | QI_RESP_INVALID.

(** Invalidation queue descriptors.  The [QI_*] packing macros are declared
    in linux/intel-iommu.h, outside the sources at hand; a descriptor is kept
    as its type and the arguments the macros are applied to. *)
Inductive qi_desc : Type :=
| QiInvWait (status_data : Z) (fence : bool)
| QiEiotlbPasid (pasid did : Z)
| QiDevEiotlb (pasid sid qdep pfsid : Z)
| QiPgrpResp (pasid did : Z) (pasid_p pdp : bool) (code : resp_code)
    (idx : Z) (lpig : bool) (qw2 qw3 : Z).

(** [struct iommu_fault_event] as [intel_svm_prq_report] fills it. *)
Record iommu_fault_event : Type := mk_fault {
  prm_addr : Z;
  prm_pasid : Z;
  prm_grpid : Z;
  prm_perm_read : bool;
  prm_perm_write : bool;
  prm_perm_exec : bool;
  prm_perm_priv : bool;
  prm_last_page : bool;
  prm_pasid_valid : bool;
  prm_resp_needs_pasid : bool;
  prm_priv_data : bool;
  prm_private_data : Z * Z;
  fault_vector : Z
}.

Inductive reg : Type := DMAR_PQH_REG | DMAR_PQT_REG | DMAR_PRS_REG.

(** Constants that svm.c takes from headers outside the sources at hand. *)
Record constants : Type := mk_constants {
  prq_size_page_order : Z;
  __VIRTUAL_MASK_SHIFT : Z;
  DMA_PRS_PPR : Z;
  DMA_PRS_PRO : Z;
  SVM_FLAG_GUEST_MODE : Z;
  VM_READ : Z;
  VM_WRITE : Z;
  VM_EXEC : Z;
  FAULT_FLAG_USER : Z;
  FAULT_FLAG_REMOTE : Z;
  FAULT_FLAG_WRITE : Z;
  VM_FAULT_ERROR : Z;
  QI_DONE : Z;
  QI_OPT_WAIT_DRAIN : Z
}.

End Svm.

(** ** The page request queue: reader thread and drain *)

Module Prq.
Import K Svm.

(** Calls that leave svm.c, with their arguments and results, in program
    order.  Logging ([pr_err], [dev_dbg]), the [num_prqs] counter and the
    latency accounting ([dmar_latency_*]) change nothing that is modelled and
    are left out. *)
Inductive event : Type :=
| EvWritel (r : reg) (v : Z)
| EvWriteq (r : reg) (v : Z)
| EvReadl (r : reg) (v : Z)
| EvReadq (r : reg) (v : Z)
| EvDesc (index : Z) (req : page_req_dsc)
| EvIoasidFind (pasid : Z) (r : svm_ptr)
| EvReport (dev : Z) (evt : iommu_fault_event) (ret : Z)
| EvMmget (mm : Z) (ok : bool)
| EvMmapReadLock (mm : Z)
| EvMmapReadUnlock (mm : Z)
| EvMmput (mm : Z)
| EvFindVma (mm addr : Z) (vma : option vm_area)
| EvHandleMmFault (vma : vm_area) (addr flags ret : Z)
| EvQiSubmit (descs : list qi_desc) (options : Z)
| EvReinitCompletion
| EvWaitForCompletion
| EvComplete.

(** The kernel and the hardware around svm.c.  [World] is their whole state;
    every call may change it, so that two reads of one register may differ.
    [k_prq i w] is the content of [iommu->prq[i]]. *)
Record kernel (World : Type) : Type := mk_kernel {
  k_readq : reg -> World -> Z * World;
  k_readl : reg -> World -> Z * World;
  k_writeq : reg -> Z -> World -> World;
  k_writel : reg -> Z -> World -> World;
  k_prq : Z -> World -> page_req_dsc;
  k_ioasid_find : Z -> World -> svm_ptr * World;
  k_report_device_fault : device -> iommu_fault_event -> World -> Z * World;
  k_mmget_not_zero : Z -> World -> bool * World;
  k_mmap_read_lock : Z -> World -> World;
  k_mmap_read_unlock : Z -> World -> World;
  k_mmput : Z -> World -> World;
  k_find_extend_vma : Z -> Z -> World -> option vm_area * World;
  k_handle_mm_fault : vm_area -> Z -> Z -> World -> Z * World;
  k_qi_submit_sync : list qi_desc -> Z -> World -> World;
  k_reinit_completion : World -> World;
  k_wait_for_completion : World -> World;
  k_complete : World -> World
}.

Arguments k_readq {World}.
Arguments k_readl {World}.
Arguments k_writeq {World}.
Arguments k_writel {World}.
Arguments k_prq {World}.
Arguments k_ioasid_find {World}.
Arguments k_report_device_fault {World}.
Arguments k_mmget_not_zero {World}.
Arguments k_mmap_read_lock {World}.
Arguments k_mmap_read_unlock {World}.
Arguments k_mmput {World}.
Arguments k_find_extend_vma {World}.
Arguments k_handle_mm_fault {World}.
Arguments k_qi_submit_sync {World}.
Arguments k_reinit_completion {World}.
Arguments k_wait_for_completion {World}.
Arguments k_complete {World}.

(** How a run ends: it returns, it dereferences a pointer that is NULL or an
    error pointer (a kernel oops), or the model's fuel is used up. *)
Inductive result (W A : Type) : Type :=
| Done (a : A) (w : W)
| Oops
| OutOfFuel.

Arguments Done {W A}.
Arguments Oops {W A}.
Arguments OutOfFuel {W A}.

(** A computation maps a world to the events it emits and its result. *)
Definition M (W A : Type) : Type := W -> list event * result W A.

Definition ret {W A} (a : A) : M W A := fun w => ([], Done a w).

Definition bind {W A B} (m : M W A) (f : A -> M W B) : M W B :=
  fun w =>
    match m w with
    | (e1, Done a w') => let (e2, r) := f a w' in (e1 ++ e2, r)
    | (e1, Oops) => (e1, Oops)
    | (e1, OutOfFuel) => (e1, OutOfFuel)
    end.

Definition oops {W A} : M W A := fun _ => ([], Oops).
Definition out_of_fuel {W A} : M W A := fun _ => ([], OutOfFuel).

(** A call with a result, and a call without. *)
Definition call {W R} (f : W -> R * W) (ev : R -> event) : M W R :=
  fun w => let (r, w') := f w in ([ev r], Done r w').

Definition exec {W} (f : W -> W) (ev : event) : M W unit :=
  fun w => ([ev], Done tt (f w)).

Declare Scope prq_scope.
Delimit Scope prq_scope with prq.
Notation "'let*' x := m 'in' k" := (bind m (fun x => k))
  (at level 10, x pattern, m at level 100, k at level 200) : prq_scope.
Notation "'do' m ; k" := (bind m (fun _ => k))
  (at level 10, m at level 100, k at level 200) : prq_scope.
Local Open Scope prq_scope.

Section WithKernel.

Context {World : Type}.
Variable C : constants.
Variable Kn : kernel World.

Definition dmar_readq (r : reg) : M World Z := call (k_readq Kn r) (EvReadq r).
Definition readl (r : reg) : M World Z := call (k_readl Kn r) (EvReadl r).
Definition dmar_writeq (r : reg) (v : Z) : M World unit :=
  exec (k_writeq Kn r v) (EvWriteq r v).
Definition writel (v : Z) (r : reg) : M World unit :=
  exec (k_writel Kn r v) (EvWritel r v).
Definition ioasid_find (id : Z) : M World svm_ptr :=
  call (k_ioasid_find Kn id) (EvIoasidFind id).
Definition iommu_report_device_fault (dev : device) (evt : iommu_fault_event)
    : M World Z :=
  call (k_report_device_fault Kn dev evt) (EvReport (dev_id dev) evt).
Definition mmget_not_zero (mm : Z) : M World bool :=
  call (k_mmget_not_zero Kn mm) (EvMmget mm).
Definition mmap_read_lock (mm : Z) : M World unit :=
  exec (k_mmap_read_lock Kn mm) (EvMmapReadLock mm).
Definition mmap_read_unlock (mm : Z) : M World unit :=
  exec (k_mmap_read_unlock Kn mm) (EvMmapReadUnlock mm).
Definition mmput (mm : Z) : M World unit := exec (k_mmput Kn mm) (EvMmput mm).
Definition find_extend_vma (mm address : Z) : M World (option vm_area) :=
  call (k_find_extend_vma Kn mm address) (EvFindVma mm address).
Definition handle_mm_fault (vma : vm_area) (address flags : Z) : M World Z :=
  call (k_handle_mm_fault Kn vma address flags) (EvHandleMmFault vma address flags).
Definition qi_submit_sync (descs : list qi_desc) (options : Z) : M World unit :=
  exec (k_qi_submit_sync Kn descs options) (EvQiSubmit descs options).
Definition reinit_completion : M World unit :=
  exec (k_reinit_completion Kn) EvReinitCompletion.
Definition wait_for_completion : M World unit :=
  exec (k_wait_for_completion Kn) EvWaitForCompletion.
Definition complete : M World unit := exec (k_complete Kn) EvComplete.

(** [&iommu->prq[index]]: the descriptor is read once and taken as stable
    while it is being handled. *)
Definition read_req (index : Z) : M World page_req_dsc :=
  fun w => let req := k_prq Kn index w in ([EvDesc index req], Done req w).

(** [PRQ_RING_MASK]. *)
Definition PRQ_RING_MASK : Z := Z.shiftl 0x1000 (prq_size_page_order C) - 0x20.

(** [access_error]. *)
Definition access_error (vma : vm_area) (req : page_req_dsc) : bool :=
  let requested := 0 in
  let requested := if exe_req req then Z.lor requested (VM_EXEC C) else requested in
  let requested := if rd_req req then Z.lor requested (VM_READ C) else requested in
  let requested := if wr_req req then Z.lor requested (VM_WRITE C) else requested in
  negb (Z.land requested (u64 (Z.lnot (vm_flags vma))) =? 0).

(** [is_canonical_address]. *)
Definition is_canonical_address (address : Z) : bool :=
  let shift := 64 - (__VIRTUAL_MASK_SHIFT C + 1) in
  let saddr := s64 address in
  Z.shiftr (s64 (Z.shiftl saddr shift)) shift =? saddr.

(** [intel_svm_prq_report]; [prq_to_iommu_prot] fills the four permission
    bits.  The [dev] argument is never NULL where the reader calls it. *)
Definition intel_svm_prq_report (dev : device) (desc : page_req_dsc) : M World Z :=
  if negb (dev_is_pci dev) then ret (-19)
  else
    match dev_info dev with
    | None => oops
    | Some info =>
        iommu_report_device_fault dev
          {| prm_addr := u64 (Z.shiftl (addr desc) VTD_PAGE_SHIFT);
             prm_pasid := pasid desc;
             prm_grpid := prg_index desc;
             prm_perm_read := rd_req desc;
             prm_perm_write := wr_req desc;
             prm_perm_exec := exe_req desc;
             prm_perm_priv := pm_req desc;
             prm_last_page := lpig desc || priv_data_present desc;
             prm_pasid_valid := pasid_present desc;
             prm_resp_needs_pasid := pasid_present desc;
             prm_priv_data := priv_data_present desc;
             prm_private_data :=
               if priv_data_present desc
               then (priv_data0 desc, priv_data1 desc) else (0, 0);
             fault_vector := if di_has_subdevices info then pasid desc else 0 |}
    end.

(** *** The reader: [prq_event_thread] *)

(** The reader's two cached pointers, [svm] and [sdev]. *)
Definition cache : Type := svm_ptr * option intel_svm_dev.

(** From label [no_pasid] to [prq_advance]: the page group response, posted
    when the request has LPIG or private data. *)
Definition respond (req : page_req_dsc) (result : resp_code) : M World unit :=
  if lpig req || priv_data_present req then
    qi_submit_sync
      [QiPgrpResp (pasid req) (rid req) (pasid_present req)
         (priv_data_present req) result (prg_index req) (lpig req)
         (if priv_data_present req then priv_data0 req else 0)
         (if priv_data_present req then priv_data1 req else 0)] 0
  else ret tt.

(** [goto no_pasid]: the cached pointers are kept. *)
Definition no_pasid (svm : svm_ptr) (sdev : option intel_svm_dev)
    (req : page_req_dsc) (result : resp_code) : M World cache :=
  do respond req result; ret (svm, sdev).

(** [goto bad_req] (and falling into it): both cached pointers are reset. *)
Definition bad_req (req : page_req_dsc) (result : resp_code) : M World cache :=
  no_pasid SvmNull None req result.

(** [if (!svm || svm->pasid != req->pasid) svm = ioasid_find(...)].  Reading
    [svm->pasid] through an error pointer left by a failed lookup faults. *)
Definition lookup_svm (svm : svm_ptr) (req : page_req_dsc) : M World svm_ptr :=
  match svm with
  | SvmNull => ioasid_find (pasid req)
  | SvmErr _ => oops
  | SvmOk s =>
      if negb (svm_pasid s =? pasid req) then ioasid_find (pasid req)
      else ret svm
  end.

(** [if (!sdev || sdev->sid != req->rid)]: search [svm->devs] for the
    source-ID, first match. *)
Definition lookup_sdev (sdev : option intel_svm_dev) (s : intel_svm)
    (req : page_req_dsc) : option intel_svm_dev :=
  let search := List.find (fun t => sd_sid t =? rid req) (svm_devs s) in
  match sdev with
  | None => search
  | Some d => if negb (sd_sid d =? rid req) then search else Some d
  end.

(** From [find_extend_vma]'s result to label [invalid]. *)
Definition resolve_fault (vma : option vm_area) (req : page_req_dsc)
    (address : Z) : M World resp_code :=
  match vma with
  | None => ret QI_RESP_INVALID
  | Some v =>
      if address <? vm_start v then ret QI_RESP_INVALID
      else if access_error v req then ret QI_RESP_INVALID
      else
        let flags := Z.lor (FAULT_FLAG_USER C) (FAULT_FLAG_REMOTE C) in
        let flags :=
          if wr_req req then Z.lor flags (FAULT_FLAG_WRITE C) else flags in
        let* r := handle_mm_fault v address flags in
        if negb (Z.land r (VM_FAULT_ERROR C) =? 0) then ret QI_RESP_INVALID
        else ret QI_RESP_SUCCESS
  end.

(** The body of the reader's loop for one descriptor; it returns the cached
    pointers for the next one. *)
Definition prq_handle (c : cache) (req : page_req_dsc) : M World cache :=
  let '(svm, sdev) := c in
  let address := u64 (Z.shiftl (addr req) VTD_PAGE_SHIFT) in
  if negb (pasid_present req) then no_pasid svm sdev req QI_RESP_INVALID
  else if pm_req req && (rd_req req || wr_req req) then
    no_pasid svm sdev req QI_RESP_INVALID
  else if exe_req req && rd_req req then no_pasid svm sdev req QI_RESP_INVALID
  else
    let* svm := lookup_svm svm req in
    match svm with
    | SvmNull | SvmErr _ => no_pasid svm sdev req QI_RESP_INVALID
    | SvmOk s =>
        let sdev := lookup_sdev sdev s req in
        if negb (Z.land (svm_flags s) (SVM_FLAG_GUEST_MODE C) =? 0) then
          match sdev with
          | Some d =>
              let* r := intel_svm_prq_report (sd_dev d) req in
              if r =? 0 then ret (svm, sdev)
              else bad_req req QI_RESP_INVALID
          | None => bad_req req QI_RESP_INVALID
          end
        else
          match svm_mm s with
          | None => bad_req req QI_RESP_INVALID
          | Some mm =>
              if negb (is_canonical_address address) then
                bad_req req QI_RESP_INVALID
              else
                let* alive := mmget_not_zero mm in
                if negb alive then bad_req req QI_RESP_INVALID
                else
                  do mmap_read_lock mm;
                  let* vma := find_extend_vma mm address in
                  let* result := resolve_fault vma req address in
                  do mmap_read_unlock mm;
                  do mmput mm;
                  bad_req req result
          end
    end.

(** [while (head != tail)] of the reader. *)
Fixpoint prq_loop (fuel : nat) (head tail : Z) (c : cache) : M World unit :=
  if head =? tail then ret tt
  else
    match fuel with
    | O => out_of_fuel
    | S fuel' =>
        let* req := read_req (head / REQ_SIZE) in
        let* c' := prq_handle c req in
        prq_loop fuel' (Z.land (head + REQ_SIZE) PRQ_RING_MASK) tail c'
    end.

(** [prq_event_thread]; the result is [handled]. *)
Definition prq_event_thread (fuel : nat) : M World bool :=
  do writel (DMA_PRS_PPR C) DMAR_PRS_REG;
  let* t := dmar_readq DMAR_PQT_REG in
  let* h := dmar_readq DMAR_PQH_REG in
  let tail := Z.land t PRQ_RING_MASK in
  let head := Z.land h PRQ_RING_MASK in
  do prq_loop fuel head tail (SvmNull, None);
  do dmar_writeq DMAR_PQH_REG tail;
  let* prs := readl DMAR_PRS_REG in
  do (if negb (Z.land prs (DMA_PRS_PRO C) =? 0) then
        let* h2 := dmar_readq DMAR_PQH_REG in
        let* t2 := dmar_readq DMAR_PQT_REG in
        if Z.land h2 PRQ_RING_MASK =? Z.land t2 PRQ_RING_MASK
        then writel (DMA_PRS_PRO C) DMAR_PRS_REG
        else ret tt
      else ret tt);
  do complete;
  ret (negb (head =? tail)).

(** *** The drain: [intel_svm_drain_prq] *)

(** The scan [while (head != tail)] under label [prq_retry]; [true] when it
    stops at a descriptor of [pasid]. *)
Fixpoint drain_scan (fuel : nat) (head tail pasid : Z) : M World bool :=
  if head =? tail then ret false
  else
    match fuel with
    | O => out_of_fuel
    | S fuel' =>
        let* req := read_req (head / REQ_SIZE) in
        if negb (pasid_present req) || negb (Svm.pasid req =? pasid) then
          drain_scan fuel' (Z.land (head + REQ_SIZE) PRQ_RING_MASK) tail pasid
        else ret true
    end.

(** Label [prq_retry]: scan, and on a hit wait for the reader and rescan. *)
Fixpoint prq_retry (fuel scan_fuel : nat) (pasid : Z) : M World unit :=
  match fuel with
  | O => out_of_fuel
  | S fuel' =>
      do reinit_completion;
      let* t := dmar_readq DMAR_PQT_REG in
      let* h := dmar_readq DMAR_PQH_REG in
      let* hit :=
        drain_scan scan_fuel (Z.land h PRQ_RING_MASK) (Z.land t PRQ_RING_MASK)
          pasid in
      if hit then do wait_for_completion; prq_retry fuel' scan_fuel pasid
      else ret tt
  end.

(** Label [qi_retry]: submit the batch, and while the hardware reports a
    pending page request overflow wait and submit again. *)
Fixpoint qi_retry (fuel : nat) (desc : list qi_desc) : M World unit :=
  match fuel with
  | O => out_of_fuel
  | S fuel' =>
      do reinit_completion;
      do qi_submit_sync desc (QI_OPT_WAIT_DRAIN C);
      let* prs := readl DMAR_PRS_REG in
      if negb (Z.land prs (DMA_PRS_PRO C) =? 0) then
        do wait_for_completion; qi_retry fuel' desc
      else ret tt
  end.

(** The three descriptors of the hardware drain. *)
Definition drain_batch (dev : device) (info : device_domain_info) (pasid : Z)
    : list qi_desc :=
  [QiInvWait (QI_DONE C) true;
   QiEiotlbPasid pasid (di_did info);
   QiDevEiotlb pasid (PCI_DEVID (di_bus info) (di_devfn info))
     (dev_ats_queue_depth dev) (di_pfsid info)].

(** [intel_svm_drain_prq]. *)
Definition intel_svm_drain_prq (fuel scan_fuel : nat) (dev : device)
    (pasid : Z) : M World unit :=
  match dev_info dev with
  | None => ret tt
  | Some info =>
      if negb (dev_is_pci dev) then ret tt
      else if negb (di_pri_enabled info) then ret tt
      else
        do prq_retry fuel scan_fuel pasid;
        qi_retry fuel (drain_batch dev info pasid)
  end.

End WithKernel.
(** *** Vocabulary of the reader properties *)

Section ReaderVocabulary.

Context {World : Type}.
Variable C : constants.
Variable Kn : kernel World.

(** A descriptor the reader rejects before any lookup. *)
Definition malformed (req : page_req_dsc) : bool :=
  negb (pasid_present req)
  || (pm_req req && (rd_req req || wr_req req))
  || (exe_req req && rd_req req).

(** A call into the PASID allocator's lookup. *)
Definition is_binding_lookup (e : event) : bool :=
  match e with EvIoasidFind _ _ => true | _ => false end.

(** A call of the fault path: into the memory manager or the fault sink. *)
Definition is_fault_resolution (e : event) : bool :=
  match e with
  | EvReport _ _ _ | EvMmget _ _ | EvMmapReadLock _ | EvMmapReadUnlock _
  | EvMmput _ | EvFindVma _ _ _ | EvHandleMmFault _ _ _ _ => true
  | _ => false
  end.

(** An invocation of the address space's fault handler. *)
Definition is_fault_handler (e : event) : bool :=
  match e with EvHandleMmFault _ _ _ _ => true | _ => false end.

(** The page group responses submitted in a trace, in order. *)
Definition responses (evs : list event) : list qi_desc :=
  flat_map (fun e =>
    match e with
    | EvQiSubmit ds _ =>
        List.filter (fun d => match d with
                         | QiPgrpResp _ _ _ _ _ _ _ _ _ => true
                         | _ => false
                         end) ds
    | _ => []
    end) evs.

(** The response the reader builds for [req] with code [code]. *)
Definition response_for (req : page_req_dsc) (code : resp_code) : qi_desc :=
  QiPgrpResp (pasid req) (rid req) (pasid_present req) (priv_data_present req)
    code (prg_index req) (lpig req)
    (if priv_data_present req then priv_data0 req else 0)
    (if priv_data_present req then priv_data1 req else 0).

(** The descriptor asks for a response: LPIG or private data. *)
Definition wants_response (req : page_req_dsc) : bool :=
  lpig req || priv_data_present req.

(** A report to the external fault sink that the sink accepted. *)
Definition handed_off (evs : list event) : bool :=
  existsb (fun e => match e with EvReport _ _ r => r =? 0 | _ => false end) evs.

(** Sign extension from bit [vs]: the value of the low [vs + 1] bits read as
    a two's complement number. *)
Definition sign_extend (vs x : Z) : Z := (x + 2 ^ vs) mod 2 ^ (vs + 1) - 2 ^ vs.

(** The flags the reader passes to the fault handler. *)
Definition fault_flags (req : page_req_dsc) : Z :=
  if wr_req req
  then Z.lor (Z.lor (FAULT_FLAG_USER C) (FAULT_FLAG_REMOTE C)) (FAULT_FLAG_WRITE C)
  else Z.lor (FAULT_FLAG_USER C) (FAULT_FLAG_REMOTE C).

(** The ring indices of the descriptors taken in a trace, in order. *)
Definition desc_indices (evs : list event) : list Z :=
  flat_map (fun e => match e with EvDesc i _ => [i] | _ => [] end) evs.

(** A write to the head register. *)
Definition is_head_write (e : event) : bool :=
  match e with EvWriteq DMAR_PQH_REG _ => true | _ => false end.

(** Neither a descriptor taken nor a register write: what handling one
    descriptor may emit. *)
Definition is_quiet (e : event) : bool :=
  match e with
  | EvDesc _ _ | EvWriteq _ _ | EvWritel _ _ | EvReadq _ _ | EvReadl _ _ => false
  | _ => true
  end.

(** The ring indices from [a] up to, not including, [b], wrapping at [n]. *)
Definition ring_between (n a b : Z) : list Z :=
  map (fun k => (a + Z.of_nat k) mod n) (seq 0 (Z.to_nat ((b - a) mod n))).

(** The number of descriptors of the ring. *)
Definition ring_entries : Z := 2 ^ (7 + prq_size_page_order C).

(** Every event satisfies [P] and the fuel is not used up, however the run
    ends. *)
Definition emits {A} (P : event -> bool) (m : M World A) : Prop :=
  forall w, forallb P (fst (m w)) = true /\ snd (m w) <> OutOfFuel.

(** A device the fault report can be made for: not PCI (the report is
    refused), or with domain info. *)
Definition dev_ok (d : device) : bool :=
  negb (dev_is_pci d) || bool_decide (is_Some (dev_info d)).

(** A lookup result that is NULL or a binding whose devices are all right,
    and not an error pointer. *)
Definition good_svm (p : svm_ptr) : bool :=
  match p with
  | SvmNull => true
  | SvmErr _ => false
  | SvmOk s => forallb (fun d => dev_ok (sd_dev d)) (svm_devs s)
  end.

Definition cache_ok (c : cache) : bool :=
  good_svm (fst c)
  && match snd c with Some d => dev_ok (sd_dev d) | None => true end.

(** The allocator's lookup never returns an error pointer. *)
Definition lookups_good : Prop :=
  forall id w, good_svm (fst (k_ioasid_find Kn id w)) = true.

(** The run completes, with a result that satisfies [Q]. *)
Definition returns {A} (Q : A -> Prop) (m : M World A) : Prop :=
  forall w, exists evs a w', m w = (evs, Done a w') /\ Q a.

End ReaderVocabulary.

(** C10 as stated, for guest-mode: a well-formed descriptor whose guest-mode
    binding has no device-binding matching its source-ID is answered
    INVALID. *)
Definition guest_unbound_answered_invalid {World : Type} (C : constants)
    (Kn : kernel World) : Prop :=
  forall (c : cache) req w e s w1 evs c' w',
    malformed req = false ->
    lookup_svm Kn (fst c) req w = (e, Done (SvmOk s) w1) ->
    Z.land (svm_flags s) (SVM_FLAG_GUEST_MODE C) <> 0 ->
    List.find (fun t => sd_sid t =? rid req) (svm_devs s) = None ->
    prq_handle C Kn c req w = (evs, Done c' w') ->
    responses evs =
      if wants_response req then [response_for req QI_RESP_INVALID] else [].

(** *** Vocabulary of the drain properties *)

Section DrainVocabulary.

Context {World : Type}.
Variable C : constants.

(** The descriptor is a request of [pasid]: what the drain waits for. *)
Definition matches (pasid : Z) (req : page_req_dsc) : bool :=
  pasid_present req && (Svm.pasid req =? pasid).

(** The event is a look at a descriptor that is not a request of [pasid]. *)
Definition passes (pasid : Z) (e : event) : Prop :=
  exists i req, e = EvDesc i req /\ matches pasid req = false.

(** A scan that went from [head] to [tail] and met no request of [pasid]. *)
Definition clean_scan (pasid head tail : Z) (scan : list event) : Prop :=
  desc_indices scan = ring_between (ring_entries C) (head / 32) (tail / 32) /\
  Forall (passes pasid) scan.

(** A scan that stopped at a request of [pasid]. *)
Definition hit_scan (pasid : Z) (scan : list event) : Prop :=
  exists pre i req,
    scan = pre ++ [EvDesc i req] /\ matches pasid req = true /\
    Forall (passes pasid) pre.

(** The software phase: rounds of re-arming the completion, reading tail and
    head, and scanning; every round but the last stops at a request of
    [pasid] and waits for the completion; the last scan is clean. *)
Inductive phase1_trace (pasid : Z) : list event -> Prop :=
| phase1_clean t h scan :
    clean_scan pasid (Z.land h (PRQ_RING_MASK C)) (Z.land t (PRQ_RING_MASK C))
      scan ->
    phase1_trace pasid
      ([EvReinitCompletion; EvReadq DMAR_PQT_REG t; EvReadq DMAR_PQH_REG h]
       ++ scan)
| phase1_retry t h scan rest :
    hit_scan pasid scan ->
    phase1_trace pasid rest ->
    phase1_trace pasid
      ([EvReinitCompletion; EvReadq DMAR_PQT_REG t; EvReadq DMAR_PQH_REG h]
       ++ scan ++ [EvWaitForCompletion] ++ rest).

(** The hardware phase: rounds of re-arming the completion, submitting the
    batch with the drain option and reading the status register; every round
    but the last reads the overflow bit set and waits; the last reads it
    clear. *)
Inductive phase2_trace (batch : list qi_desc) : list event -> Prop :=
| phase2_clear prs :
    Z.land prs (DMA_PRS_PRO C) = 0 ->
    phase2_trace batch
      [EvReinitCompletion; EvQiSubmit batch (QI_OPT_WAIT_DRAIN C);
       EvReadl DMAR_PRS_REG prs]
| phase2_retry prs rest :
    Z.land prs (DMA_PRS_PRO C) <> 0 ->
    phase2_trace batch rest ->
    phase2_trace batch
      ([EvReinitCompletion; EvQiSubmit batch (QI_OPT_WAIT_DRAIN C);
        EvReadl DMAR_PRS_REG prs; EvWaitForCompletion] ++ rest).

End DrainVocabulary.

(** *** Vocabulary of the reader's calls *)

(** A call into the memory manager: the address space's reference count, its
    read lock, the region lookup and the fault handler. *)
Definition is_mm_call (e : event) : bool :=
  match e with
  | EvMmget _ _ | EvMmapReadLock _ | EvMmapReadUnlock _ | EvMmput _
  | EvFindVma _ _ _ | EvHandleMmFault _ _ _ _ => true
  | _ => false
  end.

(** The memory manager calls of a trace, in order. *)
Definition mm_calls (evs : list event) : list event := List.filter is_mm_call evs.

(** Re-arming, waiting for, or signalling [prq_complete]. *)
Definition is_completion_event (e : event) : bool :=
  match e with
  | EvReinitCompletion | EvWaitForCompletion | EvComplete => true
  | _ => false
  end.

(** What the reader's loop emits: a descriptor taken, or one of the calls
    made while handling it. *)
Definition is_loop_event (e : event) : bool :=
  match e with
  | EvDesc _ _ | EvIoasidFind _ _ | EvReport _ _ _ | EvMmget _ _
  | EvMmapReadLock _ | EvMmapReadUnlock _ | EvMmput _ | EvFindVma _ _ _
  | EvHandleMmFault _ _ _ _ | EvQiSubmit _ _ => true
  | _ => false
  end.

End Prq.

(** ** The binding registry: host-mode bind and unbind *)

Module Registry.
Import K Svm.

(** Addresses of [kzalloc]ed [struct intel_svm] objects. *)
Abbreviation ptr := Z (only parsing).

Definition EINVAL : Z := 22.
Definition ENOMEM : Z := 12.
Definition ENOSPC : Z := 28.
Definition ENOENT : Z := 2.
Definition EACCES : Z := 13.
Definition ENOTSUPP : Z := 524.

Definition PASID_MAX : Z := 0x100000.
Definition PASID_RID2PASID : Z := 0.
Definition INVALID_IOASID : Z := 2 ^ 32 - 1.

(** Globals and constants from outside svm.c. *)
Record config : Type := mk_config {
  dmar_disabled : bool;
  intel_pasid_max_id : Z;
  host_pasid_set : Z;
  IOASID_ALLOC_BASE : Z;
  FLPT_DEFAULT_DID : Z;
  QI_DEV_EIOTLB_MAX_INVS : Z;
  SVM_FLAG_SUPERVISOR_MODE : Z;
  PASID_DISABLED : Z;
  cpu_has_la57 : bool
}.

(** One entry of the PASID allocator. *)
Record ioasid_data : Type := mk_ioasid {
  io_set : Z;
  io_private : option ptr;
  io_refs : Z
}.

(** Calls into the PASID table code and the drain, in program order. *)
Inductive action : Type :=
| ActEnablePasid (dev : Z)
| ActSetupFirstLevel (dev : Z) (mm : option Z) (pasid did : Z)
    (supervisor fl5lp : bool)
| ActTearDownEntry (dev pasid : Z) (fault_ignore keep_pte : bool)
| ActDrainPrq (dev pasid : Z).

(** The state bind and unbind work on, all of it guarded by [pasid_mutex]:
    the live [struct intel_svm] objects, [global_svm_list] (in list order),
    the PASID allocator's table, the registered MMU notifiers (binding to
    address space), the [pasid] field of each address space, and the calls
    made so far. *)
Record state : Type := mk_state {
  svms : gmap Z intel_svm;
  global_svm_list : list ptr;
  ioasids : gmap Z ioasid_data;
  notifiers : gmap Z Z;
  mm_pasid : gmap Z Z;
  actions : list action
}.

(** What the environment decides during one bind: whether the two
    allocations succeed and where, which PASID the allocator proposes, and
    what the three fallible helpers return. *)
Record bind_oracle : Type := mk_oracle {
  or_kzalloc_sdev : bool;
  or_enable_pasid : Z;
  or_kzalloc_svm : option ptr;
  or_ioasid : option Z;
  or_notifier_register : Z;
  or_setup_first_level : Z
}.

(** Modelled from the spec: [kzalloc] is outside the sources at hand; it
    returns NULL or the address of memory that is not in use. *)
Definition kzalloc_svm (choice : option ptr) (heap : gmap Z intel_svm)
    : option ptr :=
  match choice with
  | Some p => if bool_decide (heap !! p = None) then Some p else None
  | None => None
  end.

(** Modelled from the spec: the PASID allocator is outside the sources at
    hand.  [alloc(set, min, max, cookie)] returns an identifier of the range
    that is not allocated, with one reference held and the cookie attached,
    or none. *)
Definition ioasid_alloc (choice : option Z) (set min max : Z) (private : ptr)
    (t : gmap Z ioasid_data) : Z * gmap Z ioasid_data :=
  match choice with
  | Some id =>
      if (min <=? id) && (id <=? max) && negb (id =? INVALID_IOASID)
         && bool_decide (t !! id = None)
      then (id, <[id := mk_ioasid set (Some private) 1]> t)
      else (INVALID_IOASID, t)
  | None => (INVALID_IOASID, t)
  end.

(** Modelled from the spec: [put(pasid)] drops one reference; the identifier
    is free again when the last one is dropped. *)
Definition ioasid_put (id : Z) (t : gmap Z ioasid_data) : gmap Z ioasid_data :=
  match t !! id with
  | Some d =>
      if io_refs d <=? 1 then delete id t
      else <[id := mk_ioasid (io_set d) (io_private d) (io_refs d - 1)]> t
  | None => t
  end.

(** What [ioasid_find] returns: a pointer, NULL, or [ERR_PTR(-errno)]. *)
Inductive find_result : Type :=
| FPtr (p : ptr)
| FNull
| FErr (errno : Z).

(** Modelled from the spec: [find(set, pasid)] returns the cookie attached
    to an allocated identifier of the set; [set = None] is a NULL set, which
    matches every set. *)
Definition ioasid_find (set : option Z) (id : Z) (t : gmap Z ioasid_data)
    : find_result :=
  match t !! id with
  | None => FErr ENOENT
  | Some d =>
      match set with
      | Some s =>
          if negb (io_set d =? s) then FErr EACCES
          else match io_private d with Some p => FPtr p | None => FNull end
      | None => match io_private d with Some p => FPtr p | None => FNull end
      end
  end.

Definition mm_eqb (a b : option Z) : bool :=
  match a, b with
  | Some x, Some y => x =? y
  | None, None => true
  | _, _ => false
  end.

(** [d->dev == dev]: devices are compared by address. *)
Definition dev_eqb (a b : device) : bool := dev_id a =? dev_id b.

(** The first element that satisfies [p], replaced by its image under [f]:
    the new element and the new list. *)
Fixpoint update_first {A} (p : A -> bool) (f : A -> A) (l : list A)
    : option (A * list A) :=
  match l with
  | [] => None
  | x :: l' =>
      if p x then Some (f x, f x :: l')
      else
        match update_first p f l' with
        | Some (y, l'') => Some (y, x :: l'')
        | None => None
        end
  end.

(** The list without the first element that satisfies [p]. *)
Fixpoint remove_first {A} (p : A -> bool) (l : list A) : list A :=
  match l with
  | [] => []
  | x :: l' => if p x then l' else x :: remove_first p l'
  end.

Section WithConfig.

Variable G : config.

(** [load_pasid]: the store to [mm->pasid]; the per-CPU callback
    [_load_pasid] is empty. *)
Definition load_pasid (mm pasid : Z) (st : state) : state :=
  mk_state (svms st) (global_svm_list st) (ioasids st) (notifiers st)
    (<[mm := pasid]> (mm_pasid st)) (actions st).

Definition log (a : action) (st : state) : state :=
  mk_state (svms st) (global_svm_list st) (ioasids st) (notifiers st)
    (mm_pasid st) (actions st ++ [a]).

Definition set_svms (h : gmap Z intel_svm) (st : state) : state :=
  mk_state h (global_svm_list st) (ioasids st) (notifiers st)
    (mm_pasid st) (actions st).

Definition set_list (l : list ptr) (st : state) : state :=
  mk_state (svms st) l (ioasids st) (notifiers st) (mm_pasid st) (actions st).

Definition set_ioasids (t : gmap Z ioasid_data) (st : state) : state :=
  mk_state (svms st) (global_svm_list st) t (notifiers st)
    (mm_pasid st) (actions st).

Definition set_notifiers (n : gmap Z Z) (st : state) : state :=
  mk_state (svms st) (global_svm_list st) (ioasids st) n
    (mm_pasid st) (actions st).

(** [list_for_each_entry(t, &global_svm_list, list) if (t->mm != mm)
    continue; ...]: the first binding of [mm].  The outer [None] is a list
    node that is not a live object. *)
Fixpoint find_svm_by_mm (mm : option Z) (l : list ptr)
    (heap : gmap Z intel_svm) : option (option (ptr * intel_svm)) :=
  match l with
  | [] => Some None
  | p :: l' =>
      match heap !! p with
      | None => None
      | Some t =>
          if mm_eqb (svm_mm t) mm then Some (Some (p, t))
          else find_svm_by_mm mm l' heap
      end
  end.

(** The [success:] label's two stores. *)
Definition mark_success (pasid : Z) (dev : device) (d : intel_svm_dev)
    : intel_svm_dev :=
  mk_sdev (sd_dev d) (sd_iommu d) (sd_domain d) (sd_users d) (sd_did d)
    (sd_sid d) (sd_qdep d) (sd_dev_iotlb d) pasid (Some (dev_id dev)).

Definition with_users (u : Z) (d : intel_svm_dev) : intel_svm_dev :=
  mk_sdev (sd_dev d) (sd_iommu d) (sd_domain d) u (sd_did d)
    (sd_sid d) (sd_qdep d) (sd_dev_iotlb d) (sd_pasid d) (sd_sva_dev d).

Definition with_devs (devs : list intel_svm_dev) (s : intel_svm) : intel_svm :=
  mk_svm (svm_mm s) (svm_flags s) (svm_pasid s) (svm_gpasid s) devs.

(** The result of [intel_svm_bind_mm]: the return value, [*sd], and the
    state. *)
Definition bind_result : Type := Z * option intel_svm_dev * state.

(** The new [struct intel_svm_dev], from [kzalloc] to [init_rcu_head]. *)
Definition new_sdev (dev : device) (iommu : intel_iommu)
    (info : device_domain_info) : intel_svm_dev :=
  mk_sdev dev (iommu_id iommu) (di_domain info) 1 (FLPT_DEFAULT_DID G)
    (PCI_DEVID (di_bus info) (di_devfn info))
    (if di_ats_enabled info
     then (if di_ats_qdep info >=? QI_DEV_EIOTLB_MAX_INVS G then 0
           else di_ats_qdep info)
     else 0)
    (di_ats_enabled info) 0 None.

Definition setup_first_level (dev : device) (mm : option Z) (pasid : Z)
    (st : state) : state :=
  log (ActSetupFirstLevel (dev_id dev) mm pasid (FLPT_DEFAULT_DID G)
         (negb (bool_decide (is_Some mm))) (cpu_has_la57 G)) st.

(** [intel_svm_bind_mm] from [sdev = kzalloc(...)] on: a new device-binding,
    on the binding [found] by the list walk or on a new one.  [None] is the
    read of [info->bus] through a NULL [info]. *)
Definition bind_new_sdev (o : bind_oracle) (dev : device) (iommu : intel_iommu)
    (flags : Z) (mm : option Z) (pasid_max : Z)
    (found : option (ptr * intel_svm)) (st : state) : option bind_result :=
  if negb (or_kzalloc_sdev o) then Some (- ENOMEM, None, st)
  else
    let st := log (ActEnablePasid (dev_id dev)) st in
    if negb (or_enable_pasid o =? 0) then Some (or_enable_pasid o, None, st)
    else
      match dev_info dev with
      | None => None
      | Some info =>
          let sdev := new_sdev dev iommu info in
          match found with
          | None =>
              match kzalloc_svm (or_kzalloc_svm o) (svms st) with
              | None => Some (- ENOMEM, None, st)
              | Some p =>
                  let pasid_max :=
                    if pasid_max >? intel_pasid_max_id G
                    then intel_pasid_max_id G else pasid_max in
                  let '(pasid, t) :=
                    ioasid_alloc (or_ioasid o) (host_pasid_set G)
                      (IOASID_ALLOC_BASE G) ((pasid_max - 1) mod 2 ^ 32) p
                      (ioasids st) in
                  if pasid =? INVALID_IOASID then Some (- ENOSPC, None, st)
                  else
                    let st := set_ioasids t st in
                    let svm := mk_svm mm flags pasid 0 [] in
                    let registered :=
                      match mm with
                      | Some m =>
                          if negb (or_notifier_register o =? 0)
                          then inl (or_notifier_register o)
                          else inr (set_notifiers (<[p := m]> (notifiers st)) st)
                      | None => inr st
                      end in
                    match registered with
                    | inl ret =>
                        Some (ret, None,
                              set_ioasids (ioasid_put pasid (ioasids st)) st)
                    | inr st =>
                        let st := setup_first_level dev mm pasid st in
                        if negb (or_setup_first_level o =? 0) then
                          let st :=
                            match mm with
                            | Some _ =>
                                set_notifiers (delete p (notifiers st)) st
                            | None => st
                            end in
                          Some (or_setup_first_level o, None,
                                set_ioasids (ioasid_put pasid (ioasids st)) st)
                        else
                          let st := set_list (global_svm_list st ++ [p]) st in
                          let st :=
                            match mm with
                            | Some m => load_pasid m pasid st
                            | None => st
                            end in
                          let sdev := mark_success pasid dev sdev in
                          Some (0, Some sdev,
                                set_svms (<[p := with_devs [sdev] svm]> (svms st)) st)
                    end
              end
          | Some (p, svm) =>
              let st := setup_first_level dev mm (svm_pasid svm) st in
              if negb (or_setup_first_level o =? 0)
              then Some (or_setup_first_level o, None, st)
              else
                let sdev := mark_success (svm_pasid svm) dev sdev in
                Some (0, Some sdev,
                      set_svms
                        (<[p := with_devs (sdev :: svm_devs svm) svm]> (svms st))
                        st)
          end
      end.

(** [intel_svm_bind_mm].  [None] is a fault on a pointer that is not live. *)
Definition intel_svm_bind_mm (o : bind_oracle) (dev : device) (flags : Z)
    (mm : option Z) (st : state) : option bind_result :=
  match dev_iommu dev with
  | None => Some (- EINVAL, None, st)
  | Some iommu =>
      if dmar_disabled G then Some (- EINVAL, None, st)
      else if negb (iommu_svm_capable iommu) then Some (- ENOTSUPP, None, st)
      else
        let pasid_max :=
          if dev_is_pci dev then dev_max_pasids dev else Z.shiftl 1 20 in
        if dev_is_pci dev && (pasid_max <? 0) then Some (- EINVAL, None, st)
        else if negb (Z.land flags (SVM_FLAG_SUPERVISOR_MODE G) =? 0)
                && (negb (iommu_ecap_srs iommu) || bool_decide (is_Some mm))
        then Some (- EINVAL, None, st)
        else
          match find_svm_by_mm mm (global_svm_list st) (svms st) with
          | None => None
          | Some None => bind_new_sdev o dev iommu flags mm pasid_max None st
          | Some (Some (p, svm)) =>
              if svm_pasid svm >=? pasid_max then Some (- ENOSPC, None, st)
              else
                match
                  update_first (fun d => dev_eqb (sd_dev d) dev)
                    (fun d =>
                       mark_success (svm_pasid svm) dev
                         (with_users (s32 (sd_users d + 1)) d))
                    (svm_devs svm)
                with
                | Some (sdev, devs) =>
                    Some (0, Some sdev,
                          set_svms (<[p := with_devs devs svm]> (svms st)) st)
                | None =>
                    bind_new_sdev o dev iommu flags mm pasid_max
                      (Some (p, svm)) st
                end
          end
  end.

(** [pasid_to_svm_sdev] with [pasid_mutex] held: the return value, [*rsvm]
    and [*rsdev]. *)
Definition pasid_to_svm_sdev (dev : device) (set : option Z) (pasid : Z)
    (st : state)
    : option (Z * option (ptr * intel_svm) * option intel_svm_dev) :=
  if (pasid =? INVALID_IOASID) || (pasid >=? PASID_MAX)
  then Some (- EINVAL, None, None)
  else
    match ioasid_find set pasid (ioasids st) with
    | FErr e =>
        if pasid =? PASID_RID2PASID then Some (0, None, None)
        else Some (- e, None, None)
    | FNull => Some (0, None, None)
    | FPtr p =>
        match svms st !! p with
        | None => None
        | Some svm =>
            match svm_devs svm with
            | [] => Some (- EINVAL, None, None)
            | _ :: _ =>
                Some (0, Some (p, svm),
                      List.find (fun d => dev_eqb (sd_dev d) dev) (svm_devs svm))
            end
        end
    end.

(** [intel_svm_unbind_mm]. *)
Definition intel_svm_unbind_mm (dev : device) (pasid : Z) (st : state)
    : option (Z * state) :=
  match dev_iommu dev with
  | None => Some (- EINVAL, st)
  | Some _ =>
      match pasid_to_svm_sdev dev (Some (host_pasid_set G)) pasid st with
      | None => None
      | Some (ret, found, sdev) =>
          if negb (ret =? 0) then Some (ret, st)
          else
            match found, sdev with
            | Some (p, svm), Some d =>
                let users := s32 (sd_users d - 1) in
                if users =? 0 then
                  let devs :=
                    remove_first (fun t => dev_eqb (sd_dev t) dev)
                      (svm_devs svm) in
                  let st :=
                    log (ActTearDownEntry (dev_id dev) (svm_pasid svm)
                           false false) st in
                  let st := log (ActDrainPrq (dev_id dev) (svm_pasid svm)) st in
                  match devs with
                  | [] =>
                      let st :=
                        set_ioasids (ioasid_put (svm_pasid svm) (ioasids st))
                          st in
                      let st :=
                        match svm_mm svm with
                        | Some m =>
                            load_pasid m (PASID_DISABLED G)
                              (set_notifiers (delete p (notifiers st)) st)
                        | None => st
                        end in
                      let st :=
                        set_list (remove_first (Z.eqb p) (global_svm_list st))
                          st in
                      Some (0, set_svms (delete p (svms st)) st)
                  | _ :: _ =>
                      Some (0,
                            set_svms (<[p := with_devs devs svm]> (svms st)) st)
                  end
                else
                  match
                    update_first (fun t => dev_eqb (sd_dev t) dev)
                      (with_users users) (svm_devs svm)
                  with
                  | Some (_, devs) =>
                      Some (0,
                            set_svms (<[p := with_devs devs svm]> (svms st)) st)
                  | None => None
                  end
            | _, _ => Some (0, st)
            end
      end
  end.

(** [intel_svm_bind]: the flags come from [drvdata]; the handle is the
    device-binding. *)
Definition intel_svm_bind (o : bind_oracle) (dev : device) (mm : option Z)
    (drvdata : option Z) (st : state) : option bind_result :=
  intel_svm_bind_mm o dev (default 0 drvdata) mm st.

(** [intel_svm_unbind]: the device and the PASID are read from the handle. *)
Definition intel_svm_unbind (sva : intel_svm_dev) (st : state)
    : option (Z * state) :=
  intel_svm_unbind_mm (sd_dev sva) (sd_pasid sva) st.

(** [intel_svm_get_pasid]: the PASID stored in the handle. *)
Definition intel_svm_get_pasid (sva : intel_svm_dev) : Z := sd_pasid sva.

(** The binding registry proper: the objects, the list, the allocator table
    and the notifier registrations. *)
Definition registry (st : state)
    : gmap Z intel_svm * list ptr * gmap Z ioasid_data * gmap Z Z :=
  (svms st, global_svm_list st, ioasids st, notifiers st).

End WithConfig.
(** *** Vocabulary of the registry properties *)

Section RegistryVocabulary.

Variable G : config.

(** The argument checks at the head of [intel_svm_bind_mm] pass. *)
Definition bind_args_ok (dev : device) (iommu : intel_iommu) (flags : Z)
    (mm : option Z) : Prop :=
  dev_iommu dev = Some iommu /\
  dmar_disabled G = false /\
  iommu_svm_capable iommu = true /\
  (dev_is_pci dev = true -> 0 <= dev_max_pasids dev) /\
  (Z.land flags (SVM_FLAG_SUPERVISOR_MODE G) = 0 \/
   (iommu_ecap_srs iommu = true /\ mm = None)).

(** The PASID limit of a device: [pci_max_pasids] for a PCI device, 2^20
    otherwise. *)
Definition pasid_limit (dev : device) : Z :=
  if dev_is_pci dev then dev_max_pasids dev else Z.shiftl 1 20.

(** A device-binding as bind leaves it: a positive usage count, the PASID of
    its binding, the handle's device set, and a device behind an IOMMU. *)
Definition sdev_wf (svm : intel_svm) (d : intel_svm_dev) : Prop :=
  0 < sd_users d < 2 ^ 31 /\
  sd_pasid d = svm_pasid svm /\
  sd_sva_dev d = Some (dev_id (sd_dev d)) /\
  is_Some (dev_iommu (sd_dev d)).

(** A binding on [global_svm_list] as bind leaves it: the allocator maps its
    PASID, in the host set, to the binding; the PASID is below [PASID_MAX];
    it has at least one device-binding (invariant I1). *)
Definition svm_wf (st : state) (p : Z) (svm : intel_svm) : Prop :=
  (exists io, ioasids st !! svm_pasid svm = Some io /\
              io_set io = host_pasid_set G /\ io_private io = Some p) /\
  svm_pasid svm < PASID_MAX /\
  svm_devs svm <> [] /\
  Forall (sdev_wf svm) (svm_devs svm).

(** Every list node is a live, well-formed binding, and notifiers are
    registered for live bindings only. *)
Definition wf (st : state) : Prop :=
  (forall p, In p (global_svm_list st) ->
     exists svm, svms st !! p = Some svm /\ svm_wf st p svm) /\
  (forall p, is_Some (notifiers st !! p) -> is_Some (svms st !! p)).

End RegistryVocabulary.

(** C3 as stated: when the address space has a binding with a
    device-binding for the device, bind returns [-EALREADY] and the state is
    as before. *)
Definition EALREADY : Z := 114.

Definition bind_existing_refused (G : config) : Prop :=
  forall o dev iommu flags mm st p svm d,
    bind_args_ok G dev iommu flags mm ->
    find_svm_by_mm mm (global_svm_list st) (svms st) = Some (Some (p, svm)) ->
    List.find (fun t => dev_eqb (sd_dev t) dev) (svm_devs svm) = Some d ->
    intel_svm_bind_mm G o dev flags mm st = Some (- EALREADY, None, st).

End Registry.

(** ** Guest-mode bind and unbind *)

Module Guest.
Import K Svm Registry.

Definition EBUSY : Z := 16.

(** [struct iommu_gpasid_bind_data], with [vendor.vtd.flags] as
    [bd_vtd_flags]. *)
Record gpasid_bind_data : Type := mk_bind_data {
  bd_argsz : Z;
  bd_format : Z;
  bd_flags : Z;
  bd_gpgd : Z;
  bd_hpasid : Z;
  bd_gpasid : Z;
  bd_addr_width : Z;
  bd_vtd_flags : Z
}.

(** Constants from uapi/linux/iommu.h and linux/intel-svm.h;
    [vtd_argsz_min] is
    [offsetofend(struct iommu_gpasid_bind_data, vendor.vtd)]. *)
Record guest_constants : Type := mk_guest_constants {
  IOMMU_PASID_FORMAT_INTEL_VTD : Z;
  vtd_argsz_min : Z;
  IOMMU_SVA_VTD_GPASID_LAST : Z;
  IOMMU_SVA_HPASID_DEF : Z;
  IOMMU_SVA_GPASID_VAL : Z;
  SVM_FLAG_GUEST_PASID : Z;
  SVM_FLAG_GUEST_MODE : Z
}.

(** Calls that leave svm.c during a guest-mode bind or unbind, in program
    order. *)
Inductive gaction : Type :=
| GaAddFaultData (dev pasid ret : Z)
| GaDeleteFaultData (dev pasid : Z)
| GaAttachSpid (hpasid gpasid : Z)
| GaDetachSpid (pasid : Z)
| GaAttachData (pasid : Z) (svm : ptr)
| GaDetachData (pasid : Z)
| GaIoasidGet (pasid : Z)
| GaIoasidPut (pasid : Z)
| GaEnablePasid (dev ret : Z)
| GaSetupNested (dev gpgd hpasid addr_width ret : Z)
| GaTearDownEntry (dev pasid : Z) (fault_ignore keep_pte : bool)
| GaDrainPrq (dev pasid : Z)
| GaKfreeSvm (p : ptr)
| GaKfreeSdev (dev : Z).

(** What the environment decides during one guest-mode bind or unbind. *)
Record guest_oracle : Type := mk_guest_oracle {
  go_domain_get_pasid : Z;
  go_is_aux_domain : bool;
  go_add_fault_data : Z;
  go_kzalloc_svm : option ptr;
  go_kzalloc_sdev : bool;
  go_feat_aux : bool;
  go_enable_pasid : Z;
  go_setup_nested : Z
}.

(** Modelled from the spec: [attach_data(pasid, B)] sets the cookie of an
    allocated identifier, [detach_data(pasid)] clears it, [get(pasid)] takes
    one reference; each does nothing for an identifier that is not
    allocated. *)
Definition ioasid_attach_data (id : Z) (p : ptr) (t : gmap Z ioasid_data)
    : gmap Z ioasid_data :=
  match t !! id with
  | Some d => <[id := mk_ioasid (io_set d) (Some p) (io_refs d)]> t
  | None => t
  end.

Definition ioasid_detach_data (id : Z) (t : gmap Z ioasid_data)
    : gmap Z ioasid_data :=
  match t !! id with
  | Some d => <[id := mk_ioasid (io_set d) None (io_refs d)]> t
  | None => t
  end.

Definition ioasid_get (id : Z) (t : gmap Z ioasid_data) : gmap Z ioasid_data :=
  match t !! id with
  | Some d => <[id := mk_ioasid (io_set d) (io_private d) (io_refs d + 1)]> t
  | None => t
  end.

(** The result of a guest-mode bind: the return value, [data->hpasid] as the
    call leaves it (0 stands for it when [data] is NULL), the state, and the
    calls made. *)
Definition gbind_result : Type := Z * Z * state * list gaction.

Section WithConstants.

Variable G : config.
Variable GC : guest_constants.

Definition hpasid_def (flags : Z) : bool :=
  negb (Z.land flags (IOMMU_SVA_HPASID_DEF GC) =? 0).

Definition with_flags (f : Z) (s : intel_svm) : intel_svm :=
  mk_svm (svm_mm s) f (svm_pasid s) (svm_gpasid s) (svm_devs s).

(** Label [out] of [intel_svm_bind_gpasid].  [created] is the binding this
    call allocated, still without device-binding; [hpasid] is
    [data->hpasid] at this point. *)
Definition gbind_out (o : guest_oracle) (dev : device)
    (data : gpasid_bind_data) (fault_data : bool) (ret hpasid : Z)
    (created : option ptr) (st : state) (log : list gaction) : gbind_result :=
  let '(st, log) :=
    match created with
    | Some p =>
        (set_ioasids (ioasid_detach_data hpasid (ioasids st)) st,
         log ++ [GaDetachData hpasid; GaKfreeSvm p])
    | None => (st, log)
    end in
  let log :=
    if negb (ret =? 0) && go_is_aux_domain o && fault_data
    then log ++ [GaDeleteFaultData (dev_id dev) (bd_hpasid data)]
    else log in
  (ret, bd_hpasid data, st, log).

(** [intel_svm_bind_gpasid] from [sdev = kzalloc(...)] on.  [p] and [svm]
    are the binding, found or just created ([created]). *)
Definition gbind_sdev (o : guest_oracle) (domain : Z) (dev : device)
    (iommu : intel_iommu) (info : device_domain_info)
    (data : gpasid_bind_data) (fault_data : bool) (hpasid : Z)
    (p : ptr) (svm : intel_svm) (created : bool) (st : state)
    (log : list gaction) : gbind_result :=
  let cleanup := if created then Some p else None in
  if negb (go_kzalloc_sdev o) then
    gbind_out o dev data fault_data (- ENOMEM) hpasid cleanup st log
  else
    let sdev :=
      mk_sdev dev (iommu_id iommu) domain (if go_feat_aux o then 1 else 0) 0
        (PCI_DEVID (di_bus info) (di_devfn info)) 0 false 0 None in
    let enable :=
      negb (hpasid_def (bd_flags data)) && (dev_max_pasids dev =? PASID_MAX) in
    let log :=
      if enable then log ++ [GaEnablePasid (dev_id dev) (go_enable_pasid o)]
      else log in
    if enable && negb (go_enable_pasid o =? 0) then
      gbind_out o dev data fault_data (go_enable_pasid o) hpasid cleanup st
        (log ++ [GaKfreeSdev (dev_id dev)])
    else
      let log :=
        log ++ [GaSetupNested (dev_id dev) (bd_gpgd data) hpasid
                  (bd_addr_width data) (go_setup_nested o)] in
      if negb (go_setup_nested o =? 0) then
        gbind_out o dev data fault_data (go_setup_nested o) hpasid cleanup st
          (log ++ [GaKfreeSdev (dev_id dev)])
      else
        let svm :=
          with_devs (sdev :: svm_devs svm)
            (with_flags (Z.lor (svm_flags svm) (SVM_FLAG_GUEST_MODE GC)) svm) in
        gbind_out o dev data fault_data 0 hpasid None
          (set_svms (<[p := svm]> (svms st)) st) log.

(** [intel_svm_bind_gpasid].  [data] may be NULL; [fault_data] is whether
    the pointer is not NULL.  [None] is a fault on a pointer that is not
    live. *)
Definition intel_svm_bind_gpasid (o : guest_oracle) (domain : Z) (dev : device)
    (data : option gpasid_bind_data) (fault_data : bool) (st : state)
    : option gbind_result :=
  match dev_iommu dev, data with
  | None, Some data => Some (- EINVAL, bd_hpasid data, st, [])
  | _, None => Some (- EINVAL, 0, st, [])
  | Some iommu, Some data =>
      let fail e := Some (e, bd_hpasid data, st, []) in
      if negb (bd_format data =? IOMMU_PASID_FORMAT_INTEL_VTD GC)
      then fail (- EINVAL)
      else if bd_argsz data <? vtd_argsz_min GC then fail (- EINVAL)
      else if negb (Z.land (bd_vtd_flags data)
                      (Z.lnot (IOMMU_SVA_VTD_GPASID_LAST GC - 1)) =? 0)
      then fail (- EINVAL)
      else if negb (dev_is_pci dev) then fail (- ENOTSUPP)
      else if negb (hpasid_def (bd_flags data))
              && negb (dev_max_pasids dev =? PASID_MAX)
      then fail (- EINVAL)
      else
        let chosen :=
          if hpasid_def (bd_flags data) then
            if go_domain_get_pasid o <? 0 then inl (go_domain_get_pasid o)
            else inr (go_domain_get_pasid o, Some (host_pasid_set G))
          else if (bd_hpasid data <=? 0) || (bd_hpasid data >=? PASID_MAX)
          then inl (- EINVAL)
          else inr (bd_hpasid data, None) in
        match chosen with
        | inl e => fail e
        | inr (hpasid, pasid_set) =>
            match dev_info dev with
            | None => Some (- EINVAL, hpasid, st, [])
            | Some info =>
                let add := go_is_aux_domain o && fault_data in
                let log :=
                  if add
                  then [GaAddFaultData (dev_id dev) hpasid (go_add_fault_data o)]
                  else [] in
                if add && negb (go_add_fault_data o =? 0)
                then Some (go_add_fault_data o, hpasid, st, log)
                else
                  match pasid_to_svm_sdev dev pasid_set hpasid st with
                  | None => None
                  | Some (ret, found, sdev) =>
                      if negb (ret =? 0) then
                        Some (gbind_out o dev data fault_data ret hpasid None
                                st log)
                      else
                        match sdev, found with
                        | Some _, _ =>
                            Some (gbind_out o dev data fault_data (- EBUSY)
                                    hpasid None st log)
                        | None, Some (p, svm) =>
                            Some (gbind_sdev o domain dev iommu info data
                                    fault_data hpasid p svm false st log)
                        | None, None =>
                            match kzalloc_svm (go_kzalloc_svm o) (svms st) with
                            | None =>
                                Some (gbind_out o dev data fault_data
                                        (- ENOMEM) hpasid None st log)
                            | Some p =>
                                let gval :=
                                  negb (Z.land (bd_flags data)
                                          (IOMMU_SVA_GPASID_VAL GC) =? 0) in
                                let svm :=
                                  mk_svm None
                                    (if gval then SVM_FLAG_GUEST_PASID GC else 0)
                                    hpasid
                                    (if gval then bd_gpasid data else 0) [] in
                                let log :=
                                  if gval && negb (hpasid_def (bd_flags data))
                                  then log ++ [GaAttachSpid hpasid
                                                 (bd_gpasid data)]
                                  else log in
                                let log :=
                                  log ++ [GaAttachData hpasid p;
                                          GaIoasidGet hpasid] in
                                let st :=
                                  set_ioasids
                                    (ioasid_get hpasid
                                       (ioasid_attach_data hpasid p
                                          (ioasids st))) st in
                                Some (gbind_sdev o domain dev iommu info data
                                        fault_data hpasid p svm true st log)
                            end
                        end
                  end
            end
        end
  end.

(** [intel_svm_drop_pasid]. *)
Definition intel_svm_drop_pasid (pasid flags : Z) (st : state)
    : state * list gaction :=
  (set_ioasids (ioasid_put pasid (ioasid_detach_data pasid (ioasids st))) st,
   (if negb (hpasid_def flags) then [GaDetachSpid pasid] else [])
   ++ [GaDetachData pasid; GaIoasidPut pasid]).

(** [intel_svm_unbind_gpasid]: the return value, the state and the calls
    made.  [None] is a fault, or a path on which the function tests the
    local [sdev] that nothing has assigned: when [pasid_to_svm_sdev] returns
    an error. *)
Definition intel_svm_unbind_gpasid (o : guest_oracle) (dev : device)
    (pasid user_flags : Z) (st : state) : option (Z * state * list gaction) :=
  match dev_iommu dev with
  | None => Some (- EINVAL, st, [])
  | Some _ =>
      let chosen :=
        if hpasid_def user_flags then
          if go_domain_get_pasid o <? 0 then inl (go_domain_get_pasid o)
          else inr (go_domain_get_pasid o, Some (host_pasid_set G), true)
        else inr (pasid, None, false) in
      match chosen with
      | inl e => Some (e, st, [])
      | inr (pasid, pasid_set, keep_pte) =>
          match pasid_to_svm_sdev dev pasid_set pasid st with
          | None => None
          | Some (ret, found, sdev) =>
              if negb (ret =? 0) then None
              else
                match sdev, found with
                | Some d, Some (p, svm) =>
                    let users :=
                      if go_feat_aux o then s32 (sd_users d - 1)
                      else sd_users d in
                    let '(st, log) :=
                      if users =? 0 then
                        let devs :=
                          remove_first (fun t => dev_eqb (sd_dev t) dev)
                            (svm_devs svm) in
                        let log :=
                          [GaTearDownEntry (dev_id dev) (svm_pasid svm) false
                             keep_pte;
                           GaDrainPrq (dev_id dev) (svm_pasid svm)] in
                        match devs with
                        | [] =>
                            let '(st, l) :=
                              intel_svm_drop_pasid pasid user_flags st in
                            (set_svms (delete p (svms st)) st,
                             log ++ l ++ [GaKfreeSvm p])
                        | _ :: _ =>
                            (set_svms (<[p := with_devs devs svm]> (svms st))
                               st, log)
                        end
                      else
                        match
                          update_first (fun t => dev_eqb (sd_dev t) dev)
                            (with_users users) (svm_devs svm)
                        with
                        | Some (_, devs) =>
                            (set_svms (<[p := with_devs devs svm]> (svms st))
                               st, [])
                        | None => (st, [])
                        end in
                    Some (0, st,
                          log
                          ++ (if go_is_aux_domain o
                              then [GaDeleteFaultData (dev_id dev) pasid]
                              else [])
                          ++ [GaKfreeSdev (dev_id dev)])
                | _, _ => Some (0, st, [])
                end
          end
      end
  end.

End WithConstants.

(** *** Vocabulary of the guest-mode properties *)

(** The allocator calls of a trace, in order. *)
Definition allocator_calls (log : list gaction) : list gaction :=
  List.filter (fun a => match a with
                        | GaAttachSpid _ _ | GaDetachSpid _ | GaAttachData _ _
                        | GaDetachData _ | GaIoasidGet _ | GaIoasidPut _ => true
                        | _ => false
                        end) log.

End Guest.

(** ** A PASID freed while it is bound *)

Module FreeNotify.
Import K Svm Registry Guest.

(** What [is_aux_domain] and the [kzalloc] of the record return for one
    device-binding of the loop in [intel_svm_free_async_fn]. *)
Record sdev_env : Type := mk_sdev_env {
  se_is_aux_domain : bool;
  se_kzalloc_subdev : bool
}.

(** The loop over [svm->devs] of [intel_svm_free_async_fn]: the calls made
    and the devices recorded on the local list [subdevs], in order. *)
Fixpoint free_devs (env : Z -> sdev_env) (pasid : Z)
    (devs : list intel_svm_dev) : list gaction * list Z :=
  match devs with
  | [] => ([], [])
  | sdev :: rest =>
      let dev := dev_id (sd_dev sdev) in
      let '(log, subdevs) := free_devs env pasid rest in
      let here :=
        [GaTearDownEntry dev pasid true false; GaDrainPrq dev pasid] in
      if se_is_aux_domain (env dev) then
        if se_kzalloc_subdev (env dev)
        then (here ++ GaKfreeSdev dev :: log, dev :: subdevs)
        else (here ++ log, subdevs)
      else (here ++ log, subdevs)
  end.

Section WithConstants.

Variable GC : guest_constants.

(** [intel_svm_free_async_fn] for the binding at [p].  [None] is a work item
    whose binding is not live. *)
Definition intel_svm_free_async_fn (env : Z -> sdev_env) (p : ptr) (st : state)
    : option (state * list gaction) :=
  match svms st !! p with
  | None => None
  | Some svm =>
      let pasid := svm_pasid svm in
      let '(log, subdevs) := free_devs env pasid (svm_devs svm) in
      let '(st, drop) := intel_svm_drop_pasid GC (svm_pasid svm) 0 st in
      Some (set_svms (delete p (svms st)) st,
            log ++ drop ++ [GaKfreeSvm p]
            ++ map (fun dev => GaDeleteFaultData dev pasid) subdevs)
  end.

(** Constants of linux/notifier.h and linux/ioasid.h. *)
Variable NOTIFY_DONE NOTIFY_OK IOASID_NOTIFY_FREE : Z.

(** [pasid_status_change]: the return value and the binding whose work item
    is queued.  [pdata] is [args->pdata], NULL as [None]. *)
Definition pasid_status_change (code id : Z) (pdata : option ptr) (st : state)
    : option (Z * option ptr) :=
  if code =? IOASID_NOTIFY_FREE then
    match pdata with
    | None => Some (NOTIFY_DONE, None)
    | Some p =>
        match svms st !! p with
        | None => None
        | Some svm =>
            if negb (id =? svm_pasid svm) then Some (NOTIFY_DONE, None)
            else Some (NOTIFY_OK, Some p)
        end
    end
  else Some (NOTIFY_DONE, None).

End WithConstants.

(** *** Vocabulary of the clean-up properties *)

(** Clearing the PASID entry of a device and draining it, as the clean-up
    does: faults ignored, page tables not kept. *)
Definition teardown_of (pasid : Z) (sdev : intel_svm_dev) : list gaction :=
  [GaTearDownEntry (dev_id (sd_dev sdev)) pasid true false;
   GaDrainPrq (dev_id (sd_dev sdev)) pasid].

Definition is_teardown (a : gaction) : bool :=
  match a with
  | GaTearDownEntry _ _ _ _ | GaDrainPrq _ _ => true
  | _ => false
  end.

Definition is_fault_data_delete (a : gaction) : bool :=
  match a with GaDeleteFaultData _ _ => true | _ => false end.

End FreeNotify.

(** ** The page response of an external fault handler *)

Module Response.
Import K Svm Registry.

Definition ENODEV : Z := 19.

(** A page group response as [intel_svm_page_response] packs it: the
    arguments the [QI_PGRP_*] macros are applied to.  The response code is
    the caller's [msg->code], not checked. *)
Record pgrp_resp : Type := mk_pgrp {
  pg_pasid : Z;
  pg_did : Z;
  pg_pasid_p : bool;
  pg_pdp : bool;
  pg_code : Z;
  pg_idx : Z;
  pg_lpig : bool;
  pg_qw2 : Z;
  pg_qw3 : Z
}.

(** [intel_svm_page_response]: the return value and the descriptors
    submitted with [qi_submit_sync].  [bus] and [devfn] are what
    [device_to_iommu] stores through its two out-parameters; [dev], [evt] and
    [msg] may be NULL; [msg] is its [code].  [None] is a fault on a pointer
    that is not live. *)
Definition intel_svm_page_response (dev : option device) (bus devfn : Z)
    (evt : option iommu_fault_event) (msg : option Z) (st : state)
    : option (Z * list pgrp_resp) :=
  match dev with
  | None => Some (- ENODEV, [])
  | Some d =>
      if negb (dev_is_pci d) then Some (- ENODEV, [])
      else
        match dev_iommu d with
        | None => Some (- ENODEV, [])
        | Some _ =>
            match msg, evt with
            | Some code, Some e =>
                let sid := PCI_DEVID bus devfn in
                let pasid_present := prm_pasid_valid e in
                let private_present := prm_priv_data e in
                let last_page := prm_last_page e in
                if negb pasid_present then Some (- EINVAL, [])
                else if (prm_pasid e =? 0) || (prm_pasid e >=? PASID_MAX)
                then Some (- EINVAL, [])
                else
                  match pasid_to_svm_sdev d None (prm_pasid e) st with
                  | None => None
                  | Some (ret, _, sdev) =>
                      if negb (ret =? 0) || negb (bool_decide (is_Some sdev))
                      then Some (- ENODEV, [])
                      else if last_page || private_present then
                        Some (0,
                              [mk_pgrp (prm_pasid e) sid pasid_present
                                 private_present code (prm_grpid e) last_page
                                 (if private_present
                                  then fst (prm_private_data e) else 0)
                                 (if private_present
                                  then snd (prm_private_data e) else 0)])
                      else Some (0, [])
                  end
            | _, _ => Some (- EINVAL, [])
            end
        end
  end.

(** The event [intel_svm_prq_report] fills in for a descriptor, for a device
    with domain info [info]. *)
Definition fault_event_of (info : device_domain_info) (desc : page_req_dsc)
    : iommu_fault_event :=
  {| prm_addr := u64 (Z.shiftl (addr desc) VTD_PAGE_SHIFT);
     prm_pasid := pasid desc;
     prm_grpid := prg_index desc;
     prm_perm_read := rd_req desc;
     prm_perm_write := wr_req desc;
     prm_perm_exec := exe_req desc;
     prm_perm_priv := pm_req desc;
     prm_last_page := lpig desc || priv_data_present desc;
     prm_pasid_valid := pasid_present desc;
     prm_resp_needs_pasid := pasid_present desc;
     prm_priv_data := priv_data_present desc;
     prm_private_data :=
       if priv_data_present desc
       then (priv_data0 desc, priv_data1 desc) else (0, 0);
     fault_vector := if di_has_subdevices info then pasid desc else 0 |}.

End Response.

(** ** The capability check at IOMMU initialisation *)

Module Capability.

(** What [intel_svm_check] reads of the IOMMU ([pasid_supported],
    [cap_fl1gp_support] and [cap_5lp_support] of its capability registers)
    and its [flags] word. *)
Record iommu_caps : Type := mk_caps {
  pasid_supported : bool;
  cap_fl1gp_support : bool;
  cap_5lp_support : bool;
  iommu_flags : Z
}.

(** The two CPU features [intel_svm_check] asks for. *)
Record cpu_features : Type := mk_cpu {
  X86_FEATURE_GBPAGES : bool;
  X86_FEATURE_LA57 : bool
}.

Section WithFlag.

(** The flag bit, from linux/intel-iommu.h. *)
Variable VTD_FLAG_SVM_CAPABLE : Z.

(** [intel_svm_check]: the IOMMU after the check. *)
Definition intel_svm_check (cpu : cpu_features) (iommu : iommu_caps)
    : iommu_caps :=
  if negb (pasid_supported iommu) then iommu
  else if X86_FEATURE_GBPAGES cpu && negb (cap_fl1gp_support iommu) then iommu
  else if X86_FEATURE_LA57 cpu && negb (cap_5lp_support iommu) then iommu
  else
    mk_caps (pasid_supported iommu) (cap_fl1gp_support iommu)
      (cap_5lp_support iommu) (Z.lor (iommu_flags iommu) VTD_FLAG_SVM_CAPABLE).

(** [intel_svm_capable]. *)
Definition intel_svm_capable (iommu : iommu_caps) : bool :=
  negb (Z.land (iommu_flags iommu) VTD_FLAG_SVM_CAPABLE =? 0).

End WithFlag.

End Capability.

(** ** Setting up and shutting down the page request queue *)

Module PrqSetup.

Definition EINVAL : Z := 22.
Definition ENOMEM : Z := 12.

Inductive reg : Type := DMAR_PQH_REG | DMAR_PQT_REG | DMAR_PQA_REG.

(** The calls [intel_svm_enable_prq] and [intel_svm_finish_prq] make, in
    program order, with their results.  [alloc_pages] is recorded with the
    address [page_address] gives for the pages. *)
Inductive event : Type :=
| EvAllocPages (order : Z) (r : option Z)
| EvFreePages (address : option Z) (order : Z)
| EvAllocHwirq (id : Z) (r : Z)
| EvFreeHwirq (irq : Z)
| EvRequestIrq (irq : Z) (r : Z)
| EvFreeIrq (irq : Z)
| EvWriteq (r : reg) (v : Z)
| EvInitCompletion.

(** The fields of [struct intel_iommu] the two functions use: [prq] (NULL
    as [None]), [pr_irq] and [seq_id]. *)
Record iommu_prq : Type := mk_iommu_prq {
  prq : option Z;
  pr_irq : Z;
  seq_id : Z
}.

(** What the environment returns during one [intel_svm_enable_prq]. *)
Record enable_oracle : Type := mk_enable_oracle {
  or_alloc_pages : option Z;
  or_alloc_hwirq : Z;
  or_request_irq : Z
}.

Section WithPlatform.

Variable prq_size_page_order : Z.
Variable DMAR_UNITS_SUPPORTED : Z.
Variable virt_to_phys : Z -> Z.

(** Label [err] of [intel_svm_enable_prq]. *)
Definition enable_err (ret : Z) (iommu : iommu_prq) (irq_field : Z)
    (evs : list event) : Z * iommu_prq * list event :=
  (ret, mk_iommu_prq None irq_field (seq_id iommu),
   evs ++ [EvFreePages (prq iommu) prq_size_page_order]).

(** [intel_svm_enable_prq]: the return value, the IOMMU and the calls
    made. *)
Definition intel_svm_enable_prq (o : enable_oracle) (iommu : iommu_prq)
    : Z * iommu_prq * list event :=
  let ev0 := [EvAllocPages prq_size_page_order (or_alloc_pages o)] in
  match or_alloc_pages o with
  | None => (- ENOMEM, iommu, ev0)
  | Some pages =>
      let iommu := mk_iommu_prq (Some pages) (pr_irq iommu) (seq_id iommu) in
      let irq := or_alloc_hwirq o in
      let ev1 :=
        ev0 ++ [EvAllocHwirq (DMAR_UNITS_SUPPORTED + seq_id iommu) irq] in
      if irq <=? 0 then enable_err (- EINVAL) iommu (pr_irq iommu) ev1
      else
        let iommu := mk_iommu_prq (prq iommu) irq (seq_id iommu) in
        let ret := or_request_irq o in
        let ev2 := ev1 ++ [EvRequestIrq irq ret] in
        if negb (ret =? 0) then
          enable_err ret iommu 0 (ev2 ++ [EvFreeHwirq irq])
        else
          (0, iommu,
           ev2 ++ [EvWriteq DMAR_PQH_REG 0; EvWriteq DMAR_PQT_REG 0;
                   EvWriteq DMAR_PQA_REG
                     (Z.lor (virt_to_phys pages) prq_size_page_order);
                   EvInitCompletion])
  end.

(** [intel_svm_finish_prq]. *)
Definition intel_svm_finish_prq (iommu : iommu_prq)
    : Z * iommu_prq * list event :=
  let ev0 := [EvWriteq DMAR_PQH_REG 0; EvWriteq DMAR_PQT_REG 0;
              EvWriteq DMAR_PQA_REG 0] in
  let ev1 :=
    if negb (pr_irq iommu =? 0)
    then ev0 ++ [EvFreeIrq (pr_irq iommu); EvFreeHwirq (pr_irq iommu)]
    else ev0 in
  (0, mk_iommu_prq None 0 (seq_id iommu),
   ev1 ++ [EvFreePages (prq iommu) prq_size_page_order]).

End WithPlatform.

(** *** Vocabulary of the set-up properties *)

(** The resources a trace leaves held: page blocks allocated and not freed,
    interrupt numbers allocated and not freed, interrupt handlers requested
    and not freed. *)
Record held : Type := mk_held {
  held_pages : list Z;
  held_hwirqs : list Z;
  held_handlers : list Z
}.

Definition remove_one (x : Z) (l : list Z) : list Z := List.remove Z.eq_dec x l.

Definition step_held (h : held) (e : event) : held :=
  match e with
  | EvAllocPages _ (Some a) =>
      mk_held (a :: held_pages h) (held_hwirqs h) (held_handlers h)
  | EvFreePages (Some a) _ =>
      mk_held (remove_one a (held_pages h)) (held_hwirqs h) (held_handlers h)
  | EvAllocHwirq _ r =>
      if 0 <? r
      then mk_held (held_pages h) (r :: held_hwirqs h) (held_handlers h)
      else h
  | EvFreeHwirq i =>
      mk_held (held_pages h) (remove_one i (held_hwirqs h)) (held_handlers h)
  | EvRequestIrq i r =>
      if r =? 0
      then mk_held (held_pages h) (held_hwirqs h) (i :: held_handlers h)
      else h
  | EvFreeIrq i =>
      mk_held (held_pages h) (held_hwirqs h) (remove_one i (held_handlers h))
  | _ => h
  end.

Definition held_after (evs : list event) : held :=
  fold_left step_held evs (mk_held [] [] []).

(** The register writes of a trace, in order. *)
Definition register_writes (evs : list event) : list (reg * Z) :=
  flat_map (fun e => match e with EvWriteq r v => [(r, v)] | _ => [] end) evs.

End PrqSetup.

(** ** Version array slots of an enclave

    The enclave code that ends the file hands out the 8-byte slots of a
    version array (VA) page from the bitmap [va_page->slots]. *)

Module VaSlots.

Definition u32 (x : Z) : Z := x mod 2 ^ 32.

(** The bitmap is a [Z], bit [i] standing for slot [i].  The bitmap
    primitives are the kernel's own: [find_first_zero_bit addr size] is the
    least bit number below [size] whose bit is clear, and [size] if there is
    none; [set_bit] and [clear_bit] change one bit. *)
Fixpoint first_zero_from (addr i : Z) (n : nat) : Z :=
  match n with
  | O => i
  | S n' => if Z.testbit addr i then first_zero_from addr (i + 1) n' else i
  end.

Definition find_first_zero_bit (addr size : Z) : Z :=
  first_zero_from addr 0 (Z.to_nat size).

Definition set_bit (nr addr : Z) : Z := Z.setbit addr nr.

Definition clear_bit (nr addr : Z) : Z := Z.clearbit addr nr.

Section WithCount.

(** The number of slots of a VA page, a constant of the SGX headers. *)
Variable SGX_VA_SLOT_COUNT : Z.

(** [sgx_alloc_va_slot]: the offset returned and the bitmap afterwards. *)
Definition sgx_alloc_va_slot (slots : Z) : Z * Z :=
  let slot := find_first_zero_bit slots SGX_VA_SLOT_COUNT in
  let slots' := if slot <? SGX_VA_SLOT_COUNT then set_bit slot slots else slots in
  (u32 (Z.shiftl slot 3), slots').

(** [sgx_free_va_slot]: the bitmap afterwards.  The code clears bit
    [offset >> 3] without a check; a bit number outside the bitmap is a write
    to memory the bitmap does not own, [None] here. *)
Definition sgx_free_va_slot (slots offset : Z) : option Z :=
  let nr := Z.shiftr offset 3 in
  if (0 <=? nr) && (nr <? SGX_VA_SLOT_COUNT)
  then Some (clear_bit nr slots)
  else None.

(** [sgx_va_page_full] *)
Definition sgx_va_page_full (slots : Z) : bool :=
  find_first_zero_bit slots SGX_VA_SLOT_COUNT =? SGX_VA_SLOT_COUNT.

End WithCount.

End VaSlots.

(** ** A small concrete system

    Two guest-mode bindings and one host-mode binding, two devices, and a
    kernel whose state is the number of completions waited for.  It is the
    input of the examples. *)

Module Demo.
Import K Svm Prq.

(** A descriptor from its fields, packed as [struct page_req_dsc] lays them
    out. *)
Definition make_req (present pdp : bool) (rid pasid : Z)
    (exe pm rd wr lpig : bool) (idx addr p0 p1 : Z) : page_req_dsc :=
  mk_req
    (Z.lor (Z.shiftl (Z.b2z present) 8)
       (Z.lor (Z.shiftl (Z.b2z pdp) 9)
          (Z.lor (Z.shiftl rid 16)
             (Z.lor (Z.shiftl pasid 32)
                (Z.lor (Z.shiftl (Z.b2z exe) 52) (Z.shiftl (Z.b2z pm) 53))))))
    (Z.lor (Z.b2z rd)
       (Z.lor (Z.shiftl (Z.b2z wr) 1)
          (Z.lor (Z.shiftl (Z.b2z lpig) 2)
             (Z.lor (Z.shiftl idx 3) (Z.shiftl addr 12)))))
    p0 p1.

Definition demo_constants : constants :=
  {| prq_size_page_order := 0;
     __VIRTUAL_MASK_SHIFT := 47;
     DMA_PRS_PPR := 1;
     DMA_PRS_PRO := 2;
     SVM_FLAG_GUEST_MODE := 4;
     VM_READ := 1;
     VM_WRITE := 2;
     VM_EXEC := 4;
     FAULT_FLAG_USER := 0x40;
     FAULT_FLAG_REMOTE := 0x80;
     FAULT_FLAG_WRITE := 0x01;
     VM_FAULT_ERROR := 0x873;
     QI_DONE := 2;
     QI_OPT_WAIT_DRAIN := 1 |}.

Definition demo_iommu : intel_iommu := mk_iommu 1 true true.

Definition demo_info (devfn : Z) : device_domain_info :=
  mk_info 0 devfn 0 true 4 true 1 3 false.

(** Two PCI devices with PRI, source-IDs 5 and 6, and one without domain
    info. *)
Definition dev_x : device :=
  mk_device 0x5000 (Some demo_iommu) true (Some (demo_info 5)) 0x100000 4.
Definition dev_y : device :=
  mk_device 0x6000 (Some demo_iommu) true (Some (demo_info 6)) 0x100000 4.
Definition dev_z : device :=
  mk_device 0x7000 (Some demo_iommu) false None 0x100000 0.

Definition sdev_of (dev : device) (sid pasid : Z) : intel_svm_dev :=
  mk_sdev dev 1 1 1 1 sid 4 true pasid (Some (dev_id dev)).

(** Guest-mode bindings of PASID 1 (device x) and PASID 2 (device y), and a
    host-mode binding of PASID 3 to address space 100 (device y). *)
Definition svm_a : intel_svm := mk_svm None 4 1 0 [sdev_of dev_x 5 1].
Definition svm_b : intel_svm := mk_svm None 4 2 0 [sdev_of dev_y 6 2].
Definition svm_h : intel_svm := mk_svm (Some 100) 0 3 0 [sdev_of dev_y 6 3].

(** The allocator's lookup: the three bindings, and [ERR_PTR(-ENOENT)] for
    every other PASID. *)
Definition demo_find (id : Z) : svm_ptr :=
  if id =? 1 then SvmOk svm_a
  else if id =? 2 then SvmOk svm_b
  else if id =? 3 then SvmOk svm_h
  else SvmErr 2.

(** A kernel over [nat], the number of completions waited for.  The head
    register reads 0 until the first wait and [tail] afterwards; the fault
    sink returns [report_ret]; every address is mapped readable and
    writable. *)
Definition demo_kernel (ring : Z -> page_req_dsc) (tail report_ret : Z)
    : kernel nat :=
  {| k_readq := fun r w =>
       (match r with
        | DMAR_PQT_REG => tail
        | DMAR_PQH_REG => match w with O => 0 | S _ => tail end
        | DMAR_PRS_REG => 0
        end, w);
     k_readl := fun _ w => (0, w);
     k_writeq := fun _ _ w => w;
     k_writel := fun _ _ w => w;
     k_prq := fun i _ => ring i;
     k_ioasid_find := fun id w => (demo_find id, w);
     k_report_device_fault := fun _ _ w => (report_ret, w);
     k_mmget_not_zero := fun _ w => (true, w);
     k_mmap_read_lock := fun _ w => w;
     k_mmap_read_unlock := fun _ w => w;
     k_mmput := fun _ w => w;
     k_find_extend_vma := fun _ _ w => (Some (mk_vma 0 3), w);
     k_handle_mm_fault := fun _ _ _ w => (0, w);
     k_qi_submit_sync := fun _ _ w => w;
     k_reinit_completion := fun w => w;
     k_wait_for_completion := fun w => S w;
     k_complete := fun w => w |}.

(** A read request with LPIG for [pasid] from source-ID [rid] at page
    [addr]. *)
Definition read_req_of (rid pasid addr : Z) : page_req_dsc :=
  make_req true false rid pasid false false true false true 0 addr 0 0.

(** Ring contents: the descriptors of a list at indices 0, 1, ... and an
    empty descriptor elsewhere. *)
Definition ring_of (l : list page_req_dsc) (i : Z) : page_req_dsc :=
  nth (Z.to_nat i) l (mk_req 0 0 0 0).

(** The registry side: globals, a state in which address space 100 is bound
    to PASID 3 by device y, and an environment in which every allocation and
    helper succeeds, a new binding lands at address 0xa000 and the allocator
    proposes PASID 4. *)
Definition demo_config : Registry.config :=
  {| Registry.dmar_disabled := false;
     Registry.intel_pasid_max_id := 0x100000;
     Registry.host_pasid_set := 1;
     Registry.IOASID_ALLOC_BASE := 1;
     Registry.FLPT_DEFAULT_DID := 1;
     Registry.QI_DEV_EIOTLB_MAX_INVS := 32;
     Registry.SVM_FLAG_SUPERVISOR_MODE := 2;
     Registry.PASID_DISABLED := 0;
     Registry.cpu_has_la57 := false |}.

Definition demo_state : Registry.state :=
  {| Registry.svms := {[ 0x9000 := svm_h ]};
     Registry.global_svm_list := [0x9000];
     Registry.ioasids := {[ 3 := Registry.mk_ioasid 1 (Some 0x9000) 1 ]};
     Registry.notifiers := {[ 0x9000 := 100 ]};
     Registry.mm_pasid := {[ 100 := 3 ]};
     Registry.actions := [] |}.

Definition demo_oracle : Registry.bind_oracle :=
  {| Registry.or_kzalloc_sdev := true;
     Registry.or_enable_pasid := 0;
     Registry.or_kzalloc_svm := Some 0xa000;
     Registry.or_ioasid := Some 4;
     Registry.or_notifier_register := 0;
     Registry.or_setup_first_level := 0 |}.

(** A descriptor without PASID, asking for a response. *)
Definition req_no_pasid : page_req_dsc :=
  make_req false false 5 1 false false true false true 0 1 0 0.

(** A read request of PASID 3 (host-mode) whose page address has bit 47 set
    and bits 48 to 63 clear. *)
Definition req_non_canonical : page_req_dsc := read_req_of 6 3 (2 ^ 35).

(** One request of PASID 2 is queued at ring index 0 (head 0, tail 32); the
    reader consumes it during the drain's first wait. *)
Definition drain_demo_kernel : kernel nat :=
  demo_kernel (ring_of [read_req_of 5 2 1]) 32 0.

End Demo.

(** ** More of the concrete system

    A kernel whose allocator answers NULL for a PASID that is not bound, a
    registry with a shared device-binding, and the guest-mode side: a
    registry in which PASID 1 is bound guest-mode by device x and PASID 7 is
    allocated by an outside owner and not bound. *)

Module DemoMore.
Import K Svm Prq Demo.

Definition demo_kernel_null (ring : Z -> page_req_dsc) (tail report_ret : Z)
    : kernel nat :=
  let k := demo_kernel ring tail report_ret in
  {| k_readq := k_readq k;
     k_readl := k_readl k;
     k_writeq := k_writeq k;
     k_writel := k_writel k;
     k_prq := k_prq k;
     k_ioasid_find := fun id w =>
       (match demo_find id with SvmErr _ => SvmNull | r => r end, w);
     k_report_device_fault := k_report_device_fault k;
     k_mmget_not_zero := k_mmget_not_zero k;
     k_mmap_read_lock := k_mmap_read_lock k;
     k_mmap_read_unlock := k_mmap_read_unlock k;
     k_mmput := k_mmput k;
     k_find_extend_vma := k_find_extend_vma k;
     k_handle_mm_fault := k_handle_mm_fault k;
     k_qi_submit_sync := k_qi_submit_sync k;
     k_reinit_completion := k_reinit_completion k;
     k_wait_for_completion := k_wait_for_completion k;
     k_complete := k_complete k |}.

(** Address space 100 bound to PASID 3 by device y, twice. *)
Definition svm_shared : intel_svm :=
  mk_svm (Some 100) 0 3 0 [mk_sdev dev_y 1 1 2 1 6 4 true 3 (Some 0x6000)].

Definition demo_state_shared : Registry.state :=
  {| Registry.svms := {[ 0x9000 := svm_shared ]};
     Registry.global_svm_list := [0x9000];
     Registry.ioasids := {[ 3 := Registry.mk_ioasid 1 (Some 0x9000) 1 ]};
     Registry.notifiers := {[ 0x9000 := 100 ]};
     Registry.mm_pasid := {[ 100 := 3 ]};
     Registry.actions := [] |}.

(** An environment in which the set-up of the PASID entry fails. *)
Definition failing_oracle : Registry.bind_oracle :=
  {| Registry.or_kzalloc_sdev := true;
     Registry.or_enable_pasid := 0;
     Registry.or_kzalloc_svm := Some 0xa000;
     Registry.or_ioasid := Some 4;
     Registry.or_notifier_register := 0;
     Registry.or_setup_first_level := -22 |}.

Definition demo_guest_constants : Guest.guest_constants :=
  {| Guest.IOMMU_PASID_FORMAT_INTEL_VTD := 1;
     Guest.vtd_argsz_min := 64;
     Guest.IOMMU_SVA_VTD_GPASID_LAST := 1024;
     Guest.IOMMU_SVA_HPASID_DEF := 2;
     Guest.IOMMU_SVA_GPASID_VAL := 1;
     Guest.SVM_FLAG_GUEST_PASID := 8;
     Guest.SVM_FLAG_GUEST_MODE := 4 |}.

Definition demo_guest_state : Registry.state :=
  {| Registry.svms := {[ 0x8000 := svm_a ]};
     Registry.global_svm_list := [];
     Registry.ioasids :=
       <[ 7 := Registry.mk_ioasid 2 None 1 ]>
         {[ 1 := Registry.mk_ioasid 2 (Some 0x8000) 2 ]};
     Registry.notifiers := ∅;
     Registry.mm_pasid := ∅;
     Registry.actions := [] |}.

(** A bind descriptor for host PASID [hpasid] with guest PASID 70. *)
Definition demo_bind_data (hpasid : Z) : Guest.gpasid_bind_data :=
  Guest.mk_bind_data 64 1 1 0x1000 hpasid 70 48 0.

Definition demo_guest_oracle (setup_nested : Z) : Guest.guest_oracle :=
  {| Guest.go_domain_get_pasid := 0;
     Guest.go_is_aux_domain := false;
     Guest.go_add_fault_data := 0;
     Guest.go_kzalloc_svm := Some 0xb000;
     Guest.go_kzalloc_sdev := true;
     Guest.go_feat_aux := false;
     Guest.go_enable_pasid := 0;
     Guest.go_setup_nested := setup_nested |}.

Definition demo_enable_oracle (request_irq : Z) : PrqSetup.enable_oracle :=
  PrqSetup.mk_enable_oracle (Some 0x40000) 25 request_irq.

Definition demo_iommu_prq : PrqSetup.iommu_prq := PrqSetup.mk_iommu_prq None 0 3.

End DemoMore.

(** * Properties *)

(** ** Range invalidation *)

Section FlushFacts.
Import K Flush.

Lemma u64_small x : 0 <= x < 2 ^ 64 -> u64 x = x.
Proof. intros H. unfold u64. apply Z.mod_small. exact H. Qed.

Lemma pow2_pos k : 0 <= k -> 0 < 2 ^ k.
Proof. intros. apply Z.pow_pos_nonneg; lia. Qed.

Lemma land_not_mask y k :
  0 <= k < 64 -> 0 <= y < 2 ^ 64 ->
  Z.land y (u64 (Z.lnot (u64 (2 ^ k - 1)))) = 2 ^ k * (y / 2 ^ k).
Proof.
  intros Hk Hy.
  assert (Hp : 0 < 2 ^ k) by (apply pow2_pos; lia).
  assert (Hle : 2 ^ k <= 2 ^ 63) by (apply Z.pow_le_mono_r; lia).
  rewrite (u64_small (2 ^ k - 1)) by lia.
  unfold u64. rewrite <- (Z.land_ones (Z.lnot _) 64) by lia.
  rewrite (Z.land_comm (Z.lnot _)), Z.land_assoc.
  rewrite (Z.land_ones y 64) by lia.
  rewrite (Z.mod_small y) by lia.
  rewrite <- Z.ldiff_land.
  replace (2 ^ k - 1) with (Z.ones k) by (rewrite Z.ones_equiv; lia).
  rewrite Z.ldiff_ones_r by lia.
  rewrite Z.shiftl_mul_pow2, Z.shiftr_div_pow2 by lia. lia.
Qed.

Lemma ALIGN_DOWN_pow2 x k :
  0 <= k < 64 -> 0 <= x < 2 ^ 64 -> ALIGN_DOWN x (2 ^ k) = round_down x (2 ^ k).
Proof.
  intros Hk Hx. unfold ALIGN_DOWN, ALIGN, round_down.
  assert (Hp : 0 < 2 ^ k) by (apply pow2_pos; lia).
  assert (Hle : 2 ^ k <= 2 ^ 63) by (apply Z.pow_le_mono_r; lia).
  replace (u64 (u64 (x - u64 (2 ^ k - 1)) + u64 (2 ^ k - 1))) with x.
  - apply land_not_mask; assumption.
  - unfold u64. rewrite Zplus_mod_idemp_l.
    rewrite (Z.mod_small (2 ^ k - 1)) by lia.
    replace (x - (2 ^ k - 1) + (2 ^ k - 1)) with x by lia.
    symmetry. apply Z.mod_small. lia.
Qed.

Lemma ALIGN_pow2 x k :
  0 <= k < 64 -> 0 <= x -> x + 2 ^ k - 1 < 2 ^ 64 ->
  ALIGN x (2 ^ k) = round_up x (2 ^ k).
Proof.
  intros Hk Hx Hb. unfold ALIGN, round_up.
  assert (Hp : 0 < 2 ^ k) by (apply pow2_pos; lia).
  assert (Hle : 2 ^ k <= 2 ^ 63) by (apply Z.pow_le_mono_r; lia).
  rewrite (u64_small (2 ^ k - 1)) at 1 by lia.
  rewrite (u64_small (x + (2 ^ k - 1))) by lia.
  rewrite land_not_mask by lia.
  f_equal. f_equal. lia.
Qed.

Lemma roundup_pow_of_two_spec n :
  1 <= n <= 2 ^ 63 -> __roundup_pow_of_two n = Some (spec_span n).
Proof.
  intros Hn. unfold __roundup_pow_of_two, spec_span, fls_long.
  destruct (Z.eqb_spec n 0) as [->|_]; [lia|].
  rewrite (u64_small (n - 1)) by lia.
  assert (Hlu : 0 <= Z.log2_up n <= 63).
  { split; [apply Z.log2_up_nonneg|].
    destruct (Z.eq_dec n 1) as [->|]; [cbn; lia|].
    apply Z.log2_up_le_pow2; lia. }
  destruct (Z.eqb_spec (n - 1) 0) as [E|E].
  - replace n with 1 by lia. reflexivity.
  - replace (Z.log2 (n - 1) + 1) with (Z.log2_up n).
    + rewrite Z.shiftl_1_l. rewrite u64_small; [reflexivity|].
      split; [apply Z.pow_nonneg; lia|]. apply Z.pow_lt_mono_r; lia.
    + unfold Z.log2_up. destruct (Z.compare_spec 1 n); try lia.
      rewrite <- Z.sub_1_r. lia.
Qed.

Lemma ilog2_pow2 k : 0 <= k -> ilog2 (2 ^ k) = Some k.
Proof.
  intros Hk. unfold ilog2, fls_long.
  pose proof (pow2_pos k Hk).
  destruct (Z.eqb_spec (2 ^ k) 0); [lia|].
  rewrite Z.log2_pow2 by lia. f_equal. lia.
Qed.

Lemma flush_loop_ticks pasid sdev align ih n : forall lo fuel,
  0 < align -> 0 <= lo -> lo + Z.of_nat n * align < 2 ^ 64 -> (n <= fuel)%nat ->
  flush_loop fuel pasid sdev lo (lo + Z.of_nat n * align) align ih =
  Some (flat_map (fun a => __flush_svm_range_dev pasid sdev a
                             (Z.shiftr align VTD_PAGE_SHIFT) ih)
          (ticks n lo align)).
Proof.
  induction n as [|n IH]; intros lo fuel Ha Hlo Hb Hf.
  - replace (lo + Z.of_nat 0 * align) with lo by lia.
    destruct fuel; cbn [flush_loop]; rewrite Z.ltb_irrefl; reflexivity.
  - destruct fuel as [|fuel]; [lia|]. cbn [flush_loop ticks flat_map].
    destruct (Z.ltb_spec lo (lo + Z.of_nat (S n) * align)) as [_|Hc]; [|nia].
    rewrite (u64_small (lo + align)) by nia.
    replace (lo + Z.of_nat (S n) * align)
      with (lo + align + Z.of_nat n * align) by lia.
    rewrite IH by (try lia; nia). reflexivity.
Qed.

Lemma ticks_In n : forall lo step a,
  In a (ticks n lo step) <->
  exists i, 0 <= i < Z.of_nat n /\ a = lo + i * step.
Proof.
  induction n as [|n IH]; intros lo step a; cbn [ticks In].
  - split; [tauto|]. intros (i & Hi & _). lia.
  - rewrite IH. split.
    + intros [<-|(i & Hi & ->)].
      * exists 0. lia.
      * exists (i + 1). lia.
    + intros (i & Hi & ->). destruct (Z.eq_dec i 0) as [->|Hne].
      * left. lia.
      * right. exists (i - 1). lia.
Qed.

Lemma piotlb_ranges_sub pasid sdev span n : forall lo,
  span <> 0 ->
  piotlb_ranges (sub_invalidations pasid sdev lo span n) =
  map (fun a => (a, span)) (ticks n lo (span * 4096)).
Proof.
  unfold sub_invalidations.
  induction n as [|n IH]; intros lo Hs; [reflexivity|].
  cbn [ticks flat_map map]. unfold piotlb_ranges in *.
  rewrite flat_map_app, IH by assumption.
  unfold __flush_svm_range_dev.
  destruct (Z.eqb_spec span 0); [contradiction|].
  destruct (fd_ats_enabled sdev); reflexivity.
Qed.

Lemma flush_range_devs fuel pasid address pages ih (f : flush_dev -> list flush_event) :
  forall devs,
  (forall sdev, intel_flush_svm_range_dev fuel pasid sdev address pages ih
                = Some (f sdev)) ->
  intel_flush_svm_range fuel pasid devs address pages ih = Some (flat_map f devs).
Proof.
  induction devs as [|d devs IH]; intros H; [reflexivity|].
  cbn [intel_flush_svm_range flat_map]. rewrite H, IH by assumption. reflexivity.
Qed.

(** The arithmetic of one invalidated range of a user address space. *)
Lemma range_arith start end_ :
  0 <= start < end_ -> end_ <= 2 ^ 62 ->
  let pages := spec_pages start end_ in
  let span := spec_span pages in
  let align := span * 4096 in
  1 <= pages <= 2 ^ 50 /\ 0 <= Z.log2_up pages <= 50 /\
  1 <= span <= 2 ^ 50 /\ pages <= span /\
  align = 2 ^ (12 + Z.log2_up pages) /\
  end_ <= start + pages * 4096 <= end_ + 4095.
Proof.
  intros Hs He pages span align.
  change (2 ^ 62) with (4096 * 2 ^ 50) in He.
  assert (Hp : 1 <= pages <= 2 ^ 50).
  { unfold pages, spec_pages. split.
    - apply Z.div_le_lower_bound; lia.
    - apply Z.lt_succ_r, Z.div_lt_upper_bound; lia. }
  assert (Hl : 0 <= Z.log2_up pages <= 50).
  { split; [apply Z.log2_up_nonneg|].
    apply Z.log2_up_le_pow2; lia. }
  assert (Hsp : 1 <= span <= 2 ^ 50).
  { unfold span, spec_span. split.
    - pose proof (pow2_pos (Z.log2_up pages)). lia.
    - apply Z.pow_le_mono_r; lia. }
  assert (Hps : pages <= span).
  { unfold span, spec_span.
    destruct (Z.eq_dec pages 1) as [->|]; [cbn; lia|].
    apply Z.log2_up_spec. lia. }
  repeat split; try lia.
  - unfold align, span, spec_span. rewrite Z.pow_add_r by lia. lia.
  - unfold pages, spec_pages.
    pose proof (Z.mul_div_le (end_ - start + 4095) 4096).
    pose proof (Z.mod_pos_bound (end_ - start + 4095) 4096).
    pose proof (Z.div_mod (end_ - start + 4095) 4096). lia.
  - unfold pages, spec_pages.
    pose proof (Z.mul_div_le (end_ - start + 4095) 4096). lia.
Qed.

Lemma invalidate_pages start end_ :
  0 <= start < end_ -> end_ <= 2 ^ 62 ->
  Z.shiftr (u64 (u64 (end_ - start) + PAGE_SIZE - 1)) VTD_PAGE_SHIFT
  = spec_pages start end_.
Proof.
  intros Hs He. unfold PAGE_SIZE, VTD_PAGE_SHIFT, spec_pages.
  change (2 ^ 62) with 4611686018427387904 in He.
  assert (H64 : 2 ^ 64 = 18446744073709551616) by reflexivity.
  rewrite (u64_small (end_ - start)) by lia.
  rewrite u64_small by lia.
  rewrite Z.shiftr_div_pow2 by lia. f_equal. lia.
Qed.

Lemma flush_range_dev_spec fuel pasid sdev start end_ (n : nat) :
  0 <= start < end_ -> end_ <= 2 ^ 62 ->
  let pages := spec_pages start end_ in
  let span := spec_span pages in
  let align := span * 4096 in
  round_up (start + pages * 4096) align
    = round_down start align + Z.of_nat n * align ->
  (n <= fuel)%nat ->
  intel_flush_svm_range_dev fuel pasid sdev start pages 0
  = Some (sub_invalidations pasid sdev (round_down start align) span n).
Proof.
  intros Hs He pages span align Hn Hf.
  destruct (range_arith start end_ Hs He)
    as (Hp & Hl & Hsp & Hps & Hal & Hcov).
  fold pages span align in Hp, Hl, Hsp, Hps, Hal, Hcov.
  change (2 ^ 62) with 4611686018427387904 in He.
  change (2 ^ 50) with 1125899906842624 in Hp, Hsp.
  assert (H64 : 2 ^ 64 = 18446744073709551616) by reflexivity.
  unfold intel_flush_svm_range_dev.
  rewrite roundup_pow_of_two_spec by (change (2 ^ 63) with 9223372036854775808; lia).
  fold span. unfold span at 1, spec_span. rewrite ilog2_pow2 by lia.
  unfold VTD_PAGE_SHIFT.
  rewrite Z.shiftl_1_l, <- Hal.
  rewrite (u64_small align) by lia.
  rewrite Z.shiftl_mul_pow2 by lia. change (2 ^ 12) with 4096.
  rewrite (u64_small (pages * 4096)) by lia.
  rewrite (u64_small (start + pages * 4096)) by lia.
  rewrite Hal.
  rewrite ALIGN_DOWN_pow2, ALIGN_pow2 by (rewrite <- ?Hal; lia).
  rewrite <- Hal, Hn.
  assert (Hlo : 0 <= round_down start align <= start).
  { unfold round_down. pose proof (Z.mul_div_le start align).
    assert (0 <= start / align) by (apply Z.div_pos; lia). nia. }
  assert (Hhi : round_up (start + pages * 4096) align
                <= start + pages * 4096 + align - 1).
  { unfold round_up.
    pose proof (Z.mul_div_le (start + pages * 4096 + align - 1) align). lia. }
  rewrite flush_loop_ticks by lia.
  unfold sub_invalidations. fold align.
  replace (Z.shiftr align VTD_PAGE_SHIFT) with span; [reflexivity|].
  unfold VTD_PAGE_SHIFT.
  rewrite Z.shiftr_div_pow2 by lia. change (2 ^ 12) with 4096.
  unfold align. rewrite Z.div_mul by lia. reflexivity.
Qed.

(** C8.  For a range [start, end) of a user address space, with
    [pages = ceil((end - start) / 4KiB)], [intel_invalidate_range] issues for
    every device of the binding [n] sub-invalidations of
    [2 ^ ceil(log2 pages)] pages each, at consecutive multiples of that size,
    from [start] rounded down to it up to [start + pages * 4KiB] rounded up
    to it; every address of [start, end) lies in one of them. *)
Theorem invalidate_range_sub_invalidations (pasid start end_ : Z)
    (devs : list flush_dev) :
  0 <= start < end_ -> end_ <= 2 ^ 62 ->
  let pages := spec_pages start end_ in
  let span := spec_span pages in
  let align := span * 4096 in
  let lo := round_down start align in
  let hi := round_up (start + pages * 4096) align in
  exists n : nat,
    hi = lo + Z.of_nat n * align /\
    (forall fuel, (n <= fuel)%nat ->
       intel_invalidate_range fuel pasid devs start end_ =
       Some (flat_map (fun sdev => sub_invalidations pasid sdev lo span n) devs)) /\
    (forall sdev, piotlb_ranges (sub_invalidations pasid sdev lo span n) =
                  map (fun a => (a, span)) (ticks n lo align)) /\
    (forall a, In a (ticks n lo align) -> a mod align = 0) /\
    (forall x, start <= x < end_ ->
       exists a, In a (ticks n lo align) /\ a <= x < a + span * 4096).
Proof.
  intros Hs He pages span align lo hi.
  destruct (range_arith start end_ Hs He)
    as (Hp & Hl & Hsp & Hps & Hal & Hcov).
  fold pages span align in Hp, Hl, Hsp, Hps, Hal, Hcov.
  assert (Ha : 0 < align) by (unfold align; lia).
  assert (Hlo : lo <= start < lo + align).
  { unfold lo, round_down. pose proof (Z.mod_pos_bound start align Ha).
    pose proof (Z.div_mod start align). lia. }
  assert (Hhi : start + pages * 4096 <= hi).
  { unfold hi, round_up.
    pose proof (Z.mod_pos_bound (start + pages * 4096 + align - 1) align Ha).
    pose proof (Z.div_mod (start + pages * 4096 + align - 1) align). lia. }
  set (q := (start + pages * 4096 + align - 1) / align - start / align).
  assert (Hq : hi = lo + q * align) by (unfold hi, lo, round_up, round_down, q; lia).
  assert (Hq0 : 0 <= q) by nia.
  exists (Z.to_nat q). rewrite Z2Nat.id by assumption.
  split; [exact Hq|]. split; [|split; [|split]].
  - intros fuel Hf. unfold intel_invalidate_range.
    rewrite invalidate_pages by assumption.
    apply flush_range_devs. intros sdev.
    apply flush_range_dev_spec; try assumption.
    rewrite Z2Nat.id by assumption. exact Hq.
  - intros sdev. apply piotlb_ranges_sub. lia.
  - intros a Hin. apply ticks_In in Hin. destruct Hin as (i & _ & ->).
    unfold lo, round_down.
    replace (align * (start / align) + i * align)
      with ((start / align + i) * align) by lia.
    apply Z.mod_mul. lia.
  - intros x Hx. set (i := (x - lo) / align).
    exists (lo + i * align). fold align.
    pose proof (Z.mod_pos_bound (x - lo) align Ha).
    pose proof (Z.div_mod (x - lo) align).
    assert (0 <= i) by (apply Z.div_pos; lia).
    split; [|fold i in H0; lia].
    apply ticks_In. exists i. split; [|reflexivity].
    rewrite Z2Nat.id by assumption.
    fold i in H0. nia.
Qed.

(** The theorem at the range [0x2000, 0x4000) and one device with ATS. *)
Lemma invalidate_range_sub_invalidations_witness :
  0 <= 0x2000 < 0x4000 /\ 0x4000 <= 2 ^ 62 /\
  exists n : nat,
    forall fuel, (n <= fuel)%nat ->
      intel_invalidate_range fuel 7 [mk_flush_dev 1 0x10 0 0 true] 0x2000 0x4000 =
      Some (flat_map
              (fun sdev => sub_invalidations 7 sdev
                 (round_down 0x2000 (spec_span (spec_pages 0x2000 0x4000) * 4096))
                 (spec_span (spec_pages 0x2000 0x4000)) n)
              [mk_flush_dev 1 0x10 0 0 true]).
Proof.
  split; [lia|]. split; [cbv; discriminate|].
  destruct (invalidate_range_sub_invalidations 7 0x2000 0x4000
              [mk_flush_dev 1 0x10 0 0 true] ltac:(lia)
              ltac:(cbv; discriminate)) as (n & _ & H & _).
  exists n. exact H.
Defined.

(** Scenario S5 of the spec, the range [0x1000, 0x3000): two pages, hence
    8 KiB sub-invalidations; the range straddles an 8 KiB boundary, hence
    two of them, at 0 and at 0x2000. *)
Example invalidate_range_s5 :
  intel_invalidate_range 2 7 [mk_flush_dev 1 0x10 0 0 false] 0x1000 0x3000
  = Some [Piotlb 1 7 0 2 0; Piotlb 1 7 0x2000 2 0].
Proof. vm_compute. reflexivity. Qed.

Lemma spec_span_lt pages : 1 <= pages -> spec_span pages < 2 * pages.
Proof.
  intros Hp. unfold spec_span.
  destruct (Z.eq_dec pages 1) as [->|Hne]; [reflexivity|].
  pose proof (Z.log2_up_spec pages ltac:(lia)) as [Hlo _].
  assert (Hl : 0 < Z.log2_up pages) by (apply Z.log2_up_pos; lia).
  replace (Z.log2_up pages) with (Z.succ (Z.pred (Z.log2_up pages))) by lia.
  rewrite Z.pow_succ_r by lia. lia.
Qed.

(** For a range of a user address space, [intel_invalidate_range] issues one
    or two sub-invalidations per device, never more, and exactly one when
    [start] is a multiple of the sub-invalidation size; the pages they cover
    on a device are fewer than four times the pages of the range. *)
Theorem invalidate_range_one_or_two (pasid start end_ : Z)
    (devs : list flush_dev) (fuel : nat) :
  0 <= start < end_ -> end_ <= 2 ^ 62 -> (2 <= fuel)%nat ->
  let pages := spec_pages start end_ in
  let span := spec_span pages in
  let align := span * 4096 in
  exists n : nat,
    (1 <= n <= 2)%nat /\
    (start mod align = 0 -> n = 1%nat) /\
    Z.of_nat n * span < 4 * pages /\
    intel_invalidate_range fuel pasid devs start end_ =
      Some (flat_map
              (fun sdev =>
                 sub_invalidations pasid sdev (round_down start align) span n)
              devs) /\
    forall sdev,
      length (piotlb_ranges
                (sub_invalidations pasid sdev (round_down start align) span n))
      = n.
Proof.
  intros Hs He Hfuel pages span align.
  destruct (range_arith start end_ Hs He)
    as (Hp & Hl & Hsp & Hps & Hal & Hcov).
  fold pages span align in Hp, Hl, Hsp, Hps, Hal, Hcov.
  assert (Ha : 0 < align) by (unfold align; lia).
  pose proof (spec_span_lt pages ltac:(lia)) as Hlt. fold span in Hlt.
  set (L := pages * 4096).
  assert (HL : 4096 <= L <= align) by (unfold L, align; lia).
  set (r := start mod align).
  assert (Hr : 0 <= r < align) by (apply Z.mod_pos_bound; exact Ha).
  assert (Hdiv : (start + L + align - 1) / align
                 = start / align + (r + L + align - 1) / align).
  { rewrite (Z.div_mod start align) at 1 by lia. fold r.
    replace (align * (start / align) + r + L + align - 1)
      with (start / align * align + (r + L + align - 1)) by lia.
    apply Z.div_add_l. lia. }
  set (q := (r + L + align - 1) / align).
  assert (Hq1 : 1 <= q) by (apply Z.div_le_lower_bound; lia).
  assert (Hq2 : q <= 2).
  { assert (q < 3) by (apply Z.div_lt_upper_bound; lia). lia. }
  assert (Hq : round_up (start + pages * 4096) align
               = round_down start align + Z.of_nat (Z.to_nat q) * align).
  { unfold round_up, round_down. fold L. rewrite Hdiv. fold q.
    rewrite Z2Nat.id by lia. lia. }
  exists (Z.to_nat q). split; [lia|]. split.
  { intros H0. fold r in H0. unfold q. rewrite H0.
    replace (0 + L + align - 1) with (1 * align + (L - 1)) by lia.
    rewrite Z.div_add_l by lia. rewrite Z.div_small by lia. reflexivity. }
  split; [rewrite Z2Nat.id by lia; nia|]. split.
  - unfold intel_invalidate_range. rewrite invalidate_pages by assumption.
    apply flush_range_devs. intros sdev.
    apply flush_range_dev_spec; try assumption. lia.
  - intros sdev. rewrite piotlb_ranges_sub by lia.
    rewrite length_map. clear.
    generalize (round_down start align), (span * 4096).
    induction (Z.to_nat q) as [|k IH]; intros lo step; [reflexivity|].
    cbn [ticks length]. rewrite IH. reflexivity.
Qed.

(** The theorem at the range [0x1000, 0x3000) and one device without ATS. *)
Lemma invalidate_range_one_or_two_witness :
  0 <= 0x1000 < 0x3000 /\ 0x3000 <= 2 ^ 62 /\ (2 <= 2)%nat /\
  exists n : nat,
    (1 <= n <= 2)%nat /\
    intel_invalidate_range 2 7 [mk_flush_dev 1 0x10 0 0 false] 0x1000 0x3000 =
      Some (flat_map
              (fun sdev => sub_invalidations 7 sdev
                 (round_down 0x1000 (spec_span (spec_pages 0x1000 0x3000) * 4096))
                 (spec_span (spec_pages 0x1000 0x3000)) n)
              [mk_flush_dev 1 0x10 0 0 false]).
Proof.
  split; [lia|]. split; [cbv; discriminate|]. split; [lia|].
  destruct (invalidate_range_one_or_two 7 0x1000 0x3000
              [mk_flush_dev 1 0x10 0 0 false] 2 ltac:(lia)
              ltac:(cbv; discriminate) ltac:(lia)) as (n & Hn & _ & _ & H & _).
  exists n. split; [exact Hn | exact H].
Defined.

End FlushFacts.

(** ** The page request queue reader *)

Section ReaderFacts.
Import K Svm Prq.

Context {World : Type}.
Variable C : constants.
Variable Kn : kernel World.

Local Abbreviation fault_flags := (Prq.fault_flags C).
Local Abbreviation ring_entries := (Prq.ring_entries C).
Local Abbreviation lookups_good := (Prq.lookups_good Kn).
Local Abbreviation emits := (Prq.emits (World:=World)).
Local Abbreviation returns := (Prq.returns (World:=World)).

Lemma respond_run req code w :
  respond Kn req code w =
  (if wants_response req then [EvQiSubmit [response_for req code] 0] else [],
   Done tt (if wants_response req
            then k_qi_submit_sync Kn [response_for req code] 0 w else w)).
Proof.
  unfold respond, wants_response, response_for, qi_submit_sync, exec, ret.
  destruct (lpig req || priv_data_present req); reflexivity.
Qed.

Lemma no_pasid_run svm sdev req code w :
  no_pasid Kn svm sdev req code w =
  (if wants_response req then [EvQiSubmit [response_for req code] 0] else [],
   Done (svm, sdev)
     (if wants_response req
      then k_qi_submit_sync Kn [response_for req code] 0 w else w)).
Proof.
  unfold no_pasid, bind. rewrite respond_run. unfold ret.
  rewrite app_nil_r. reflexivity.
Qed.

(** A malformed descriptor takes the [no_pasid] exit at once. *)
Lemma prq_handle_malformed_run svm sdev req w :
  malformed req = true ->
  prq_handle C Kn (svm, sdev) req w
  = no_pasid Kn svm sdev req QI_RESP_INVALID w.
Proof.
  unfold prq_handle, malformed. intros Hm.
  destruct (pasid_present req); cbn [negb orb andb] in *; [|reflexivity].
  destruct (pm_req req && (rd_req req || wr_req req));
    cbn [negb orb andb] in *; [reflexivity|].
  destruct (exe_req req && rd_req req); [reflexivity|discriminate].
Qed.

(** C4.  A descriptor without PASID, or privileged with a read or write
    request, or with both exec and read requests, is answered without any
    binding lookup and without any fault resolution: the reader's cached
    pointers stay as they are, the only event is the page group response
    (posted when the descriptor has LPIG or private data), and its code is
    INVALID. *)
Theorem prq_handle_malformed (c : cache) (req : page_req_dsc) (w : World) :
  malformed req = true ->
  exists w',
    prq_handle C Kn c req w =
      (if wants_response req
       then [EvQiSubmit [response_for req QI_RESP_INVALID] 0] else [],
       Done c w') /\
    forall evs r, prq_handle C Kn c req w = (evs, r) ->
      forallb (fun e => negb (is_binding_lookup e)
                        && negb (is_fault_resolution e)) evs = true /\
      forall d, In d (responses evs) -> d = response_for req QI_RESP_INVALID.
Proof.
  intros Hm. destruct c as [svm sdev].
  rewrite (prq_handle_malformed_run svm sdev req w Hm), no_pasid_run. eexists. split; [reflexivity|].
  intros evs r [= <- _].
  destruct (wants_response req); cbn; split; auto; try tauto.
  intros d [<-|[]]. reflexivity.
Qed.

(** Inversion of completed runs. *)
Lemma bind_done {A B} (m : M World A) (f : A -> M World B) w evs b w' :
  bind m f w = (evs, Done b w') ->
  exists e1 a w1 e2,
    m w = (e1, Done a w1) /\ f a w1 = (e2, Done b w') /\ evs = e1 ++ e2.
Proof.
  unfold bind. destruct (m w) as [e1 [a w1| |]]; try discriminate.
  destruct (f a w1) as [e2 r] eqn:Ef. intros [= <- ->].
  exists e1, a, w1, e2. auto.
Qed.

Lemma ret_done {A} (a b : A) (w w' : World) evs :
  ret a w = (evs, Done b w') -> evs = [] /\ b = a /\ w' = w.
Proof. unfold ret. intros [= <- <- <-]. auto. Qed.

Lemma call_done {R} (f : World -> R * World) ev w evs r w' :
  call f ev w = (evs, Done r w') -> evs = [ev r] /\ f w = (r, w').
Proof.
  unfold call. destruct (f w) as [r0 w0]. intros [= <- <- <-]. auto.
Qed.

Lemma exec_done (f : World -> World) ev w evs (u : unit) w' :
  exec f ev w = (evs, Done u w') -> evs = [ev] /\ w' = f w.
Proof. unfold exec. intros [= <- <-]. auto. Qed.

Lemma no_pasid_done svm sdev req code w evs c w' :
  no_pasid Kn svm sdev req code w = (evs, Done c w') ->
  evs = (if wants_response req then [EvQiSubmit [response_for req code] 0]
         else []) /\ c = (svm, sdev).
Proof. rewrite no_pasid_run. intros [= <- <- _]. auto. Qed.

(** Inverts completed runs of sequences, calls, branches. *)
Ltac m_inv :=
  repeat match goal with
    | H : bind _ _ _ = (_, Done _ _) |- _ =>
        apply bind_done in H;
        let e1 := fresh "e" in let a := fresh "a" in let w1 := fresh "w" in
        let e2 := fresh "e" in let H1 := fresh "R" in
        destruct H as (e1 & a & w1 & e2 & H1 & H & ->)
    | H : ret _ _ = (_, Done _ _) |- _ =>
        let E1 := fresh "E" in let E2 := fresh "E" in
        apply ret_done in H; destruct H as (-> & E1 & E2);
        try discriminate E1; try injection E1 as E1; subst
    | H : call _ _ _ = (_, Done _ _) |- _ =>
        let E := fresh "E" in
        apply call_done in H; destruct H as (-> & E)
    | H : exec _ _ _ = (_, Done _ _) |- _ =>
        apply exec_done in H; destruct H as (-> & ->)
    | H : oops _ = (_, Done _ _) |- _ => discriminate H
    | H : no_pasid _ _ _ _ _ _ = (_, Done _ _) |- _ =>
        apply no_pasid_done in H; destruct H as (-> & ->)
    | H : (if ?b then _ else _) _ = (_, Done _ _) |- _ => destruct b eqn:?
    | H : match ?x with _ => _ end _ = (_, Done _ _) |- _ => destruct x eqn:?
    end.

(** Splits a completed run of the loop body into its paths. *)
Ltac prq_paths H :=
  unfold prq_handle, lookup_svm, bad_req, intel_svm_prq_report, resolve_fault,
    Prq.ioasid_find, iommu_report_device_fault, mmget_not_zero, mmap_read_lock,
    mmap_read_unlock, mmput, find_extend_vma, handle_mm_fault in H;
  m_inv.

(** C5.  For a descriptor whose handling completes, the reader posts a page
    group response exactly when the descriptor has LPIG or private data and
    was not handed off to the fault sink; it posts at most one, built from
    the descriptor, with the descriptor's 16 bytes of private data when
    private data is present. *)
Theorem prq_handle_response (c c' : cache) (req : page_req_dsc) (w w' : World)
    (evs : list event) :
  prq_handle C Kn c req w = (evs, Done c' w') ->
  (exists code,
     responses evs =
       if wants_response req && negb (handed_off evs)
       then [response_for req code] else []) /\
  (length (responses evs) <= 1)%nat /\
  (priv_data_present req = true ->
   forall d, In d (responses evs) ->
     exists code, d = QiPgrpResp (pasid req) (rid req) (pasid_present req) true
                        code (prg_index req) (lpig req)
                        (priv_data0 req) (priv_data1 req)) /\
  (handed_off evs = true ->
   exists s d, c' = (SvmOk s, Some d) /\
               Z.land (svm_flags s) (SVM_FLAG_GUEST_MODE C) <> 0).
Proof.
  intros H.
  assert (Hguest : handed_off evs = true ->
   exists s d, c' = (SvmOk s, Some d) /\
               Z.land (svm_flags s) (SVM_FLAG_GUEST_MODE C) <> 0).
  { destruct c as [svm sdev]. pose proof H as H'. prq_paths H';
      unfold handed_off; rewrite ?existsb_app; cbn;
      repeat match goal with
             | E : (_ =? 0) = _ |- _ => rewrite E
             end;
      destruct (wants_response req); cbn; try discriminate;
      intros _; eexists _, _; (split; [reflexivity|]);
      match goal with
      | E : negb (Z.land _ _ =? 0) = true |- _ =>
          apply negb_true_iff, Z.eqb_neq in E; exact E
      end. }
  assert (Hmain : exists code,
     responses evs =
       if wants_response req && negb (handed_off evs)
       then [response_for req code] else []).
  { destruct c as [svm sdev]. prq_paths H;
      try match goal with
          | E : (-19 =? 0) = true |- _ => discriminate E
          end;
      unfold responses, handed_off;
      rewrite ?flat_map_app, ?existsb_app; cbn;
      repeat match goal with
             | E : (_ =? 0) = _ |- _ => rewrite E
             end;
      destruct (wants_response req); cbn;
      try (exists QI_RESP_INVALID; reflexivity);
      eexists; reflexivity. }
  split; [exact Hmain|]. destruct Hmain as (code & Hr). rewrite Hr.
  split; [|split; [|exact Hguest]].
  - destruct (wants_response req && negb (handed_off evs)); cbn [length]; lia.
  - destruct (wants_response req && negb (handed_off evs)); cbn [In];
      [|tauto].
    intros Hp d [<-|[]]. exists code. unfold response_for. rewrite Hp.
    reflexivity.
Qed.

(** Running a sequence forward. *)
Lemma bind_run {A B} (m : M World A) (f : A -> M World B) w e1 a w1 :
  m w = (e1, Done a w1) ->
  bind m f w = (e1 ++ fst (f a w1), snd (f a w1)).
Proof. unfold bind. intros ->. destruct (f a w1); reflexivity. Qed.

Lemma lookup_svm_events svm req w e r :
  lookup_svm Kn svm req w = (e, r) ->
  e = [] \/ exists a, e = [EvIoasidFind (pasid req) a].
Proof.
  unfold lookup_svm, Prq.ioasid_find, call, oops, ret.
  destruct svm as [| |s0].
  - destruct (k_ioasid_find Kn (pasid req) w). intros [= <- _]. eauto.
  - intros [= <- _]. auto.
  - destruct (negb (svm_pasid s0 =? pasid req)).
    + destruct (k_ioasid_find Kn (pasid req) w). intros [= <- _]. eauto.
    + intros [= <- _]. auto.
Qed.

Lemma sign_extend_id vs x :
  0 <= vs -> (sign_extend vs x = x <-> - 2 ^ vs <= x < 2 ^ vs).
Proof.
  intros Hv. unfold sign_extend.
  assert (Hp : 0 < 2 ^ vs) by (apply pow2_pos; lia).
  rewrite Z.pow_add_r by lia. change (2 ^ 1) with 2. split.
  - intros E. pose proof (Z.mod_pos_bound (x + 2 ^ vs) (2 ^ vs * 2)). lia.
  - intros Hx. rewrite Z.mod_small by lia. lia.
Qed.

(** [is_canonical_address] holds exactly when sign-extending the address from
    bit [__VIRTUAL_MASK_SHIFT] reproduces it. *)
Lemma is_canonical_address_spec address :
  0 <= __VIRTUAL_MASK_SHIFT C <= 63 ->
  is_canonical_address C address = true <->
  sign_extend (__VIRTUAL_MASK_SHIFT C) (s64 address) = s64 address.
Proof.
  intros Hv. rewrite sign_extend_id by lia.
  unfold is_canonical_address.
  set (vs := __VIRTUAL_MASK_SHIFT C) in *.
  replace (64 - (vs + 1)) with (63 - vs) by lia.
  set (sh := 63 - vs). set (x := s64 address).
  assert (Hsh : 0 <= sh <= 63) by (unfold sh; lia).
  assert (Hp : 0 < 2 ^ sh) by (apply pow2_pos; lia).
  assert (Hq : 0 < 2 ^ vs) by (apply pow2_pos; lia).
  assert (H63 : 2 ^ 63 = 2 ^ vs * 2 ^ sh).
  { rewrite <- Z.pow_add_r by lia. f_equal. unfold sh. lia. }
  assert (H64 : 2 ^ 64 = 2 * 2 ^ 63) by reflexivity.
  rewrite Z.shiftl_mul_pow2, Z.shiftr_div_pow2 by lia.
  rewrite Z.eqb_eq. split.
  - intros E. set (z := s64 (x * 2 ^ sh)) in *.
    assert (Hz : - 2 ^ 63 <= z < 2 ^ 63).
    { unfold z, s64.
      pose proof (Z.mod_pos_bound (x * 2 ^ sh + 2 ^ 63) (2 ^ 64)). lia. }
    rewrite <- E. split.
    + apply Z.div_le_lower_bound; lia.
    + apply Z.div_lt_upper_bound; lia.
  - intros Hx. unfold s64 at 1. rewrite Z.mod_small by nia.
    replace (x * 2 ^ sh + 2 ^ 63 - 2 ^ 63) with (x * 2 ^ sh) by lia.
    apply Z.div_mul. lia.
Qed.

(** The bit tests that let a descriptor past the reader's validation. *)
Lemma well_formed_tests req :
  malformed req = false ->
  negb (pasid_present req) = false /\
  pm_req req && (rd_req req || wr_req req) = false /\
  exe_req req && rd_req req = false.
Proof.
  unfold malformed. intros H.
  apply orb_false_iff in H as [H H3]. apply orb_false_iff in H as [H1 H2].
  auto.
Qed.

(** C6.  For a descriptor whose binding is host-mode with an address
    space: when sign-extending the page address ([addr << 12]) from the
    virtual-address limit does not reproduce it, the reader runs no fault
    resolution at all, so the address space's fault handler is not invoked,
    and the response it posts (when the descriptor has LPIG or private data)
    has code INVALID. *)
Theorem prq_handle_non_canonical (svm : svm_ptr) (sdev : option intel_svm_dev)
    (req : page_req_dsc) (w w1 : World) (e : list event) (s : intel_svm)
    (mm : Z) :
  0 <= __VIRTUAL_MASK_SHIFT C <= 63 ->
  lookup_svm Kn svm req w = (e, Done (SvmOk s) w1) ->
  Z.land (svm_flags s) (SVM_FLAG_GUEST_MODE C) = 0 ->
  svm_mm s = Some mm ->
  sign_extend (__VIRTUAL_MASK_SHIFT C)
    (s64 (u64 (Z.shiftl (addr req) VTD_PAGE_SHIFT)))
    <> s64 (u64 (Z.shiftl (addr req) VTD_PAGE_SHIFT)) ->
  exists evs c' w',
    prq_handle C Kn (svm, sdev) req w = (evs, Done c' w') /\
    forallb (fun ev => negb (is_fault_resolution ev)) evs = true /\
    forallb (fun ev => negb (is_fault_handler ev)) evs = true /\
    responses evs =
      if wants_response req then [response_for req QI_RESP_INVALID] else [].
Proof.
  intros Hv Hl Hg Hmm Hc.
  destruct (malformed req) eqn:Hm.
  { rewrite (prq_handle_malformed_run svm sdev req w Hm), no_pasid_run.
    eexists _, _, _. split; [reflexivity|].
    destruct (wants_response req); cbn; auto. }
  destruct (well_formed_tests req Hm) as (T1 & T2 & T3).
  assert (Hcan : is_canonical_address C
                   (u64 (Z.shiftl (addr req) VTD_PAGE_SHIFT)) = false).
  { destruct (is_canonical_address C _) eqn:E; [|reflexivity].
    apply is_canonical_address_spec in E; [contradiction|assumption]. }
  unfold prq_handle. rewrite T1, T2, T3.
  rewrite (bind_run _ _ _ _ _ _ Hl).
  rewrite Hg, Hmm, Hcan. cbn [negb Z.eqb].
  unfold bad_req. rewrite no_pasid_run. cbn [fst snd].
  eexists _, _, _. split; [reflexivity|].
  destruct (lookup_svm_events _ _ _ _ _ Hl) as [->|(a & ->)];
    destruct (wants_response req); cbn; auto.
Qed.

(** With no device-binding cached, or one of another source-ID, the reader's
    device-binding is the first one of the binding's device set that matches
    the descriptor's source-ID. *)
Lemma lookup_sdev_fresh sdev s req :
  (forall d, sdev = Some d -> sd_sid d <> rid req) ->
  lookup_sdev sdev s req
  = List.find (fun t => sd_sid t =? rid req) (svm_devs s).
Proof.
  intros H. unfold lookup_sdev. destruct sdev as [d|]; [|reflexivity].
  destruct (Z.eqb_spec (sd_sid d) (rid req)) as [E|_]; [|reflexivity].
  exfalso. exact (H d eq_refl E).
Qed.

(** C10, as amended.  For a well-formed descriptor whose binding [s] was
    found: (1) when [s] is not guest-mode and has an address space, the
    fault is resolved against that address space and answered SUCCESS when
    the resolution succeeds, whatever the device set of [s] and the reader's
    cached device-binding are; (2) when [s] is guest-mode and the reader
    holds no device-binding for the descriptor (none cached with the same
    source-ID, none in the device set of [s]), or the report to the fault
    sink is not accepted, the descriptor is answered INVALID. *)
Theorem prq_handle_device_binding (svm : svm_ptr) (sdev : option intel_svm_dev)
    (req : page_req_dsc) (w w1 : World) (e : list event) (s : intel_svm) :
  malformed req = false ->
  lookup_svm Kn svm req w = (e, Done (SvmOk s) w1) ->
  let address := u64 (Z.shiftl (addr req) VTD_PAGE_SHIFT) in
  (Z.land (svm_flags s) (SVM_FLAG_GUEST_MODE C) = 0 ->
   forall mm w2 w3 w4 vma r,
     svm_mm s = Some mm ->
     is_canonical_address C address = true ->
     k_mmget_not_zero Kn mm w1 = (true, w2) ->
     k_find_extend_vma Kn mm address (k_mmap_read_lock Kn mm w2)
       = (Some vma, w3) ->
     vm_start vma <= address ->
     access_error C vma req = false ->
     k_handle_mm_fault Kn vma address (fault_flags req) w3 = (r, w4) ->
     Z.land r (VM_FAULT_ERROR C) = 0 ->
     exists evs w',
       prq_handle C Kn (svm, sdev) req w = (evs, Done (SvmNull, None) w') /\
       existsb is_fault_handler evs = true /\
       responses evs =
         if wants_response req then [response_for req QI_RESP_SUCCESS] else [])
  /\
  (Z.land (svm_flags s) (SVM_FLAG_GUEST_MODE C) <> 0 ->
   forall evs c' w',
     prq_handle C Kn (svm, sdev) req w = (evs, Done c' w') ->
     lookup_sdev sdev s req = None \/ handed_off evs = false ->
     handed_off evs = false /\
     c' = (SvmNull, None) /\
     responses evs =
       if wants_response req then [response_for req QI_RESP_INVALID] else []).
Proof.
  intros Hm Hl address.
  destruct (well_formed_tests req Hm) as (T1 & T2 & T3).
  pose proof (lookup_svm_events _ _ _ _ _ Hl) as He.
  split.
  - intros Hg mm w2 w3 w4 vma r Hmm Hcan Hget Hvma Hstart Hacc Hfault Herr.
    unfold prq_handle. rewrite T1, T2, T3.
    rewrite (bind_run _ _ _ _ _ _ Hl).
    rewrite Hg, Hmm. fold address. rewrite Hcan. cbn [negb Z.eqb].
    unfold mmget_not_zero, mmap_read_lock, find_extend_vma, resolve_fault,
      handle_mm_fault, mmap_read_unlock, mmput, bad_req, bind, call, exec, ret.
    rewrite Hget. cbn [negb]. rewrite Hvma.
    destruct (Z.ltb_spec address (vm_start vma)) as [?|_]; [lia|].
    rewrite Hacc. fold (fault_flags req). rewrite Hfault, Herr.
    cbn [negb Z.eqb]. rewrite no_pasid_run. cbn [fst snd].
    eexists _, _. split; [reflexivity|].
    unfold responses. rewrite !existsb_app, !flat_map_app.
    destruct He as [->|(a & ->)]; destruct (wants_response req); cbn; auto.
  - intros Hg evs c' w' H Hor.
    assert (Hgb : negb (Z.land (svm_flags s) (SVM_FLAG_GUEST_MODE C) =? 0)
                  = true).
    { apply negb_true_iff, Z.eqb_neq. exact Hg. }
    unfold prq_handle in H. rewrite T1, T2, T3 in H.
    apply bind_done in H. destruct H as (e1 & a & w0 & e2 & R & H & ->).
    rewrite Hl in R. injection R as <- <- <-.
    rewrite Hgb in H.
    assert (He' : handed_off e = false).
    { destruct He as [->|(a & ->)]; reflexivity. }
    assert (Hre : responses e = []).
    { destruct He as [->|(a & ->)]; reflexivity. }
    unfold handed_off, responses in *.
    rewrite existsb_app, flat_map_app, Hre, He' in *.
    destruct (lookup_sdev sdev s req) as [d|] eqn:Hsd.
    + prq_paths H;
        rewrite ?existsb_app, ?flat_map_app in *; cbn in Hor |- *;
        repeat match goal with
               | E : (_ =? 0) = _ |- _ => rewrite E in *
               end;
        destruct (wants_response req); cbn in Hor |- *;
        try (destruct Hor; discriminate); auto.
    + prq_paths H. destruct (wants_response req); cbn; auto.
Qed.

(** *** The batch: which descriptors, in which order *)

Lemma emits_ret {A} P (a : A) : emits P (ret a).
Proof. intros w. cbn. auto. Qed.

Lemma emits_oops {A} P : emits P (@oops World A).
Proof. intros w. cbn. auto. Qed.

Lemma emits_call {R} P (f : World -> R * World) ev :
  (forall r, P (ev r) = true) -> emits P (call f ev).
Proof.
  intros H w. unfold call. destruct (f w) as [r w']. cbn.
  rewrite H. auto.
Qed.

Lemma emits_exec P (f : World -> World) ev : P ev = true -> emits P (exec f ev).
Proof. intros H w. cbn. rewrite H. auto. Qed.

Lemma emits_bind {A B} P (m : M World A) (f : A -> M World B) :
  emits P m -> (forall a, emits P (f a)) -> emits P (bind m f).
Proof.
  intros Hm Hf w. unfold bind. specialize (Hm w).
  destruct (m w) as [e1 [a w1| |]]; cbn [fst snd] in *;
    [|split; [apply Hm|discriminate]|destruct Hm as [_ []]; reflexivity].
  specialize (Hf a w1). destruct (f a w1) as [e2 r]. cbn [fst snd] in *.
  rewrite forallb_app. destruct Hm as [-> _], Hf as [-> Hr]. auto.
Qed.

Ltac emits_step :=
  first
    [ apply emits_ret
    | apply emits_oops
    | apply emits_call; intros; reflexivity
    | apply emits_exec; reflexivity
    | apply emits_bind; [|intros]
    | match goal with
      | |- emits _ (if ?b then _ else _) => destruct b
      | |- emits _ (match ?x with _ => _ end) => destruct x
      end ].

Lemma emits_respond req code : emits is_quiet (respond Kn req code).
Proof. unfold respond, qi_submit_sync. repeat emits_step. Qed.

Lemma emits_prq_handle c req : emits is_quiet (prq_handle C Kn c req).
Proof.
  destruct c as [svm sdev].
  unfold prq_handle, no_pasid, bad_req, no_pasid, lookup_svm,
    intel_svm_prq_report, resolve_fault, Prq.ioasid_find,
    iommu_report_device_fault, mmget_not_zero, mmap_read_lock,
    mmap_read_unlock, mmput, find_extend_vma, handle_mm_fault.
  repeat first [apply emits_respond | emits_step].
Qed.

Hypothesis order_nonneg : 0 <= prq_size_page_order C.

Lemma ring_entries_pos : 0 < ring_entries.
Proof. unfold ring_entries. apply pow2_pos. lia. Qed.

Lemma ring_mask_eq : PRQ_RING_MASK C = 32 * (ring_entries - 1).
Proof.
  unfold PRQ_RING_MASK, ring_entries.
  rewrite Z.shiftl_mul_pow2 by lia.
  rewrite Z.pow_add_r by lia. change (2 ^ 7) with 128. lia.
Qed.

(** Masking with [PRQ_RING_MASK] keeps the descriptor index modulo the ring
    size and clears the offset within the descriptor. *)
Lemma land_ring_mask t :
  Z.land t (PRQ_RING_MASK C) = 32 * ((t / 32) mod ring_entries).
Proof.
  rewrite ring_mask_eq. unfold ring_entries.
  set (k := 7 + prq_size_page_order C).
  assert (Hk : 0 <= k) by (unfold k; lia).
  replace (32 * (2 ^ k - 1)) with (Z.shiftl (Z.ones k) 5)
    by (rewrite Z.shiftl_mul_pow2, Z.ones_equiv by lia; change (2 ^ 5) with 32; lia).
  replace (32 * ((t / 32) mod 2 ^ k))
    with (Z.shiftl (Z.land (Z.shiftr t 5) (Z.ones k)) 5).
  2:{ rewrite Z.shiftl_mul_pow2, Z.land_ones, Z.shiftr_div_pow2 by lia.
      change (2 ^ 5) with 32. lia. }
  apply Z.bits_inj'. intros n Hn.
  rewrite Z.land_spec, !Z.shiftl_spec, Z.land_spec by lia.
  destruct (Z.ltb_spec n 5) as [Hlt|Hge].
  - rewrite (Z.testbit_neg_r (Z.ones k)) by lia.
    rewrite !andb_false_r. reflexivity.
  - rewrite Z.shiftr_spec by lia. f_equal. f_equal. lia.
Qed.

Lemma ring_index_of t :
  exists i, 0 <= i < ring_entries /\ Z.land t (PRQ_RING_MASK C) = 32 * i.
Proof.
  exists ((t / 32) mod ring_entries). split; [|apply land_ring_mask].
  apply Z.mod_pos_bound, ring_entries_pos.
Qed.

Lemma ring_advance i :
  Z.land (32 * i + REQ_SIZE) (PRQ_RING_MASK C) = 32 * ((i + 1) mod ring_entries).
Proof.
  rewrite land_ring_mask. unfold REQ_SIZE.
  replace (32 * i + 32) with ((i + 1) * 32) by lia.
  rewrite Z.div_mul by lia. reflexivity.
Qed.

Lemma ring_between_cons n a b :
  0 < n -> 0 <= a < n -> 0 <= b < n -> a <> b ->
  ring_between n a b = a :: ring_between n ((a + 1) mod n) b.
Proof.
  intros Hn Ha Hb Hne. unfold ring_between.
  assert (Hd : 0 < (b - a) mod n).
  { pose proof (Z.mod_pos_bound (b - a) n Hn).
    destruct (Z.eq_dec ((b - a) mod n) 0) as [E|]; [|lia].
    apply Z.mod_divide in E; [|lia]. destruct E as [q E].
    assert (q = 0) by nia. lia. }
  assert (Hd' : (b - (a + 1) mod n) mod n = (b - a) mod n - 1).
  { rewrite Zminus_mod_idemp_r.
    replace (b - (a + 1)) with (b - a - 1) by lia.
    rewrite <- Zminus_mod_idemp_l. apply Z.mod_small.
    pose proof (Z.mod_pos_bound (b - a) n Hn). lia. }
  rewrite Hd'.
  replace (Z.to_nat ((b - a) mod n)) with (S (Z.to_nat ((b - a) mod n - 1)))
    by lia.
  cbn [seq map]. f_equal.
  - rewrite Z.add_0_r. apply Z.mod_small. lia.
  - rewrite <- seq_shift, map_map. apply map_ext. intros k.
    rewrite Zplus_mod_idemp_l. f_equal. lia.
Qed.

Lemma ring_between_nil n a : 0 < n -> ring_between n a a = [].
Proof.
  intros Hn. unfold ring_between. rewrite Z.sub_diag, Z.mod_0_l by lia.
  reflexivity.
Qed.

Lemma ring_between_length n a b :
  0 < n -> (length (ring_between n a b) < Z.to_nat n)%nat.
Proof.
  intros Hn. unfold ring_between. rewrite length_map, length_seq.
  pose proof (Z.mod_pos_bound (b - a) n Hn). lia.
Qed.

Lemma ring_between_NoDup n a b : 0 < n -> List.NoDup (ring_between n a b).
Proof.
  intros Hn. unfold ring_between.
  pose proof (Z.mod_pos_bound (b - a) n Hn) as Hd.
  set (f := fun k : nat => (a + Z.of_nat k) mod n).
  apply (proj2 (List.NoDup_nth _ (f O))).
  intros x y Hx Hy. rewrite length_map, length_seq in *.
  rewrite !map_nth, !seq_nth by lia. cbn [Nat.add]. unfold f.
  intros E.
  assert (Hm : (Z.of_nat x - Z.of_nat y) mod n = 0).
  { replace (Z.of_nat x - Z.of_nat y)
      with ((a + Z.of_nat x) - (a + Z.of_nat y)) by lia.
    rewrite Zminus_mod, E, Z.sub_diag. apply Z.mod_0_l. lia. }
  apply Z.mod_divide in Hm; [|lia]. destruct Hm as [q Hq].
  assert (q = 0) by nia. lia.
Qed.

Lemma quiet_events evs :
  forallb is_quiet evs = true ->
  desc_indices evs = [] /\
  forallb (fun e => negb (is_head_write e)) evs = true.
Proof.
  induction evs as [|e evs IH]; [auto|]. cbn [forallb].
  intros H. apply andb_true_iff in H as [He H].
  destruct (IH H) as [I1 I2]. unfold desc_indices in *. cbn [flat_map forallb].
  rewrite I1, I2. destruct e; try discriminate He; auto.
Qed.

(** One turn of the reader's loop, at ring index [i]. *)
Lemma prq_loop_step fuel i j c w :
  i <> j ->
  prq_loop C Kn (S fuel) (32 * i) (32 * j) c w =
  let req := k_prq Kn i w in
  match prq_handle C Kn c req w with
  | (e1, Done c' w1) =>
      let run := prq_loop C Kn fuel (32 * ((i + 1) mod ring_entries)) (32 * j)
                   c' w1 in
      (EvDesc i req :: e1 ++ fst run, snd run)
  | (e1, Oops) => (EvDesc i req :: e1, Oops)
  | (e1, OutOfFuel) => (EvDesc i req :: e1, OutOfFuel)
  end.
Proof.
  intros Hne. cbn [prq_loop].
  destruct (Z.eqb_spec (32 * i) (32 * j)) as [?|_]; [lia|].
  unfold bind, read_req.
  replace (32 * i / REQ_SIZE) with i
    by (unfold REQ_SIZE; rewrite Z.mul_comm, Z.div_mul; lia).
  rewrite ring_advance. cbv zeta.
  destruct (prq_handle C Kn c (k_prq Kn i w) w) as [e1 [c' w1| |]];
    try reflexivity.
  destruct (prq_loop C Kn fuel _ _ c' w1) as [e2 r]. reflexivity.
Qed.

(** The reader's loop from index [i] to index [j]: it takes the descriptors
    at the ring indices from [i] to [j] in ring order, stopping early only
    on a fault, and it never writes the head register. *)
Lemma prq_loop_walk fuel : forall i j c w,
  0 <= i < ring_entries -> 0 <= j < ring_entries ->
  (length (ring_between ring_entries i j) <= fuel)%nat ->
  let run := prq_loop C Kn fuel (32 * i) (32 * j) c w in
  snd run <> OutOfFuel /\
  forallb (fun e => negb (is_head_write e)) (fst run) = true /\
  exists rest,
    ring_between ring_entries i j = desc_indices (fst run) ++ rest /\
    forall a w', snd run = Done a w' -> rest = [].
Proof.
  pose proof ring_entries_pos as HN.
  induction fuel as [|fuel IH]; intros i j c w Hi Hj Hlen run;
    destruct (Z.eq_dec i j) as [->|Hne].
  - subst run. cbn [prq_loop]. rewrite Z.eqb_refl. cbn.
    rewrite ring_between_nil by lia. repeat split; try discriminate.
    exists []. auto.
  - rewrite ring_between_cons in Hlen by lia. cbn [length] in Hlen. lia.
  - subst run. cbn [prq_loop]. rewrite Z.eqb_refl. cbn.
    rewrite ring_between_nil by lia. repeat split; try discriminate.
    exists []. auto.
  - rewrite ring_between_cons in * by lia. cbn [length] in Hlen.
    subst run. rewrite prq_loop_step by assumption. cbv zeta.
    set (req := k_prq Kn i w).
    destruct (emits_prq_handle c req w) as [Hq Hf].
    destruct (prq_handle C Kn c req w) as [e1 [c' w1| |]]; cbn [fst snd] in *;
      [| |contradiction]; destruct (quiet_events _ Hq) as [Q1 Q2].
    + assert (Hi' : 0 <= (i + 1) mod ring_entries < ring_entries)
        by (apply Z.mod_pos_bound; lia).
      specialize (IH ((i + 1) mod ring_entries) j c' w1 Hi' Hj ltac:(lia)).
      cbv zeta in IH.
      destruct (prq_loop C Kn fuel (32 * ((i + 1) mod ring_entries)) (32 * j)
                  c' w1) as [e2 r].
      cbn [fst snd] in *. destruct IH as (F1 & F2 & rest & F3 & F4).
      split; [exact F1|]. split.
      * cbn [forallb]. rewrite forallb_app, Q2, F2. reflexivity.
      * exists rest. split; [|exact F4].
        unfold desc_indices in *. cbn [flat_map app].
        rewrite flat_map_app, Q1, F3. reflexivity.
    + split; [discriminate|]. split.
      * cbn [forallb]. rewrite Q2. reflexivity.
      * exists (ring_between ring_entries ((i + 1) mod ring_entries) j).
        split; [|discriminate].
        unfold desc_indices in *. cbn [flat_map app]. rewrite Q1. reflexivity.
Qed.

(** A completed invocation of the reader: the descriptors at the ring
    indices from the head it read to the tail it read are taken once each,
    in ring order, and the head register is written, with that tail, after
    the last of them and not before. *)
Theorem prq_event_thread_batch (fuel : nat) (w w' : World)
    (evs : list event) (handled : bool) :
  (Z.to_nat ring_entries <= fuel)%nat ->
  prq_event_thread C Kn fuel w = (evs, Done handled w') ->
  exists t h pre post,
    let tail := Z.land t (PRQ_RING_MASK C) in
    let head := Z.land h (PRQ_RING_MASK C) in
    evs = [EvWritel DMAR_PRS_REG (DMA_PRS_PPR C);
           EvReadq DMAR_PQT_REG t; EvReadq DMAR_PQH_REG h]
          ++ pre ++ EvWriteq DMAR_PQH_REG tail :: post /\
    desc_indices pre = ring_between ring_entries (head / 32) (tail / 32) /\
    List.NoDup (desc_indices pre) /\
    forallb (fun e => negb (is_head_write e)) pre = true /\
    desc_indices post = [] /\
    forallb (fun e => negb (is_head_write e)) post = true.
Proof.
  intros Hfuel H. pose proof ring_entries_pos as HN.
  unfold prq_event_thread, writel, dmar_readq, dmar_writeq, readl, complete in H.
  apply bind_done in H. destruct H as (e0 & [] & w0 & e0' & R0 & H & ->).
  apply exec_done in R0. destruct R0 as (-> & ->).
  apply bind_done in H. destruct H as (e1 & t & w1 & e1' & R1 & H & ->).
  apply call_done in R1. destruct R1 as (-> & R1).
  apply bind_done in H. destruct H as (e2 & h & w2 & e2' & R2 & H & ->).
  apply call_done in R2. destruct R2 as (-> & R2).
  apply bind_done in H. destruct H as (pre & [] & w3 & e3' & R3 & H & ->).
  apply bind_done in H. destruct H as (e4 & [] & w4 & post & R4 & H & ->).
  apply exec_done in R4. destruct R4 as (-> & ->).
  exists t, h, pre, post. cbv zeta.
  destruct (ring_index_of t) as (j & Hj & Et).
  destruct (ring_index_of h) as (i & Hi & Eh).
  rewrite Et, Eh in *.
  replace (32 * i / 32) with i by (rewrite Z.mul_comm, Z.div_mul; lia).
  replace (32 * j / 32) with j by (rewrite Z.mul_comm, Z.div_mul; lia).
  pose proof (ring_between_length ring_entries i j HN) as Hlen.
  destruct (prq_loop_walk fuel i j (SvmNull, None) w2 Hi Hj ltac:(lia))
    as (_ & W2 & rest & W3 & W4).
  rewrite R3 in W2, W3, W4. cbn [fst snd] in *.
  rewrite (W4 _ _ eq_refl), app_nil_r in W3.
  split; [reflexivity|]. split; [symmetry; exact W3|].
  split; [rewrite <- W3; apply ring_between_NoDup; lia|].
  split; [exact W2|].
  m_inv; cbn; auto.
Qed.

(** *** When the reader completes *)

Lemma returns_ret {A} (Q : A -> Prop) a : Q a -> returns Q (ret a).
Proof. intros H w. exists [], a, w. auto. Qed.

Lemma returns_call {R} (Q : R -> Prop) (f : World -> R * World) ev :
  (forall w, Q (fst (f w))) -> returns Q (call f ev).
Proof.
  intros H w. unfold call. specialize (H w). destruct (f w) as [r w'].
  exists [ev r], r, w'. auto.
Qed.

Lemma returns_exec (Q : unit -> Prop) (f : World -> World) ev :
  Q tt -> returns Q (exec f ev).
Proof. intros H w. exists [ev], tt, (f w). auto. Qed.

Lemma returns_bind {A B} (Q1 : A -> Prop) (Q : B -> Prop) (m : M World A)
    (f : A -> M World B) :
  returns Q1 m -> (forall a, Q1 a -> returns Q (f a)) -> returns Q (bind m f).
Proof.
  intros Hm Hf w. destruct (Hm w) as (e1 & a & w1 & E1 & Ha).
  destruct (Hf a Ha w1) as (e2 & b & w2 & E2 & Hb).
  exists (e1 ++ e2), b, w2. unfold bind. rewrite E1, E2. auto.
Qed.

Lemma returns_weaken {A} (Q1 Q : A -> Prop) (m : M World A) :
  returns Q1 m -> (forall a, Q1 a -> Q a) -> returns Q m.
Proof.
  intros Hm HQ w. destruct (Hm w) as (e & a & w' & E & Ha). eauto 6.
Qed.

Lemma returns_no_pasid svm sdev req code (Q : cache -> Prop) :
  Q (svm, sdev) -> returns Q (no_pasid Kn svm sdev req code).
Proof.
  intros H w. rewrite no_pasid_run. eauto.
Qed.

Lemma lookup_sdev_ok sdev s req d :
  good_svm (SvmOk s) = true ->
  (forall d0, sdev = Some d0 -> dev_ok (sd_dev d0) = true) ->
  lookup_sdev sdev s req = Some d -> dev_ok (sd_dev d) = true.
Proof.
  cbn [good_svm]. intros Hs Hc. unfold lookup_sdev.
  assert (Hfind : List.find (fun t => sd_sid t =? rid req) (svm_devs s) = Some d
                  -> dev_ok (sd_dev d) = true).
  { intros Hf. apply find_some in Hf as [Hin _].
    rewrite forallb_forall in Hs. exact (Hs d Hin). }
  destruct sdev as [d0|]; [|exact Hfind].
  destruct (negb (sd_sid d0 =? rid req)); [exact Hfind|].
  intros [= <-]. apply Hc. reflexivity.
Qed.

Lemma returns_report d req :
  dev_ok d = true -> returns (fun _ => True) (intel_svm_prq_report Kn d req).
Proof.
  unfold dev_ok, intel_svm_prq_report. intros H.
  destruct (dev_is_pci d); cbn [negb orb] in *.
  - destruct (dev_info d); [|discriminate H].
    apply returns_call. auto.
  - apply returns_ret. exact I.
Qed.

Lemma returns_resolve_fault vma req address :
  returns (fun _ => True) (resolve_fault C Kn vma req address).
Proof.
  unfold resolve_fault. destruct vma as [v|]; [|apply returns_ret; exact I].
  destruct (address <? vm_start v); [apply returns_ret; exact I|].
  destruct (access_error C v req); [apply returns_ret; exact I|].
  eapply returns_bind; [apply returns_call with (Q := fun _ => True); auto|].
  intros r _. destruct (negb _); apply returns_ret; exact I.
Qed.

(** With lookups that never return an error pointer, handling a descriptor
    completes and leaves cached pointers that can be used again. *)
Lemma returns_prq_handle c req :
  lookups_good -> cache_ok c = true ->
  returns (fun c' => cache_ok c' = true) (prq_handle C Kn c req).
Proof.
  intros Hgood Hc. destruct c as [svm sdev]. unfold cache_ok in Hc.
  cbn [fst snd] in Hc. apply andb_true_iff in Hc as [Hsvm Hsdev].
  assert (Hkeep : forall p, good_svm p = true -> cache_ok (p, sdev) = true).
  { intros p Hp. unfold cache_ok. cbn [fst snd]. rewrite Hp. exact Hsdev. }
  assert (Hnone : cache_ok (SvmNull, None) = true) by reflexivity.
  unfold prq_handle.
  destruct (negb (pasid_present req)); [apply returns_no_pasid; auto|].
  destruct (pm_req req && (rd_req req || wr_req req));
    [apply returns_no_pasid; auto|].
  destruct (exe_req req && rd_req req); [apply returns_no_pasid; auto|].
  apply returns_bind with (Q1 := fun p => good_svm p = true).
  { unfold lookup_svm, Prq.ioasid_find. destruct svm as [| |s0].
    - apply returns_call. intros w. apply Hgood.
    - discriminate Hsvm.
    - destruct (negb _); [apply returns_call; intros w; apply Hgood|].
      apply returns_ret. exact Hsvm. }
  intros [| |s] Hs; [apply returns_no_pasid; auto|discriminate Hs|].
  unfold bad_req.
  destruct (negb (Z.land (svm_flags s) (SVM_FLAG_GUEST_MODE C) =? 0)).
  - destruct (lookup_sdev sdev s req) as [d|] eqn:Hd;
      [|apply returns_no_pasid; auto].
    assert (Hok : dev_ok (sd_dev d) = true).
    { apply (lookup_sdev_ok sdev s req d Hs); [|exact Hd].
      intros d0 ->. exact Hsdev. }
    eapply returns_bind; [apply returns_report; exact Hok|].
    intros r _. destruct (r =? 0); [|apply returns_no_pasid; auto].
    apply returns_ret. unfold cache_ok. cbn [fst snd]. rewrite Hs, Hok.
    reflexivity.
  - destruct (svm_mm s) as [mm|]; [|apply returns_no_pasid; auto].
    destruct (negb (is_canonical_address C _)); [apply returns_no_pasid; auto|].
    eapply returns_bind;
      [apply returns_call with (Q := fun _ => True); auto|].
    intros alive _. destruct (negb alive); [apply returns_no_pasid; auto|].
    eapply returns_bind;
      [apply returns_exec with (Q := fun _ => True); auto|]. intros _ _.
    eapply returns_bind;
      [apply returns_call with (Q := fun _ => True); auto|]. intros vma _.
    eapply returns_bind; [apply returns_resolve_fault|]. intros code _.
    eapply returns_bind;
      [apply returns_exec with (Q := fun _ => True); auto|]. intros _ _.
    eapply returns_bind;
      [apply returns_exec with (Q := fun _ => True); auto|]. intros _ _.
    apply returns_no_pasid; auto.
Qed.

Lemma prq_loop_no_oops fuel : forall i j c w,
  lookups_good -> cache_ok c = true ->
  snd (prq_loop C Kn fuel (32 * i) (32 * j) c w) <> Oops.
Proof.
  induction fuel as [|fuel IH]; intros i j c w Hgood Hc;
    destruct (Z.eq_dec i j) as [->|Hne].
  - cbn [prq_loop]. rewrite Z.eqb_refl. discriminate.
  - cbn [prq_loop]. destruct (Z.eqb_spec (32 * i) (32 * j)); [lia|].
    discriminate.
  - cbn [prq_loop]. rewrite Z.eqb_refl. discriminate.
  - rewrite prq_loop_step by assumption. cbv zeta.
    destruct (returns_prq_handle c (k_prq Kn i w) Hgood Hc w)
      as (e1 & c' & w1 & -> & Hc').
    cbn [snd]. apply IH; assumption.
Qed.

(** With lookups that never return an error pointer the reader completes,
    for every state of the hardware and of the kernel. *)
Theorem prq_event_thread_completes (fuel : nat) (w : World) :
  lookups_good ->
  (Z.to_nat ring_entries <= fuel)%nat ->
  exists evs handled w', prq_event_thread C Kn fuel w = (evs, Done handled w').
Proof.
  intros Hgood Hfuel. pose proof ring_entries_pos as HN.
  assert (R : returns (fun _ => True) (prq_event_thread C Kn fuel)).
  { unfold prq_event_thread, writel, dmar_readq, dmar_writeq, readl, complete.
    eapply returns_bind;
      [apply returns_exec with (Q := fun _ => True); auto|]. intros _ _.
    eapply returns_bind;
      [apply returns_call with (Q := fun _ => True); auto|]. intros t _.
    eapply returns_bind;
      [apply returns_call with (Q := fun _ => True); auto|]. intros h _.
    eapply returns_bind with (Q1 := fun _ => True).
    { intros w0.
      destruct (ring_index_of t) as (j & Hj & ->).
      destruct (ring_index_of h) as (i & Hi & ->).
      pose proof (ring_between_length ring_entries i j HN) as Hlen.
      destruct (prq_loop_walk fuel i j (SvmNull, None) w0 Hi Hj ltac:(lia))
        as (W1 & _).
      pose proof (prq_loop_no_oops fuel i j (SvmNull, None) w0 Hgood eq_refl)
        as W2.
      destruct (prq_loop C Kn fuel (32 * i) (32 * j) (SvmNull, None) w0)
        as [e [[] w1| |]]; cbn [snd] in *; try contradiction.
      eauto 6. }
    intros _ _.
    eapply returns_bind;
      [apply returns_exec with (Q := fun _ => True); auto|]. intros _ _.
    eapply returns_bind;
      [apply returns_call with (Q := fun _ => True); auto|]. intros prs _.
    eapply returns_bind with (Q1 := fun _ => True).
    { destruct (negb _); [|apply returns_ret; exact I].
      eapply returns_bind;
        [apply returns_call with (Q := fun _ => True); auto|]. intros h2 _.
      eapply returns_bind;
        [apply returns_call with (Q := fun _ => True); auto|]. intros t2 _.
      destruct (_ =? _); [apply returns_exec|apply returns_ret]; exact I. }
    intros _ _.
    eapply returns_bind;
      [apply returns_exec with (Q := fun _ => True); auto|]. intros _ _.
    apply returns_ret. exact I. }
  destruct (R w) as (evs & handled & w' & E & _). eauto.
Qed.

(** *** What handling one descriptor does with the address space *)

(** Runs the loop body forward on every path. *)
Ltac prq_forward :=
  unfold prq_handle, lookup_svm, bad_req, no_pasid, respond,
    intel_svm_prq_report, resolve_fault, Prq.ioasid_find,
    iommu_report_device_fault, mmget_not_zero, mmap_read_lock,
    mmap_read_unlock, mmput, find_extend_vma, handle_mm_fault,
    qi_submit_sync, bind, call, exec, ret, oops;
  repeat match goal with
    | |- context [match ?x with _ => _ end] =>
        lazymatch x with
        | context [match _ with _ => _ end] => fail
        | _ => destruct x eqn:?
        end
    end.

(** Replaces a boolean variable by the value a test has fixed. *)
Ltac bool_vars :=
  repeat match goal with
    | H : negb ?b = _ |- _ => is_var b; destruct b; try discriminate H; clear H
    end.

(** However the handling of a descriptor ends, its calls into the memory
    manager are none, or one refused [mmget_not_zero], or one granted
    [mmget_not_zero] followed by the read lock, the region lookup at the
    faulting address, at most one call of the fault handler, the unlock and
    [mmput], all on one address space. *)
Theorem prq_handle_mm_calls (c : cache) (req : page_req_dsc) (w : World) :
  let address := u64 (Z.shiftl (addr req) VTD_PAGE_SHIFT) in
  let calls := mm_calls (fst (prq_handle C Kn c req w)) in
  calls = [] \/
  (exists mm, calls = [EvMmget mm false]) \/
  (exists mm vma faults,
     calls = [EvMmget mm true; EvMmapReadLock mm; EvFindVma mm address vma]
             ++ faults ++ [EvMmapReadUnlock mm; EvMmput mm] /\
     (faults = [] \/
      exists v r, vma = Some v /\
                  faults = [EvHandleMmFault v address (fault_flags req) r])).
Proof.
  destruct c as [svm sdev]. cbv zeta. unfold Prq.fault_flags.
  prq_forward; bool_vars; cbn;
    first
      [ left; reflexivity
      | right; left; eexists; reflexivity
      | right; right; eexists _, _, []; split; [reflexivity|left; reflexivity]
      | right; right; eexists _, _, [_]; split;
        [reflexivity|right; eexists _, _; split; reflexivity] ].
Qed.

(** A SUCCESS response is posted only for a well-formed descriptor with a
    canonical address, after the address space granted a reference, the
    region lookup returned a region that starts at or below the address and
    allows the requested access, and the fault handler, called with the
    reader's flags, returned without error. *)
Theorem prq_handle_success (c : cache) (req : page_req_dsc) (w : World) :
  let address := u64 (Z.shiftl (addr req) VTD_PAGE_SHIFT) in
  let evs := fst (prq_handle C Kn c req w) in
  In (response_for req QI_RESP_SUCCESS) (responses evs) ->
  malformed req = false /\
  is_canonical_address C address = true /\
  exists mm v r,
    In (EvMmget mm true) evs /\
    In (EvFindVma mm address (Some v)) evs /\
    In (EvHandleMmFault v address (fault_flags req) r) evs /\
    vm_start v <= address /\
    access_error C v req = false /\
    Z.land r (VM_FAULT_ERROR C) = 0.
Proof.
  destruct c as [svm sdev]. cbv zeta.
  unfold Prq.fault_flags, malformed, response_for.
  prq_forward; bool_vars; cbn;
    try (intros []; fail);
    try (intros [H|[]]; discriminate H);
    intros _;
    (split; [reflexivity|]);
    (split; [apply negb_false_iff; assumption|]);
    eexists _, _, _;
    (split; [repeat first [left; reflexivity | right]|]);
    (split; [repeat first [left; reflexivity | right]|]);
    (split; [repeat first [left; reflexivity | right]|]);
    (split; [apply Z.ltb_ge; assumption|]);
    (split; [assumption|]);
    apply Z.eqb_eq, negb_false_iff; assumption.
Qed.

(** *** The reader's epilogue *)

Lemma emits_loop_respond req code : emits is_loop_event (respond Kn req code).
Proof. unfold respond, qi_submit_sync. repeat emits_step. Qed.

Lemma emits_loop_prq_handle c req : emits is_loop_event (prq_handle C Kn c req).
Proof.
  destruct c as [svm sdev].
  unfold prq_handle, no_pasid, bad_req, no_pasid, lookup_svm,
    intel_svm_prq_report, resolve_fault, Prq.ioasid_find,
    iommu_report_device_fault, mmget_not_zero, mmap_read_lock,
    mmap_read_unlock, mmput, find_extend_vma, handle_mm_fault.
  repeat first [apply emits_loop_respond | emits_step].
Qed.

Lemma prq_loop_events fuel : forall head tail c w evs u w',
  prq_loop C Kn fuel head tail c w = (evs, Done u w') ->
  forallb is_loop_event evs = true /\ (head = tail -> evs = []).
Proof.
  induction fuel as [|fuel IH]; intros head tail c w evs u w' H;
    cbn [prq_loop] in H; destruct (Z.eqb_spec head tail) as [E|E].
  - apply ret_done in H. destruct H as (-> & _). auto.
  - discriminate H.
  - apply ret_done in H. destruct H as (-> & _). auto.
  - apply bind_done in H. destruct H as (e1 & req & w1 & e2 & R1 & H & ->).
    apply bind_done in H. destruct H as (e3 & c' & w2 & e4 & R2 & H & ->).
    unfold read_req in R1. injection R1 as <- _ _.
    destruct (emits_loop_prq_handle c req w1) as [Hq _]. rewrite R2 in Hq.
    destruct (IH _ _ _ _ _ _ _ H) as [I _]. split; [|contradiction].
    cbn [app forallb is_loop_event]. rewrite forallb_app.
    cbn [fst] in Hq. rewrite Hq, I. reflexivity.
Qed.

Lemma loop_events_no_completion evs :
  forallb is_loop_event evs = true -> List.filter is_completion_event evs = [].
Proof.
  induction evs as [|e evs IH]; [reflexivity|]. cbn [forallb List.filter].
  intros H. apply andb_true_iff in H as [He H]. rewrite (IH H).
  destruct e; try discriminate He; reflexivity.
Qed.

(** A completed invocation of the reader begins by clearing the pending
    page request bit, before it reads tail and head; between these reads
    and the head register write it only takes descriptors and handles them;
    after the write it reads the status register once, and when the
    overflow bit is set it reads head and tail again and clears the bit only
    when they are equal; it signals [prq_complete] exactly once, as its last
    action, and never waits on it.  It reports the interrupt as handled
    exactly when head and tail differed. *)
Theorem prq_event_thread_epilogue (fuel : nat) (w w' : World)
    (evs : list event) (handled : bool) :
  prq_event_thread C Kn fuel w = (evs, Done handled w') ->
  exists t h body prs ovf,
    let tail := Z.land t (PRQ_RING_MASK C) in
    let head := Z.land h (PRQ_RING_MASK C) in
    evs = [EvWritel DMAR_PRS_REG (DMA_PRS_PPR C);
           EvReadq DMAR_PQT_REG t; EvReadq DMAR_PQH_REG h]
          ++ body
          ++ [EvWriteq DMAR_PQH_REG tail; EvReadl DMAR_PRS_REG prs]
          ++ ovf ++ [EvComplete] /\
    forallb is_loop_event body = true /\
    (head = tail -> body = []) /\
    handled = negb (head =? tail) /\
    (Z.land prs (DMA_PRS_PRO C) = 0 -> ovf = []) /\
    (Z.land prs (DMA_PRS_PRO C) <> 0 ->
     exists h2 t2,
       ovf = [EvReadq DMAR_PQH_REG h2; EvReadq DMAR_PQT_REG t2]
             ++ (if Z.land h2 (PRQ_RING_MASK C) =? Z.land t2 (PRQ_RING_MASK C)
                 then [EvWritel DMAR_PRS_REG (DMA_PRS_PRO C)] else [])) /\
    List.filter is_completion_event evs = [EvComplete].
Proof.
  intros H.
  unfold prq_event_thread, writel, dmar_readq, dmar_writeq, readl, complete in H.
  apply bind_done in H. destruct H as (e0 & [] & w0 & e0' & R0 & H & ->).
  apply exec_done in R0. destruct R0 as (-> & ->).
  apply bind_done in H. destruct H as (e1 & t & w1 & e1' & R1 & H & ->).
  apply call_done in R1. destruct R1 as (-> & R1).
  apply bind_done in H. destruct H as (e2 & h & w2 & e2' & R2 & H & ->).
  apply call_done in R2. destruct R2 as (-> & R2).
  apply bind_done in H. destruct H as (body & [] & w3 & e3' & R3 & H & ->).
  apply bind_done in H. destruct H as (e4 & [] & w4 & e4' & R4 & H & ->).
  apply exec_done in R4. destruct R4 as (-> & ->).
  apply bind_done in H. destruct H as (e5 & prs & w5 & e5' & R5 & H & ->).
  apply call_done in R5. destruct R5 as (-> & R5).
  apply bind_done in H. destruct H as (ovf & [] & w6 & e6' & R6 & H & ->).
  apply bind_done in H. destruct H as (e7 & [] & w7 & e7' & R7 & H & ->).
  apply exec_done in R7. destruct R7 as (-> & ->).
  apply ret_done in H. destruct H as (-> & -> & ->).
  destruct (prq_loop_events _ _ _ _ _ _ _ _ R3) as [Hbody Hempty].
  assert (Hovf :
    (Z.land prs (DMA_PRS_PRO C) = 0 -> ovf = []) /\
    (Z.land prs (DMA_PRS_PRO C) <> 0 ->
     exists h2 t2,
       ovf = [EvReadq DMAR_PQH_REG h2; EvReadq DMAR_PQT_REG t2]
             ++ (if Z.land h2 (PRQ_RING_MASK C) =? Z.land t2 (PRQ_RING_MASK C)
                 then [EvWritel DMAR_PRS_REG (DMA_PRS_PRO C)] else []))).
  { destruct (Z.eqb_spec (Z.land prs (DMA_PRS_PRO C)) 0) as [E|E];
      cbn [negb] in R6.
    - apply ret_done in R6. destruct R6 as (-> & _). split; [auto|].
      intros N. contradiction.
    - split; [intros N; contradiction|]. intros _.
      apply bind_done in R6. destruct R6 as (a1 & h2 & v1 & a2 & S1 & R6 & ->).
      apply call_done in S1. destruct S1 as (-> & S1).
      apply bind_done in R6. destruct R6 as (a3 & t2 & v2 & a4 & S2 & R6 & ->).
      apply call_done in S2. destruct S2 as (-> & S2).
      exists h2, t2.
      destruct (Z.land h2 (PRQ_RING_MASK C) =? Z.land t2 (PRQ_RING_MASK C)).
      + apply exec_done in R6. destruct R6 as (-> & _). reflexivity.
      + apply ret_done in R6. destruct R6 as (-> & _). reflexivity. }
  exists t, h, body, prs, ovf. cbv zeta.
  split; [reflexivity|].
  split; [exact Hbody|]. split; [exact Hempty|]. split; [reflexivity|].
  split; [exact (proj1 Hovf)|]. split; [exact (proj2 Hovf)|].
  assert (Hf : List.filter is_completion_event ovf = []).
  { destruct (Z.eq_dec (Z.land prs (DMA_PRS_PRO C)) 0) as [E|E].
    - rewrite (proj1 Hovf E). reflexivity.
    - destruct (proj2 Hovf E) as (h2 & t2 & E2). rewrite E2.
      destruct (Z.land h2 (PRQ_RING_MASK C) =? Z.land t2 (PRQ_RING_MASK C));
        reflexivity. }
  cbn [app List.filter is_completion_event].
  rewrite List.filter_app, (loop_events_no_completion _ Hbody).
  cbn [app List.filter is_completion_event].
  rewrite List.filter_app, Hf. reflexivity.
Qed.

(** *** The two tests on the faulting address and the access *)

Lemma small_bits_high x n : 0 <= x < 2 ^ 64 -> 64 <= n -> Z.testbit x n = false.
Proof.
  intros Hx Hn. rewrite <- (Z.mod_small x (2 ^ 64)) by lia.
  apply Z.mod_pow2_bits_high. lia.
Qed.

Lemma land_lnot_u64 x f :
  0 <= x < 2 ^ 64 -> (Z.land x (u64 (Z.lnot f)) = 0 <-> Z.land x f = x).
Proof.
  intros Hx. unfold u64. split; intros H; apply Z.bits_inj'; intros n Hn.
  - rewrite Z.land_spec. destruct (Z.testbit x n) eqn:Ex; [|reflexivity].
    destruct (Z.ltb_spec n 64) as [Hlt|Hge];
      [|rewrite small_bits_high in Ex by lia; discriminate Ex].
    apply (f_equal (fun z => Z.testbit z n)) in H.
    rewrite Z.land_spec, Ex, Z.bits_0, Z.mod_pow2_bits_low, Z.lnot_spec in H
      by lia.
    cbn [andb] in H. apply negb_false_iff in H. rewrite H. reflexivity.
  - rewrite Z.land_spec, Z.bits_0.
    destruct (Z.ltb_spec n 64) as [Hlt|Hge];
      [|rewrite small_bits_high by lia; reflexivity].
    rewrite Z.mod_pow2_bits_low, Z.lnot_spec by lia.
    apply (f_equal (fun z => Z.testbit z n)) in H. rewrite Z.land_spec in H.
    destruct (Z.testbit x n); [|reflexivity]. cbn [andb] in *. rewrite H.
    reflexivity.
Qed.

(** [access_error] lets a request through exactly when the region's flags
    contain the permission bit of each access the descriptor asks for:
    [VM_EXEC] for an execute request, [VM_READ] for a read, [VM_WRITE] for
    a write.  A descriptor that asks for nothing is always let through. *)
Theorem access_error_spec (vma : vm_area) (req : page_req_dsc) :
  0 <= VM_READ C < 2 ^ 64 -> 0 <= VM_WRITE C < 2 ^ 64 ->
  0 <= VM_EXEC C < 2 ^ 64 ->
  (access_error C vma req = false <->
   (exe_req req = true -> Z.land (VM_EXEC C) (vm_flags vma) = VM_EXEC C) /\
   (rd_req req = true -> Z.land (VM_READ C) (vm_flags vma) = VM_READ C) /\
   (wr_req req = true -> Z.land (VM_WRITE C) (vm_flags vma) = VM_WRITE C)).
Proof.
  intros Hr Hw He. unfold access_error.
  rewrite negb_false_iff, Z.eqb_eq.
  pose proof (land_lnot_u64 (VM_READ C) (vm_flags vma) Hr) as Lr.
  pose proof (land_lnot_u64 (VM_WRITE C) (vm_flags vma) Hw) as Lw.
  pose proof (land_lnot_u64 (VM_EXEC C) (vm_flags vma) He) as Le.
  destruct (exe_req req), (rd_req req), (wr_req req);
    rewrite ?Z.lor_0_l, ?Z.land_lor_distr_l, ?Z.lor_eq_0_iff, ?Z.land_0_l;
    intuition discriminate.
Qed.

(** For a 64-bit address, [is_canonical_address] holds exactly in the two
    halves of the address space: below [2^s] and from [2^64 - 2^s] on, where
    [s] is [__VIRTUAL_MASK_SHIFT]. *)
Theorem is_canonical_address_halves (address : Z) :
  0 <= __VIRTUAL_MASK_SHIFT C <= 63 ->
  0 <= address < 2 ^ 64 ->
  (is_canonical_address C address = true <->
   address < 2 ^ __VIRTUAL_MASK_SHIFT C \/
   2 ^ 64 - 2 ^ __VIRTUAL_MASK_SHIFT C <= address).
Proof.
  intros Hv Ha. rewrite is_canonical_address_spec, sign_extend_id by lia.
  set (vs := __VIRTUAL_MASK_SHIFT C) in *.
  assert (Hq : 0 < 2 ^ vs) by (apply pow2_pos; lia).
  assert (Hle : 2 ^ vs <= 2 ^ 63) by (apply Z.pow_le_mono_r; lia).
  unfold s64. change (2 ^ 64) with (2 * 2 ^ 63) in *.
  destruct (Z.lt_ge_cases address (2 ^ 63)) as [Hlo|Hhi].
  - rewrite Z.mod_small by lia. lia.
  - replace (address + 2 ^ 63) with (address - 2 ^ 63 + 1 * (2 * 2 ^ 63)) by lia.
    rewrite Z.mod_add, Z.mod_small by lia. lia.
Qed.

End ReaderFacts.

(** ** The reader on the concrete system *)

Section ReaderExamples.
Import K Svm Prq Demo.

Lemma prq_handle_malformed_witness :
  malformed req_no_pasid = true /\
  exists w',
    prq_handle demo_constants (demo_kernel (ring_of []) 0 0) (SvmErr 2, None)
      req_no_pasid 0%nat =
    ([EvQiSubmit [response_for req_no_pasid QI_RESP_INVALID] 0],
     Done (SvmErr 2, None) w').
Proof.
  split; [reflexivity|].
  destruct (prq_handle_malformed demo_constants (demo_kernel (ring_of []) 0 0)
              (SvmErr 2, None) req_no_pasid 0%nat eq_refl) as (w' & H & _).
  exists w'. exact H.
Defined.

Lemma prq_handle_response_witness :
  prq_handle demo_constants (demo_kernel (ring_of []) 0 0) (SvmNull, None)
    (read_req_of 6 3 1) 0%nat
  = ([EvIoasidFind 3 (SvmOk svm_h); EvMmget 100 true; EvMmapReadLock 100;
      EvFindVma 100 4096 (Some (mk_vma 0 3));
      EvHandleMmFault (mk_vma 0 3) 4096 192 0;
      EvMmapReadUnlock 100; EvMmput 100;
      EvQiSubmit [response_for (read_req_of 6 3 1) QI_RESP_SUCCESS] 0],
     Done (SvmNull, None) 0%nat) /\
  (length (responses
     [EvIoasidFind 3 (SvmOk svm_h); EvMmget 100 true; EvMmapReadLock 100;
      EvFindVma 100 4096 (Some (mk_vma 0 3));
      EvHandleMmFault (mk_vma 0 3) 4096 192 0;
      EvMmapReadUnlock 100; EvMmput 100;
      EvQiSubmit [response_for (read_req_of 6 3 1) QI_RESP_SUCCESS] 0]) <= 1)%nat.
Proof.
  assert (H : prq_handle demo_constants (demo_kernel (ring_of []) 0 0)
                (SvmNull, None) (read_req_of 6 3 1) 0%nat
              = ([EvIoasidFind 3 (SvmOk svm_h); EvMmget 100 true;
                  EvMmapReadLock 100;
                  EvFindVma 100 4096 (Some (mk_vma 0 3));
                  EvHandleMmFault (mk_vma 0 3) 4096 192 0;
                  EvMmapReadUnlock 100; EvMmput 100;
                  EvQiSubmit [response_for (read_req_of 6 3 1) QI_RESP_SUCCESS] 0],
                 Done (SvmNull, None) 0%nat))
    by (vm_compute; reflexivity).
  split; [exact H|].
  exact (proj1 (proj2 (prq_handle_response demo_constants _ _ _ _ _ _ _ H))).
Defined.

Lemma prq_handle_non_canonical_witness :
  is_canonical_address demo_constants
    (u64 (Z.shiftl (addr req_non_canonical) VTD_PAGE_SHIFT)) = false /\
  exists evs c' w',
    prq_handle demo_constants (demo_kernel (ring_of []) 0 0) (SvmNull, None)
      req_non_canonical 0%nat = (evs, Done c' w') /\
    forallb (fun ev => negb (is_fault_handler ev)) evs = true /\
    responses evs = [response_for req_non_canonical QI_RESP_INVALID].
Proof.
  split; [reflexivity|].
  destruct (prq_handle_non_canonical demo_constants
              (demo_kernel (ring_of []) 0 0) SvmNull None req_non_canonical
              0%nat 0%nat [EvIoasidFind 3 (SvmOk svm_h)] svm_h 100
              ltac:(cbn; lia) eq_refl eq_refl eq_refl
              ltac:(vm_compute; discriminate))
    as (evs & c' & w' & H1 & _ & H3 & H4).
  exists evs, c', w'. auto.
Defined.

(** The amended C10 at work: PASID 3 is bound host-mode to address space
    100 by device y only (source-ID 6); a read request for it from source-ID
    5 is answered SUCCESS.  PASID 2 is bound guest-mode by device y only; a
    request for it from source-ID 5, with nothing cached, is answered
    INVALID. *)
Lemma prq_handle_device_binding_witness :
  (List.find (fun t => sd_sid t =? rid (read_req_of 5 3 1)) (svm_devs svm_h)
     = None /\
   exists evs w',
     prq_handle demo_constants (demo_kernel (ring_of []) 0 0) (SvmNull, None)
       (read_req_of 5 3 1) 0%nat = (evs, Done (SvmNull, None) w') /\
     responses evs = [response_for (read_req_of 5 3 1) QI_RESP_SUCCESS]) /\
  (forall evs c' w',
     prq_handle demo_constants (demo_kernel (ring_of []) 0 0) (SvmNull, None)
       (read_req_of 5 2 1) 0%nat = (evs, Done c' w') ->
     responses evs = [response_for (read_req_of 5 2 1) QI_RESP_INVALID]).
Proof.
  split.
  - split; [reflexivity|].
    destruct (proj1 (prq_handle_device_binding demo_constants
                (demo_kernel (ring_of []) 0 0) SvmNull None (read_req_of 5 3 1)
                0%nat 0%nat [EvIoasidFind 3 (SvmOk svm_h)] svm_h
                eq_refl eq_refl) eq_refl 100 0%nat 0%nat 0%nat (mk_vma 0 3) 0
                eq_refl eq_refl eq_refl eq_refl ltac:(vm_compute; discriminate)
                eq_refl eq_refl eq_refl)
      as (evs & w' & H1 & _ & H3).
    exists evs, w'. auto.
  - intros evs c' w' H.
    destruct (proj2 (prq_handle_device_binding demo_constants
                (demo_kernel (ring_of []) 0 0) SvmNull None (read_req_of 5 2 1)
                0%nat 0%nat [EvIoasidFind 2 (SvmOk svm_b)] svm_b
                eq_refl eq_refl) ltac:(vm_compute; discriminate) evs c' w' H
                (or_introl eq_refl))
      as (_ & _ & H3).
    exact H3.
Defined.

(** C10 as stated fails when the reader still holds the device-binding of
    the previous descriptor: after a request of PASID 1 from source-ID 5 was handed off, a
    request of PASID 2 from source-ID 5 is handed off as well, to the device
    bound to PASID 1, although no device of PASID 2 has source-ID 5. *)
Lemma guest_unbound_counterexample :
  ~ guest_unbound_answered_invalid demo_constants (demo_kernel (ring_of []) 0 0).
Proof.
  intros H.
  specialize (H (SvmOk svm_a, Some (sdev_of dev_x 5 1)) (read_req_of 5 2 1)
                0%nat [EvIoasidFind 2 (SvmOk svm_b)] svm_b 0%nat
                _ _ _ eq_refl eq_refl ltac:(vm_compute; discriminate) eq_refl
                eq_refl).
  vm_compute in H. discriminate H.
Qed.

(** The same in one batch from the reader's initial state: both requests are
    reported for device x (address 0x5000) and no response is posted. *)
Example stale_device_binding_batch :
  let run := prq_event_thread demo_constants
               (demo_kernel (ring_of [read_req_of 5 1 1; read_req_of 5 2 1]) 64 0)
               128 0%nat in
  snd run = Done true 0%nat /\
  desc_indices (fst run) = [0; 1] /\
  responses (fst run) = [] /\
  flat_map (fun e => match e with
                     | EvReport dev evt ret => [(dev, prm_pasid evt, ret)]
                     | _ => []
                     end) (fst run)
  = [(0x5000, 1, 0); (0x5000, 2, 0)].
Proof. vm_compute. auto. Qed.

(** C1 fails on a batch of two descriptors of which the first names a PASID
    that is not allocated: the lookup leaves [ERR_PTR(-ENOENT)] in [svm],
    the second descriptor reads [svm->pasid] through it, and the reader
    faults.  The second descriptor gets no response and the head register
    is not written. *)
Theorem prq_event_thread_error_pointer :
  let ring := ring_of [read_req_of 5 9 1; read_req_of 6 3 1] in
  let run := prq_event_thread demo_constants (demo_kernel ring 64 0) 128 0%nat in
  snd run = Oops /\
  desc_indices (fst run) = [0; 1] /\
  responses (fst run) = [response_for (ring 0) QI_RESP_INVALID] /\
  existsb is_head_write (fst run) = false.
Proof. vm_compute. auto. Qed.

(** The same two descriptors in the other order are both answered, and the
    head register is written last. *)
Example prq_event_thread_error_pointer_last :
  let ring := ring_of [read_req_of 6 3 1; read_req_of 5 9 1] in
  let run := prq_event_thread demo_constants (demo_kernel ring 64 0) 128 0%nat in
  snd run = Done true 0%nat /\
  desc_indices (fst run) = [0; 1] /\
  responses (fst run) = [response_for (ring 0) QI_RESP_SUCCESS;
                         response_for (ring 1) QI_RESP_INVALID] /\
  existsb is_head_write (fst run) = true.
Proof. vm_compute. auto. Qed.

(** One read request of PASID 3 is queued at ring index 0. *)
Lemma prq_event_thread_batch_witness :
  exists evs w' t h pre post,
    prq_event_thread demo_constants
      (demo_kernel (ring_of [read_req_of 6 3 1]) 32 0) 128 0%nat
    = (evs, Done true w') /\
    evs = [EvWritel DMAR_PRS_REG 1; EvReadq DMAR_PQT_REG t;
           EvReadq DMAR_PQH_REG h]
          ++ pre ++ EvWriteq DMAR_PQH_REG
                      (Z.land t (PRQ_RING_MASK demo_constants)) :: post /\
    desc_indices pre
    = ring_between (ring_entries demo_constants)
        (Z.land h (PRQ_RING_MASK demo_constants) / 32)
        (Z.land t (PRQ_RING_MASK demo_constants) / 32).
Proof.
  set (K1 := demo_kernel (ring_of [read_req_of 6 3 1]) 32 0).
  assert (E : prq_event_thread demo_constants K1 128 0%nat
              = (fst (prq_event_thread demo_constants K1 128 0%nat),
                 Done true 0%nat))
    by (vm_compute; reflexivity).
  destruct (prq_event_thread_batch demo_constants K1 ltac:(cbn; lia) 128
              0%nat 0%nat _ true ltac:(vm_compute; lia) E)
    as (t & h & pre & post & H1 & H2 & _).
  exists (fst (prq_event_thread demo_constants K1 128 0%nat)), 0%nat, t, h,
    pre, post.
  auto.
Defined.

Lemma demo_lookups_good ring tail rr :
  lookups_good (DemoMore.demo_kernel_null ring tail rr).
Proof.
  intros id w. cbn. unfold demo_find.
  destruct (id =? 1); [reflexivity|]. destruct (id =? 2); [reflexivity|].
  destruct (id =? 3); reflexivity.
Qed.

(** The batch that stops the reader when the allocator returns error
    pointers is handled to the end when it returns NULL instead. *)
Lemma prq_event_thread_completes_witness :
  exists evs handled w',
    prq_event_thread demo_constants
      (DemoMore.demo_kernel_null
         (ring_of [read_req_of 5 9 1; read_req_of 6 3 1]) 64 0) 128 0%nat
    = (evs, Done handled w').
Proof.
  exact (prq_event_thread_completes demo_constants
           (DemoMore.demo_kernel_null
              (ring_of [read_req_of 5 9 1; read_req_of 6 3 1]) 64 0)
           ltac:(cbn; lia) 128 0%nat (demo_lookups_good _ _ _)
           ltac:(vm_compute; lia)).
Defined.

(** A read request of the host-mode PASID 3 is answered SUCCESS. *)
Lemma prq_handle_success_witness :
  In (response_for (read_req_of 6 3 1) QI_RESP_SUCCESS)
     (responses (fst (prq_handle demo_constants (demo_kernel (ring_of []) 0 0)
                        (SvmNull, None) (read_req_of 6 3 1) 0%nat))) /\
  malformed (read_req_of 6 3 1) = false /\
  is_canonical_address demo_constants
    (u64 (Z.shiftl (addr (read_req_of 6 3 1)) VTD_PAGE_SHIFT)) = true.
Proof.
  assert (H : In (response_for (read_req_of 6 3 1) QI_RESP_SUCCESS)
                (responses
                   (fst (prq_handle demo_constants
                           (demo_kernel (ring_of []) 0 0) (SvmNull, None)
                           (read_req_of 6 3 1) 0%nat))))
    by (vm_compute; left; reflexivity).
  split; [exact H|].
  destruct (prq_handle_success demo_constants (demo_kernel (ring_of []) 0 0)
              (SvmNull, None) (read_req_of 6 3 1) 0%nat H) as (H1 & H2 & _).
  auto.
Defined.

Lemma prq_event_thread_epilogue_witness :
  exists evs w',
    prq_event_thread demo_constants
      (demo_kernel (ring_of [read_req_of 6 3 1]) 32 0) 128 0%nat
    = (evs, Done true w') /\
    List.filter is_completion_event evs = [EvComplete].
Proof.
  set (K1 := demo_kernel (ring_of [read_req_of 6 3 1]) 32 0).
  assert (E : prq_event_thread demo_constants K1 128 0%nat
              = (fst (prq_event_thread demo_constants K1 128 0%nat),
                 Done true 0%nat))
    by (vm_compute; reflexivity).
  destruct (prq_event_thread_epilogue demo_constants K1 128 0%nat 0%nat _ true
              E)
    as (t & h & body & prs & ovf & _ & _ & _ & _ & _ & _ & H).
  exists (fst (prq_event_thread demo_constants K1 128 0%nat)), 0%nat. auto.
Defined.

(** A region that is readable and writable lets a read request through. *)
Lemma access_error_spec_witness :
  access_error demo_constants (mk_vma 0 3) (read_req_of 6 3 1) = false.
Proof.
  apply (proj2 (access_error_spec demo_constants (mk_vma 0 3)
                  (read_req_of 6 3 1) ltac:(cbn; lia) ltac:(cbn; lia)
                  ltac:(cbn; lia))).
  repeat split; intros H; first [reflexivity | vm_compute in H; discriminate H].
Defined.

(** With 48-bit virtual addresses, [2^47] is not canonical. *)
Lemma is_canonical_address_halves_witness :
  is_canonical_address demo_constants (2 ^ 47) = true <->
  2 ^ 47 < 2 ^ 47 \/ 2 ^ 64 - 2 ^ 47 <= 2 ^ 47.
Proof.
  exact (is_canonical_address_halves demo_constants (2 ^ 47) ltac:(cbn; lia)
           ltac:(lia)).
Defined.

End ReaderExamples.

(** ** The drain *)

Section DrainFacts.
Import K Svm Prq.

Context {World : Type}.
Variable C : constants.
Variable Kn : kernel World.

Local Abbreviation clean_scan := (Prq.clean_scan C).
Local Abbreviation phase1_trace := (Prq.phase1_trace C).
Local Abbreviation phase2_trace := (Prq.phase2_trace C).

Hypothesis order_nonneg : 0 <= prq_size_page_order C.

Lemma drain_scan_done pasid fuel : forall i j w evs hit w',
  0 <= i < ring_entries C -> 0 <= j < ring_entries C ->
  drain_scan C Kn fuel (32 * i) (32 * j) pasid w = (evs, Done hit w') ->
  if hit then hit_scan pasid evs
  else clean_scan pasid (32 * i) (32 * j) evs.
Proof.
  pose proof (ring_entries_pos C order_nonneg) as HN.
  assert (Hdiv : forall k, 32 * k / 32 = k)
    by (intros k; rewrite Z.mul_comm, Z.div_mul; lia).
  induction fuel as [|fuel IH]; intros i j w evs hit w' Hi Hj H;
    cbn [drain_scan] in H;
    destruct (Z.eqb_spec (32 * i) (32 * j)) as [E|Hne].
  - apply ret_done in H. destruct H as (-> & -> & _).
    unfold clean_scan. rewrite !Hdiv. replace j with i by lia.
    rewrite ring_between_nil by lia. split; [reflexivity|constructor].
  - discriminate H.
  - apply ret_done in H. destruct H as (-> & -> & _).
    unfold clean_scan. rewrite !Hdiv. replace j with i by lia.
    rewrite ring_between_nil by lia. split; [reflexivity|constructor].
  - apply bind_done in H. destruct H as (e1 & req & w1 & e2 & R & H & ->).
    unfold read_req in R. injection R as <- <- <-.
    replace (32 * i / REQ_SIZE) with i in * by (unfold REQ_SIZE; rewrite Hdiv; lia).
    set (req := k_prq Kn i w) in *.
    assert (Em : negb (pasid_present req) || negb (Svm.pasid req =? pasid)
                 = negb (matches pasid req)).
    { unfold matches. destruct (pasid_present req), (Svm.pasid req =? pasid);
        reflexivity. }
    rewrite Em in H. destruct (matches pasid req) eqn:Hm; cbn [negb] in H.
    + apply ret_done in H. destruct H as (-> & -> & _).
      exists [], i, req. repeat split; [exact Hm|constructor].
    + rewrite (ring_advance C order_nonneg) in H.
      assert (Hi' : 0 <= (i + 1) mod ring_entries C < ring_entries C)
        by (apply Z.mod_pos_bound; lia).
      specialize (IH _ _ _ _ _ _ Hi' Hj H).
      assert (Hp : passes pasid (EvDesc i req)) by (exists i, req; auto).
      destruct hit.
      * destruct IH as (pre & k & r & -> & Hr & Hpre).
        exists (EvDesc i req :: pre), k, r. repeat split; auto.
      * destruct IH as [I1 I2]. rewrite !Hdiv in I1. split.
        -- rewrite !Hdiv, ring_between_cons by lia.
           unfold desc_indices in *. cbn [app flat_map]. rewrite I1.
           reflexivity.
        -- constructor; assumption.
Qed.

Lemma prq_retry_done pasid scan_fuel fuel : forall w evs w',
  prq_retry C Kn fuel scan_fuel pasid w = (evs, Done tt w') ->
  phase1_trace pasid evs.
Proof.
  induction fuel as [|fuel IH]; intros w evs w' H; cbn [prq_retry] in H;
    [discriminate H|].
  unfold reinit_completion, dmar_readq, wait_for_completion in H.
  apply bind_done in H. destruct H as (e0 & [] & w0 & e0' & R0 & H & ->).
  apply exec_done in R0. destruct R0 as (-> & ->).
  apply bind_done in H. destruct H as (e1 & t & w1 & e1' & R1 & H & ->).
  apply call_done in R1. destruct R1 as (-> & R1).
  apply bind_done in H. destruct H as (e2 & h & w2 & e2' & R2 & H & ->).
  apply call_done in R2. destruct R2 as (-> & R2).
  apply bind_done in H. destruct H as (scan & hit & w3 & e3 & R3 & H & ->).
  destruct (ring_index_of C order_nonneg t) as (j & Hj & Et).
  destruct (ring_index_of C order_nonneg h) as (i & Hi & Eh).
  rewrite Et, Eh in R3.
  pose proof (drain_scan_done pasid scan_fuel i j _ _ _ _ Hi Hj R3) as Hscan.
  destruct hit.
  - apply bind_done in H. destruct H as (e4 & [] & w4 & rest & R4 & H & ->).
    apply exec_done in R4. destruct R4 as (-> & ->).
    apply IH in H.
    change (phase1_trace pasid
      ([EvReinitCompletion; EvReadq DMAR_PQT_REG t; EvReadq DMAR_PQH_REG h]
       ++ scan ++ [EvWaitForCompletion] ++ rest)).
    apply phase1_retry; assumption.
  - apply ret_done in H. destruct H as (-> & _ & _). rewrite app_nil_r.
    change (phase1_trace pasid
      ([EvReinitCompletion; EvReadq DMAR_PQT_REG t; EvReadq DMAR_PQH_REG h]
       ++ scan)).
    apply phase1_clean. rewrite Et, Eh. exact Hscan.
Qed.

Lemma qi_retry_done batch fuel : forall w evs w',
  qi_retry C Kn fuel batch w = (evs, Done tt w') -> phase2_trace batch evs.
Proof.
  induction fuel as [|fuel IH]; intros w evs w' H; cbn [qi_retry] in H;
    [discriminate H|].
  unfold reinit_completion, qi_submit_sync, readl, wait_for_completion in H.
  apply bind_done in H. destruct H as (e0 & [] & w0 & e0' & R0 & H & ->).
  apply exec_done in R0. destruct R0 as (-> & ->).
  apply bind_done in H. destruct H as (e1 & [] & w1 & e1' & R1 & H & ->).
  apply exec_done in R1. destruct R1 as (-> & ->).
  apply bind_done in H. destruct H as (e2 & prs & w2 & e2' & R2 & H & ->).
  apply call_done in R2. destruct R2 as (-> & R2).
  destruct (Z.eqb_spec (Z.land prs (DMA_PRS_PRO C)) 0) as [E|E]; cbn [negb] in H.
  - apply ret_done in H. destruct H as (-> & _ & _).
    apply phase2_clear. exact E.
  - apply bind_done in H. destruct H as (e4 & [] & w4 & rest & R4 & H & ->).
    apply exec_done in R4. destruct R4 as (-> & ->).
    apply IH in H.
    change (phase2_trace batch
      ([EvReinitCompletion; EvQiSubmit batch (QI_OPT_WAIT_DRAIN C);
        EvReadl DMAR_PRS_REG prs; EvWaitForCompletion] ++ rest)).
    apply phase2_retry; assumption.
Qed.

(** C2.  For a PRI-enabled PCI device, a drain that returns has gone through
    the software phase and then the hardware phase: its last scan of the
    ring covered every index from the head it read to the tail it read and
    met no descriptor with PASID present and the drained PASID (every
    earlier scan stopped at one, waited for the completion and rescanned),
    and after the last submission of the three-descriptor batch (fenced
    invalidation wait with status, PASID-scoped IOTLB invalidation,
    device-TLB invalidation) the overflow bit of the status register read
    clear (every earlier read found it set, waited and resubmitted). *)
Theorem drain_prq_returns_only_when_drained (fuel scan_fuel : nat)
    (dev : device) (info : device_domain_info) (pasid : Z) (w w' : World)
    (evs : list event) :
  dev_info dev = Some info ->
  dev_is_pci dev = true ->
  di_pri_enabled info = true ->
  intel_svm_drain_prq C Kn fuel scan_fuel dev pasid w = (evs, Done tt w') ->
  exists e1 e2,
    evs = e1 ++ e2 /\
    phase1_trace pasid e1 /\
    phase2_trace
      [QiInvWait (QI_DONE C) true;
       QiEiotlbPasid pasid (di_did info);
       QiDevEiotlb pasid (PCI_DEVID (di_bus info) (di_devfn info))
         (dev_ats_queue_depth dev) (di_pfsid info)] e2.
Proof.
  intros Hinfo Hpci Hpri H. unfold intel_svm_drain_prq in H.
  rewrite Hinfo, Hpci, Hpri in H. cbn [negb] in H.
  apply bind_done in H. destruct H as (e1 & [] & w1 & e2 & R1 & H & ->).
  exists e1, e2. split; [reflexivity|]. split.
  - eapply prq_retry_done. exact R1.
  - eapply qi_retry_done. exact H.
Qed.

(** When the first scan is clean and the first read of the status register
    finds the overflow bit clear, the drain returns: one round of each
    phase is enough. *)
Lemma drain_prq_quiet_returns (fuel scan_fuel : nat) (dev : device)
    (info : device_domain_info) (pasid : Z) (w : World) :
  dev_info dev = Some info -> dev_is_pci dev = true ->
  di_pri_enabled info = true ->
  let w0 := k_reinit_completion Kn w in
  let t := fst (k_readq Kn DMAR_PQT_REG w0) in
  let w1 := snd (k_readq Kn DMAR_PQT_REG w0) in
  let h := fst (k_readq Kn DMAR_PQH_REG w1) in
  let w2 := snd (k_readq Kn DMAR_PQH_REG w1) in
  forall scan,
    drain_scan C Kn scan_fuel (Z.land h (PRQ_RING_MASK C))
      (Z.land t (PRQ_RING_MASK C)) pasid w2 = (scan, Done false w2) ->
    let w3 := k_qi_submit_sync Kn (drain_batch C dev info pasid)
                (QI_OPT_WAIT_DRAIN C) (k_reinit_completion Kn w2) in
    Z.land (fst (k_readl Kn DMAR_PRS_REG w3)) (DMA_PRS_PRO C) = 0 ->
    exists evs,
      intel_svm_drain_prq C Kn (S fuel) scan_fuel dev pasid w
      = (evs, Done tt (snd (k_readl Kn DMAR_PRS_REG w3))).
Proof.
  intros Hinfo Hpci Hpri w0 t w1 h w2 scan Hscan w3 Hprs.
  unfold intel_svm_drain_prq. rewrite Hinfo, Hpci, Hpri. cbn [negb].
  cbn [prq_retry qi_retry].
  unfold reinit_completion, dmar_readq, qi_submit_sync, readl, bind, exec,
    call, ret.
  fold w0. destruct (k_readq Kn DMAR_PQT_REG w0) as [t' w1'] eqn:E1.
  subst t w1. cbn [fst snd] in *.
  destruct (k_readq Kn DMAR_PQH_REG w1') as [h' w2'] eqn:E2.
  subst h w2. cbn [fst snd] in *.
  rewrite Hscan. fold w3.
  destruct (k_readl Kn DMAR_PRS_REG w3) as [prs w4] eqn:E3.
  cbn [fst snd] in *. rewrite Hprs. cbn [negb Z.eqb]. eauto.
Qed.

(** C9.  When the device has no domain info, is not a PCI device, or has PRI
    disabled, the drain returns at once: it reads no register, looks at no
    descriptor and submits nothing, and the world is as it was. *)
Theorem drain_prq_skipped (fuel scan_fuel : nat) (dev : device) (pasid : Z)
    (w : World) :
  dev_info dev = None \/ dev_is_pci dev = false \/
  (exists info, dev_info dev = Some info /\ di_pri_enabled info = false) ->
  intel_svm_drain_prq C Kn fuel scan_fuel dev pasid w = ([], Done tt w).
Proof.
  unfold intel_svm_drain_prq.
  intros [->|[Hpci|(info & -> & Hpri)]]; [reflexivity| |].
  - destruct (dev_info dev); rewrite ?Hpci; reflexivity.
  - rewrite Hpri. destruct (dev_is_pci dev); reflexivity.
Qed.

(** On a queue without a request of the PASID, and with the overflow bit
    read clear, the drain is one round of each phase: it re-arms the
    completion, reads tail and head, scans, re-arms, submits the three
    descriptors once, reads the status register once, and returns without
    ever waiting. *)
Theorem drain_prq_single_round (fuel scan_fuel : nat) (dev : device)
    (info : device_domain_info) (pasid : Z) (w : World) :
  dev_info dev = Some info -> dev_is_pci dev = true ->
  di_pri_enabled info = true ->
  let w0 := k_reinit_completion Kn w in
  let t := fst (k_readq Kn DMAR_PQT_REG w0) in
  let w1 := snd (k_readq Kn DMAR_PQT_REG w0) in
  let h := fst (k_readq Kn DMAR_PQH_REG w1) in
  let w2 := snd (k_readq Kn DMAR_PQH_REG w1) in
  forall scan,
    drain_scan C Kn scan_fuel (Z.land h (PRQ_RING_MASK C))
      (Z.land t (PRQ_RING_MASK C)) pasid w2 = (scan, Done false w2) ->
    let w3 := k_qi_submit_sync Kn (drain_batch C dev info pasid)
                (QI_OPT_WAIT_DRAIN C) (k_reinit_completion Kn w2) in
    let prs := fst (k_readl Kn DMAR_PRS_REG w3) in
    Z.land prs (DMA_PRS_PRO C) = 0 ->
    intel_svm_drain_prq C Kn (S fuel) scan_fuel dev pasid w
    = ([EvReinitCompletion; EvReadq DMAR_PQT_REG t; EvReadq DMAR_PQH_REG h]
       ++ scan
       ++ [EvReinitCompletion;
           EvQiSubmit (drain_batch C dev info pasid) (QI_OPT_WAIT_DRAIN C);
           EvReadl DMAR_PRS_REG prs],
       Done tt (snd (k_readl Kn DMAR_PRS_REG w3))).
Proof.
  intros Hinfo Hpci Hpri w0 t w1 h w2 scan Hscan w3 prs Hprs.
  unfold intel_svm_drain_prq. rewrite Hinfo, Hpci, Hpri. cbn [negb].
  cbn [prq_retry qi_retry].
  unfold reinit_completion, dmar_readq, qi_submit_sync, readl, bind, exec,
    call, ret.
  fold w0. destruct (k_readq Kn DMAR_PQT_REG w0) as [t' w1'] eqn:E1.
  subst t w1. cbn [fst snd] in *.
  destruct (k_readq Kn DMAR_PQH_REG w1') as [h' w2'] eqn:E2.
  subst h w2. cbn [fst snd] in *.
  rewrite Hscan. fold w3.
  destruct (k_readl Kn DMAR_PRS_REG w3) as [prs' w4] eqn:E3.
  subst prs. cbn [fst snd] in *. rewrite Hprs. cbn [negb Z.eqb app].
  rewrite app_nil_r. reflexivity.
Qed.

End DrainFacts.

(** ** The drain on the concrete system *)

Section DrainExamples.
Import K Svm Prq Demo.

Lemma drain_prq_returns_only_when_drained_witness :
  exists evs w' e1 e2,
    intel_svm_drain_prq demo_constants drain_demo_kernel 4 128 dev_x 2 0%nat
    = (evs, Done tt w') /\
    evs = e1 ++ e2 /\
    phase1_trace demo_constants 2 e1 /\
    phase2_trace demo_constants
      [QiInvWait 2 true; QiEiotlbPasid 2 3; QiDevEiotlb 2 5 4 0] e2.
Proof.
  assert (E : intel_svm_drain_prq demo_constants drain_demo_kernel 4 128
                dev_x 2 0%nat
              = (fst (intel_svm_drain_prq demo_constants drain_demo_kernel
                        4 128 dev_x 2 0%nat), Done tt 1%nat))
    by (vm_compute; reflexivity).
  destruct (drain_prq_returns_only_when_drained demo_constants
              drain_demo_kernel ltac:(cbn; lia) 4 128 dev_x (demo_info 5) 2
              0%nat 1%nat _ eq_refl eq_refl eq_refl E)
    as (e1 & e2 & H1 & H2 & H3).
  exists (fst (intel_svm_drain_prq demo_constants drain_demo_kernel 4 128
                 dev_x 2 0%nat)), 1%nat, e1, e2.
  auto.
Defined.

(** The trace of that drain: a scan that stops at the request, a wait, a
    clean scan, and one round of the hardware phase. *)
Example drain_prq_demo_trace :
  fst (intel_svm_drain_prq demo_constants drain_demo_kernel 4 128 dev_x 2 0%nat)
  = [EvReinitCompletion; EvReadq DMAR_PQT_REG 32; EvReadq DMAR_PQH_REG 0;
     EvDesc 0 (read_req_of 5 2 1); EvWaitForCompletion;
     EvReinitCompletion; EvReadq DMAR_PQT_REG 32; EvReadq DMAR_PQH_REG 32;
     EvReinitCompletion;
     EvQiSubmit [QiInvWait 2 true; QiEiotlbPasid 2 3; QiDevEiotlb 2 5 4 0] 1;
     EvReadl DMAR_PRS_REG 0].
Proof. vm_compute. reflexivity. Qed.

(** Device z is not a PCI device and has no domain info. *)
Lemma drain_prq_skipped_witness :
  dev_info dev_z = None /\
  intel_svm_drain_prq demo_constants drain_demo_kernel 4 128 dev_z 2 0%nat
  = ([], Done tt 0%nat).
Proof.
  split; [reflexivity|].
  exact (drain_prq_skipped demo_constants drain_demo_kernel 4 128 dev_z 2
           0%nat (or_introl eq_refl)).
Defined.

(** After the reader has consumed the queued request (world 1), head and
    tail are equal and the drain is one round. *)
Lemma drain_prq_single_round_witness :
  intel_svm_drain_prq demo_constants drain_demo_kernel 1 128 dev_x 2 1%nat
  = ([EvReinitCompletion; EvReadq DMAR_PQT_REG 32; EvReadq DMAR_PQH_REG 32;
      EvReinitCompletion;
      EvQiSubmit [QiInvWait 2 true; QiEiotlbPasid 2 3; QiDevEiotlb 2 5 4 0] 1;
      EvReadl DMAR_PRS_REG 0], Done tt 1%nat).
Proof.
  exact (drain_prq_single_round demo_constants drain_demo_kernel 0 128 dev_x
           (demo_info 5) 2 1%nat eq_refl eq_refl eq_refl [] eq_refl eq_refl).
Defined.

End DrainExamples.

(** ** The binding registry *)

Section RegistryFacts.
Import K Svm Registry.

Variable G : config.

Local Abbreviation bind_args_ok := (Registry.bind_args_ok G).
Local Abbreviation svm_wf := (Registry.svm_wf G).
Local Abbreviation wf := (Registry.wf G).

Lemma s32_small x : - 2 ^ 31 <= x < 2 ^ 31 -> s32 x = x.
Proof.
  intros H. unfold s32.
  change (2 ^ 31) with 2147483648 in *. change (2 ^ 32) with 4294967296.
  rewrite Z.mod_small by lia. lia.
Qed.

Lemma s32_inc_dec u : - 2 ^ 31 <= u < 2 ^ 31 -> s32 (s32 (u + 1) - 1) = u.
Proof.
  intros H. unfold s32.
  change (2 ^ 31) with 2147483648 in *. change (2 ^ 32) with 4294967296.
  replace ((u + 1 + 2147483648) mod 4294967296 - 2147483648 - 1 + 2147483648)
    with ((u + 1 + 2147483648) mod 4294967296 - 1) by lia.
  rewrite Zminus_mod_idemp_l.
  replace (u + 1 + 2147483648 - 1) with (u + 2147483648) by lia.
  rewrite Z.mod_small by lia. lia.
Qed.

Lemma update_first_find {A} (p : A -> bool) (f : A -> A) (l : list A) :
  match List.find p l with
  | Some x => exists l', update_first p f l = Some (f x, l')
  | None => update_first p f l = None
  end.
Proof.
  induction l as [|a l IH]; cbn [List.find update_first]; [reflexivity|].
  destruct (p a); [eauto|].
  destruct (List.find p l) as [x|].
  - destruct IH as (l' & ->). eauto.
  - rewrite IH. reflexivity.
Qed.

(** Updating the first match and updating it back gives the list back. *)
Lemma update_first_undo {A} (p : A -> bool) (f g : A -> A) (l : list A) x0 :
  List.find p l = Some x0 ->
  p (f x0) = true -> g (f x0) = x0 ->
  exists l',
    update_first p f l = Some (f x0, l') /\
    List.find p l' = Some (f x0) /\
    update_first p g l' = Some (x0, l).
Proof.
  intros Hfind Hp Hg.
  induction l as [|a l IH]; cbn [List.find update_first] in *; [discriminate|].
  destruct (p a) eqn:Ea.
  - injection Hfind as ->. exists (f x0 :: l).
    cbn [List.find update_first]. rewrite Hp, Hg. auto.
  - destruct (IH Hfind) as (l' & I1 & I2 & I3). exists (a :: l').
    cbn [List.find update_first]. rewrite Ea, I1, I2, I3. auto.
Qed.

Lemma find_pred_ext {A} (p q : A -> bool) (l : list A) :
  (forall a, p a = q a) -> List.find p l = List.find q l.
Proof.
  intros H. induction l as [|a l IH]; [reflexivity|].
  cbn [List.find]. rewrite H, IH. reflexivity.
Qed.

Lemma update_first_pred_ext {A} (p q : A -> bool) (f : A -> A) (l : list A) :
  (forall a, p a = q a) -> update_first p f l = update_first q f l.
Proof.
  intros H. induction l as [|a l IH]; [reflexivity|].
  cbn [update_first]. rewrite H, IH. reflexivity.
Qed.

Lemma remove_first_pred_ext {A} (p q : A -> bool) (l : list A) :
  (forall a, p a = q a) -> remove_first p l = remove_first q l.
Proof.
  intros H. induction l as [|a l IH]; [reflexivity|].
  cbn [remove_first]. rewrite H, IH. reflexivity.
Qed.

Lemma update_first_length {A} (p : A -> bool) (f : A -> A) (l : list A) x l' :
  update_first p f l = Some (x, l') -> length l' = length l.
Proof.
  revert x l'. induction l as [|a l IH]; intros x l'; cbn [update_first];
    [discriminate|].
  destruct (p a); [intros [= _ <-]; reflexivity|].
  destruct (update_first p f l) as [[y l'']|]; [|discriminate].
  intros [= _ <-]. cbn [length]. f_equal. eapply IH. reflexivity.
Qed.

Lemma remove_first_last (p : Z) (l : list Z) :
  ~ In p l -> remove_first (Z.eqb p) (l ++ [p]) = l.
Proof.
  induction l as [|a l IH]; intros Hn; cbn [app remove_first].
  - rewrite Z.eqb_refl. reflexivity.
  - destruct (Z.eqb_spec p a) as [->|_]; [exfalso; apply Hn; left; reflexivity|].
    rewrite IH; [reflexivity|]. intros Hin. apply Hn. right. exact Hin.
Qed.

Lemma find_svm_by_mm_found mm l heap p svm :
  find_svm_by_mm mm l heap = Some (Some (p, svm)) ->
  In p l /\ heap !! p = Some svm /\ mm_eqb (svm_mm svm) mm = true.
Proof.
  induction l as [|a l IH]; cbn [find_svm_by_mm]; [discriminate|].
  destruct (heap !! a) as [t|] eqn:Ea; [|discriminate].
  destruct (mm_eqb (svm_mm t) mm) eqn:Em.
  - intros [= <- <-]. cbn [In]. auto.
  - intros H. destruct (IH H) as (I1 & I2 & I3). cbn [In]. auto.
Qed.

Lemma mm_eqb_eq a b : mm_eqb a b = true -> a = b.
Proof.
  destruct a, b; cbn; try discriminate; try reflexivity.
  intros H. apply Z.eqb_eq in H. congruence.
Qed.

Lemma bind_mm_past_checks o dev iommu flags mm st :
  bind_args_ok dev iommu flags mm ->
  intel_svm_bind_mm G o dev flags mm st =
  match find_svm_by_mm mm (global_svm_list st) (svms st) with
  | None => None
  | Some None => bind_new_sdev G o dev iommu flags mm (pasid_limit dev) None st
  | Some (Some (p, svm)) =>
      if svm_pasid svm >=? pasid_limit dev then Some (- ENOSPC, None, st)
      else
        match
          update_first (fun d => dev_eqb (sd_dev d) dev)
            (fun d => mark_success (svm_pasid svm) dev
                        (with_users (s32 (sd_users d + 1)) d))
            (svm_devs svm)
        with
        | Some (sdev, devs) =>
            Some (0, Some sdev,
                  set_svms (<[p := with_devs devs svm]> (svms st)) st)
        | None =>
            bind_new_sdev G o dev iommu flags mm (pasid_limit dev)
              (Some (p, svm)) st
        end
  end.
Proof.
  intros (Hi & Hd & Hc & Hp & Hs). unfold intel_svm_bind_mm, pasid_limit.
  rewrite Hi, Hd, Hc. cbn [negb].
  assert (E1 : dev_is_pci dev
               && ((if dev_is_pci dev then dev_max_pasids dev
                    else Z.shiftl 1 20) <? 0) = false).
  { destruct (dev_is_pci dev); [|reflexivity]. cbn [andb].
    apply Z.ltb_ge. auto. }
  rewrite E1.
  assert (E2 : negb (Z.land flags (SVM_FLAG_SUPERVISOR_MODE G) =? 0)
               && (negb (iommu_ecap_srs iommu) || bool_decide (is_Some mm))
               = false).
  { destruct Hs as [->|[-> ->]]; [reflexivity|].
    cbn [negb orb]. rewrite bool_decide_eq_false_2, andb_false_r;
      [reflexivity|]. intros [x Hx]. discriminate Hx. }
  rewrite E2. reflexivity.
Qed.


(** *** Well-formed registries *)

(** [pasid_to_svm_sdev] on a PASID that the allocator maps to a live binding
    with devices. *)
Lemma pasid_to_svm_sdev_found dev pasid st io p svm :
  pasid < PASID_MAX ->
  ioasids st !! pasid = Some io -> io_set io = host_pasid_set G ->
  io_private io = Some p ->
  svms st !! p = Some svm -> svm_devs svm <> [] ->
  pasid_to_svm_sdev dev (Some (host_pasid_set G)) pasid st =
  Some (0, Some (p, svm),
        List.find (fun d => dev_eqb (sd_dev d) dev) (svm_devs svm)).
Proof.
  intros Hlt Hio Hset Hpriv Hp Hne. unfold pasid_to_svm_sdev, ioasid_find.
  assert (E : (pasid =? INVALID_IOASID) || (pasid >=? PASID_MAX) = false).
  { unfold INVALID_IOASID, PASID_MAX in *. apply orb_false_iff. split.
    - apply Z.eqb_neq. change (2 ^ 32) with 4294967296. lia.
    - rewrite Z.geb_leb. apply Z.leb_gt. lia. }
  rewrite E, Hio, Hset, Z.eqb_refl, Hpriv. cbn [negb]. rewrite Hp.
  destruct (svm_devs svm); [contradiction|reflexivity].
Qed.

Lemma with_devs_same svm : with_devs (svm_devs svm) svm = svm.
Proof. destruct svm. reflexivity. Qed.

Lemma with_devs_twice a b svm : with_devs a (with_devs b svm) = with_devs a svm.
Proof. reflexivity. Qed.

Lemma set_svms_same st : set_svms (svms st) st = st.
Proof. destruct st. reflexivity. Qed.

(** Bind on an existing device-binding, then unbind: the count goes up and
    down again, and the state is the one before. *)
Lemma roundtrip_existing_device dev st p svm d' devs' :
  wf st ->
  In p (global_svm_list st) -> svms st !! p = Some svm ->
  update_first (fun t => dev_eqb (sd_dev t) dev)
    (fun t => mark_success (svm_pasid svm) dev
                (with_users (s32 (sd_users t + 1)) t))
    (svm_devs svm) = Some (d', devs') ->
  intel_svm_unbind_mm G (sd_dev d') (sd_pasid d')
    (set_svms (<[p := with_devs devs' svm]> (svms st)) st) = Some (0, st).
Proof.
  intros [Hwf _] Hin Hp Hu.
  destruct (Hwf p Hin)
    as (svm0 & Hp0 & (io & Hio & Hset & Hpriv) & Hlt & Hne & Hall).
  rewrite Hp in Hp0. injection Hp0 as <-.
  set (pr := fun t => dev_eqb (sd_dev t) dev) in *.
  set (f := fun t => mark_success (svm_pasid svm) dev
                       (with_users (s32 (sd_users t + 1)) t)) in *.
  pose proof (update_first_find pr f (svm_devs svm)) as Hf.
  destruct (List.find pr (svm_devs svm)) as [d|] eqn:Hd;
    [|rewrite Hf in Hu; discriminate Hu].
  destruct Hf as (l' & Hf). rewrite Hf in Hu. injection Hu as <- <-.
  apply find_some in Hd as Hd'. destruct Hd' as [Hdin Hdp].
  rewrite List.Forall_forall in Hall.
  destruct (Hall d Hdin) as (Hus & Hpasid & Hsva & Hiommu).
  assert (Hid : dev_id (sd_dev d) = dev_id dev)
    by (apply Z.eqb_eq; exact Hdp).
  assert (Hback : with_users (s32 (sd_users (f d) - 1)) (f d) = d).
  { unfold f, mark_success, with_users. cbn.
    rewrite s32_inc_dec by lia. rewrite <- Hpasid, <- Hid, <- Hsva.
    destruct d. reflexivity. }
  destruct (update_first_undo pr f (with_users (s32 (sd_users (f d) - 1)))
              (svm_devs svm) d Hd Hdp Hback) as (l'' & U1 & U2 & U3).
  rewrite Hf in U1. injection U1 as <-.
  unfold intel_svm_unbind_mm.
  change (sd_dev (f d)) with (sd_dev d).
  change (sd_pasid (f d)) with (svm_pasid svm).
  destruct Hiommu as [iommu ->].
  rewrite (pasid_to_svm_sdev_found (sd_dev d) (svm_pasid svm) _ io p
             (with_devs l' svm)); try assumption.
  2:{ cbn. apply lookup_insert_eq. }
  2:{ cbn. intros E. rewrite E in U2. discriminate U2. }
  cbn [negb Z.eqb with_devs svm_devs].
  assert (Epr : forall t, dev_eqb (sd_dev t) (sd_dev d) = pr t).
  { intros t. unfold pr, dev_eqb. rewrite Hid. reflexivity. }
  rewrite (find_pred_ext _ pr l' Epr), U2.
  assert (Eusers : s32 (sd_users (f d) - 1) = sd_users d).
  { unfold f. cbn. apply s32_inc_dec. lia. }
  rewrite Eusers in *.
  destruct (Z.eqb_spec (sd_users d) 0) as [?|_]; [lia|].
  rewrite (update_first_pred_ext _ pr _ l' Epr), U3.
  f_equal. f_equal. unfold set_svms.
  cbn [svms global_svm_list ioasids notifiers mm_pasid actions].
  rewrite insert_insert_eq, with_devs_twice, with_devs_same.
  rewrite (insert_id _ _ _ Hp). destruct st. reflexivity.
Qed.

Lemma find_head_dev dev (h : intel_svm_dev) l :
  sd_dev h = dev ->
  List.find (fun d => dev_eqb (sd_dev d) dev) (h :: l) = Some h.
Proof.
  intros E. cbn [List.find]. unfold dev_eqb. rewrite E, Z.eqb_refl.
  reflexivity.
Qed.

Lemma remove_head_dev dev (h : intel_svm_dev) l :
  sd_dev h = dev ->
  remove_first (fun d => dev_eqb (sd_dev d) dev) (h :: l) = l.
Proof.
  intros E. cbn [remove_first]. unfold dev_eqb. rewrite E, Z.eqb_refl.
  reflexivity.
Qed.

(** Bind of a new device-binding on an existing binding, then unbind. *)
Lemma roundtrip_new_device o dev iommu flags mm pasid_max st p svm h st1 :
  wf st -> dev_iommu dev = Some iommu ->
  In p (global_svm_list st) -> svms st !! p = Some svm ->
  bind_new_sdev G o dev iommu flags mm pasid_max (Some (p, svm)) st
    = Some (0, Some h, st1) ->
  exists st2,
    intel_svm_unbind_mm G (sd_dev h) (sd_pasid h) st1 = Some (0, st2) /\
    registry st2 = registry st.
Proof.
  intros [Hwf _] Hiommu Hin Hp H.
  destruct (Hwf p Hin)
    as (svm0 & Hp0 & (io & Hio & Hset & Hpriv) & Hlt & Hne & Hall).
  rewrite Hp in Hp0. injection Hp0 as <-.
  unfold bind_new_sdev in H.
  destruct (negb (or_kzalloc_sdev o)); [discriminate H|].
  destruct (negb (or_enable_pasid o =? 0)); [discriminate H|].
  destruct (dev_info dev) as [info|]; [|discriminate H].
  destruct (negb (or_setup_first_level o =? 0)); [discriminate H|].
  injection H as <- <-.
  set (h := mark_success (svm_pasid svm) dev (new_sdev G dev iommu info)).
  unfold intel_svm_unbind_mm.
  change (sd_dev h) with dev. change (sd_pasid h) with (svm_pasid svm).
  rewrite Hiommu.
  rewrite (pasid_to_svm_sdev_found dev (svm_pasid svm) _ io p
             (with_devs (h :: svm_devs svm) svm)); try assumption.
  2:{ cbn. apply lookup_insert_eq. }
  2:{ cbn. discriminate. }
  cbn [negb Z.eqb with_devs svm_devs].
  rewrite find_head_dev, remove_head_dev by reflexivity.
  change (sd_users h) with 1. change (s32 (1 - 1) =? 0) with true. cbv iota.
  destruct (svm_devs svm) as [|d0 devs] eqn:Hdevs; [contradiction|].
  eexists. split; [reflexivity|].
  unfold registry, set_svms, setup_first_level, log.
  cbn [svms global_svm_list ioasids notifiers mm_pasid actions].
  rewrite insert_insert_eq. rewrite <- Hdevs, with_devs_twice, with_devs_same.
  rewrite (insert_id _ _ _ Hp). reflexivity.
Qed.

Lemma ioasid_alloc_fresh choice set lo hi private t id t' :
  ioasid_alloc choice set lo hi private t = (id, t') ->
  id <> INVALID_IOASID ->
  lo <= id <= hi /\ t !! id = None /\
  t' = <[id := mk_ioasid set (Some private) 1]> t.
Proof.
  unfold ioasid_alloc. destruct choice as [c|]; [|intros [= <- _] Hn; congruence].
  destruct ((lo <=? c) && (c <=? hi) && negb (c =? INVALID_IOASID)
            && bool_decide (t !! c = None)) eqn:E;
    [|intros [= <- _] Hn; congruence].
  intros [= <- <-] _.
  apply andb_true_iff in E as [E E4]. apply andb_true_iff in E as [E E3].
  apply andb_true_iff in E as [E1 E2].
  apply bool_decide_eq_true in E4. split; [lia|]. auto.
Qed.

(** Simplifies the state setters and getters on a state given by its
    fields. *)
Ltac state_simpl :=
  cbn [registry set_svms set_list set_ioasids set_notifiers load_pasid
       setup_first_level log svms global_svm_list ioasids notifiers mm_pasid
       actions] in *.

(** First bind of an address space, then unbind: the registry is the one
    before; the binding, its PASID and its notifier are gone. *)
Lemma roundtrip_new_binding o dev iommu flags mm pasid_max st h st1 :
  wf st -> dev_iommu dev = Some iommu ->
  0 < intel_pasid_max_id G <= PASID_MAX -> 0 < pasid_max ->
  bind_new_sdev G o dev iommu flags mm pasid_max None st
    = Some (0, Some h, st1) ->
  exists st2,
    intel_svm_unbind_mm G (sd_dev h) (sd_pasid h) st1 = Some (0, st2) /\
    registry st2 = registry st /\
    ioasids st !! sd_pasid h = None /\
    is_Some (ioasids st1 !! sd_pasid h).
Proof.
  intros [Hwf Hnot] Hiommu Hmax Hpm H.
  destruct st as [heap lst ios nots mmp acts]. state_simpl.
  unfold bind_new_sdev in H.
  destruct (negb (or_kzalloc_sdev o)); [discriminate H|].
  destruct (negb (or_enable_pasid o =? 0)); [discriminate H|].
  destruct (dev_info dev) as [info|]; [|discriminate H].
  unfold kzalloc_svm in H. state_simpl.
  destruct (or_kzalloc_svm o) as [p|]; [|discriminate H].
  destruct (bool_decide (heap !! p = None)) eqn:Hfresh; [|discriminate H].
  apply bool_decide_eq_true in Hfresh.
  set (cap := if pasid_max >? intel_pasid_max_id G
              then intel_pasid_max_id G else pasid_max) in *.
  assert (Hcap : 0 < cap <= PASID_MAX).
  { unfold cap. destruct (Z.gtb_spec pasid_max (intel_pasid_max_id G)); lia. }
  destruct (ioasid_alloc (or_ioasid o) (host_pasid_set G) (IOASID_ALLOC_BASE G)
              ((cap - 1) mod 2 ^ 32) p ios) as [pasid t] eqn:Halloc.
  destruct (Z.eqb_spec pasid INVALID_IOASID) as [|Hvalid]; [discriminate H|].
  destruct (ioasid_alloc_fresh _ _ _ _ _ _ _ _ Halloc Hvalid)
    as (Hrange & Hfree & ->).
  assert (Hlt : pasid < PASID_MAX).
  { unfold PASID_MAX in *. rewrite Z.mod_small in Hrange; [lia|].
    change (2 ^ 32) with 4294967296. lia. }
  assert (Hnotin : ~ In p lst).
  { intros Hin. destruct (Hwf p Hin) as (svm & Hsvm & _). congruence. }
  assert (Hnotif : nots !! p = None).
  { destruct (nots !! p) eqn:E; [|reflexivity].
    destruct (Hnot p (ex_intro _ _ E)) as [x Hx]. congruence. }
  set (h0 := mark_success pasid dev (new_sdev G dev iommu info)) in *.
  assert (Hrun : forall svm0 st',
    svm_pasid svm0 = pasid -> svm_devs svm0 = [h0] ->
    svms st' = <[p := svm0]> heap ->
    ioasids st' = <[pasid := mk_ioasid (host_pasid_set G) (Some p) 1]> ios ->
    global_svm_list st' = lst ++ [p] ->
    notifiers st' = match svm_mm svm0 with
                    | Some m => <[p := m]> nots
                    | None => nots
                    end ->
    exists st2,
      intel_svm_unbind_mm G dev pasid st' = Some (0, st2) /\
      registry st2 = (heap, lst, ios, nots)).
  { intros svm0 st' Epasid Edevs Esvms Eios Elist Enots.
    unfold intel_svm_unbind_mm. rewrite Hiommu.
    rewrite (pasid_to_svm_sdev_found dev pasid st'
               (mk_ioasid (host_pasid_set G) (Some p) 1) p svm0);
      try assumption; try reflexivity.
    2:{ rewrite Eios. apply lookup_insert_eq. }
    2:{ rewrite Esvms. apply lookup_insert_eq. }
    2:{ rewrite Edevs. discriminate. }
    cbn [negb Z.eqb]. rewrite Edevs.
    rewrite find_head_dev, remove_head_dev by reflexivity.
    change (sd_users h0) with 1. change (s32 (1 - 1) =? 0) with true.
    cbv iota. rewrite Epasid.
    destruct st' as [heap' lst' ios' nots' mmp' acts']. state_simpl. subst.
    unfold ioasid_put. rewrite lookup_insert_eq.
    cbn [io_refs Z.leb Z.compare Pos.compare].
    destruct (svm_mm svm0) as [m|]; state_simpl;
      (eexists; split; [reflexivity|]); state_simpl;
      rewrite ?delete_insert_id by assumption;
      rewrite remove_first_last by assumption; reflexivity. }
  destruct mm as [m|].
  - destruct (negb (or_notifier_register o =? 0)); [discriminate H|].
    state_simpl.
    destruct (negb (or_setup_first_level o =? 0)); [discriminate H|].
    injection H as <- <-. state_simpl.
    change (sd_dev h0) with dev. change (sd_pasid h0) with pasid.
    destruct (Hrun (with_devs [h0] (mk_svm (Some m) flags pasid 0 []))
                (mk_state
                   (<[p := with_devs [h0] (mk_svm (Some m) flags pasid 0 [])]> heap)
                   (lst ++ [p])
                   (<[pasid := mk_ioasid (host_pasid_set G) (Some p) 1]> ios)
                   (<[p := m]> nots) (<[m := pasid]> mmp)
                   ((acts ++ [ActEnablePasid (dev_id dev)])
                    ++ [ActSetupFirstLevel (dev_id dev) (Some m) pasid
                          (FLPT_DEFAULT_DID G)
                          (negb (bool_decide (is_Some (Some m))))
                          (cpu_has_la57 G)]))
                eq_refl eq_refl eq_refl eq_refl eq_refl eq_refl)
      as (st2 & R1 & R2).
    exists st2. split; [exact R1|]. split; [exact R2|]. split; [exact Hfree|].
    rewrite lookup_insert_eq. eauto.
  - state_simpl.
    destruct (negb (or_setup_first_level o =? 0)); [discriminate H|].
    injection H as <- <-. state_simpl.
    change (sd_dev h0) with dev. change (sd_pasid h0) with pasid.
    destruct (Hrun (with_devs [h0] (mk_svm None flags pasid 0 []))
                (mk_state
                   (<[p := with_devs [h0] (mk_svm None flags pasid 0 [])]> heap)
                   (lst ++ [p])
                   (<[pasid := mk_ioasid (host_pasid_set G) (Some p) 1]> ios)
                   nots mmp
                   ((acts ++ [ActEnablePasid (dev_id dev)])
                    ++ [ActSetupFirstLevel (dev_id dev) None pasid
                          (FLPT_DEFAULT_DID G)
                          (negb (bool_decide (is_Some (@None Z))))
                          (cpu_has_la57 G)]))
                eq_refl eq_refl eq_refl eq_refl eq_refl eq_refl)
      as (st2 & R1 & R2).
    exists st2. split; [exact R1|]. split; [exact R2|]. split; [exact Hfree|].
    rewrite lookup_insert_eq. eauto.
Qed.

(** *** Bind keeps the registry well-formed *)

Lemma update_first_Forall {A} (P : A -> Prop) (p : A -> bool) (f : A -> A)
    (l : list A) x l' :
  Forall P l -> (forall a, In a l -> p a = true -> P (f a)) ->
  update_first p f l = Some (x, l') -> Forall P l'.
Proof.
  revert x l'. induction l as [|a l IH]; intros x l' Hall Hf;
    cbn [update_first]; [discriminate|].
  inversion Hall as [|? ? Ha Hl]; subst.
  destruct (p a) eqn:Ea.
  - intros [= _ <-]. constructor; [|exact Hl]. apply Hf; [left; reflexivity|].
    exact Ea.
  - destruct (update_first p f l) as [[y l'']|] eqn:Eu; [|discriminate].
    intros [= _ <-]. constructor; [exact Ha|].
    eapply IH; [exact Hl| |reflexivity].
    intros b Hb. apply Hf. right. exact Hb.
Qed.

Lemma update_first_nonempty {A} (p : A -> bool) (f : A -> A) (l : list A) x l' :
  update_first p f l = Some (x, l') -> l' <> [].
Proof.
  intros H E. destruct l as [|a l]; [discriminate H|].
  apply update_first_length in H. rewrite E in H. discriminate H.
Qed.

(** Replacing the device set of a listed binding by a well-formed one. *)
Lemma wf_update st st' p svm devs :
  wf st -> svms st !! p = Some svm ->
  devs <> [] -> Forall (sdev_wf svm) devs ->
  svms st' = <[p := with_devs devs svm]> (svms st) ->
  global_svm_list st' = global_svm_list st ->
  ioasids st' = ioasids st -> notifiers st' = notifiers st ->
  wf st'.
Proof.
  intros [Hwf Hnot] Hp Hne Hall Esvms Elist Eios Enots. split.
  - intros q Hq. rewrite Elist in Hq.
    destruct (Hwf q Hq) as (svmq & Hsq & (io & Hio & Hset & Hpriv) & Hlt & Hd & Hf).
    destruct (decide (q = p)) as [->|Hqp].
    + rewrite Hp in Hsq. injection Hsq as <-.
      exists (with_devs devs svm). rewrite Esvms, lookup_insert_eq.
      split; [reflexivity|]. unfold Registry.svm_wf. rewrite Eios.
      cbn [with_devs svm_pasid svm_devs]. eauto 10.
    + exists svmq. rewrite Esvms, lookup_insert_ne by congruence.
      split; [exact Hsq|]. unfold Registry.svm_wf. rewrite Eios. eauto 10.
  - intros q Hq. rewrite Enots in Hq. rewrite Esvms.
    apply lookup_insert_is_Some. destruct (decide (p = q)); auto.
Qed.

(** The registry at boot, before any bind. *)
Lemma wf_empty mmp acts : wf (mk_state ∅ [] ∅ ∅ mmp acts).
Proof.
  split.
  - intros p [].
  - intros p [x Hx]. cbn in Hx. rewrite lookup_empty in Hx. discriminate Hx.
Qed.

(** A successful bind leaves a well-formed registry well-formed, as long as
    no usage count is at [INT_MAX]. *)
Lemma bind_mm_wf o dev flags mm st h st1 :
  wf st ->
  0 < intel_pasid_max_id G <= PASID_MAX ->
  (dev_is_pci dev = true -> dev_max_pasids dev <> 0) ->
  (forall p svm d, svms st !! p = Some svm -> In d (svm_devs svm) ->
     sd_users d < 2 ^ 31 - 1) ->
  intel_svm_bind_mm G o dev flags mm st = Some (0, Some h, st1) ->
  wf st1.
Proof.
  intros Hwf Hmax Hpci Husers H.
  unfold intel_svm_bind_mm in H.
  destruct (dev_iommu dev) as [iommu|] eqn:Hiommu; [|discriminate H].
  destruct (dmar_disabled G); [discriminate H|].
  destruct (negb (iommu_svm_capable iommu)); [discriminate H|].
  destruct (dev_is_pci dev && _) eqn:Eneg; [discriminate H|].
  destruct (negb (Z.land _ _ =? 0) && _); [discriminate H|].
  destruct (find_svm_by_mm mm (global_svm_list st) (svms st))
    as [[[p svm]|]|] eqn:Hfind; [| |discriminate H].
  - destruct (find_svm_by_mm_found _ _ _ _ _ Hfind) as (Hin & Hp & _).
    destruct (proj1 Hwf p Hin) as (svm0 & Hp0 & _ & _ & Hne & Hall).
    rewrite Hp in Hp0. injection Hp0 as <-.
    destruct (svm_pasid svm >=? _); [discriminate H|].
    destruct (update_first _ _ (svm_devs svm)) as [[sdev devs]|] eqn:Hu.
    + injection H as <- <-.
      apply (wf_update st _ p svm devs Hwf Hp); try reflexivity.
      * exact (update_first_nonempty _ _ _ _ _ Hu).
      * eapply update_first_Forall; [exact Hall| |exact Hu].
        intros a Ha Hpa. rewrite List.Forall_forall in Hall.
        destruct (Hall a Ha) as (U & _ & _ & I).
        pose proof (Husers p svm a Hp Ha) as U'.
        unfold Registry.sdev_wf. cbn [mark_success with_users sd_users sd_pasid
                                      sd_sva_dev sd_dev].
        rewrite s32_small by lia.
        apply Z.eqb_eq in Hpa. rewrite Hpa.
        split; [lia|]. auto.
    + unfold bind_new_sdev in H.
      destruct (negb (or_kzalloc_sdev o)); [discriminate H|].
      destruct (negb (or_enable_pasid o =? 0)); [discriminate H|].
      destruct (dev_info dev) as [info|]; [|discriminate H].
      destruct (negb (or_setup_first_level o =? 0)); [discriminate H|].
      injection H as <- <-.
      apply (wf_update st _ p svm
               (mark_success (svm_pasid svm) dev (new_sdev G dev iommu info)
                :: svm_devs svm) Hwf Hp); try reflexivity; [discriminate|].
      constructor; [|exact Hall].
      unfold Registry.sdev_wf. cbn. rewrite Hiommu.
      split; [lia|]. eauto.
  - destruct Hwf as [Hwf Hnot].
    assert (Hpos : 0 < (if dev_is_pci dev then dev_max_pasids dev
                        else Z.shiftl 1 20)).
    { destruct (dev_is_pci dev); [|reflexivity]. cbn [andb] in Eneg.
      apply Z.ltb_ge in Eneg. specialize (Hpci eq_refl). lia. }
    set (pasid_max := if dev_is_pci dev then dev_max_pasids dev
                      else Z.shiftl 1 20) in *.
    destruct st as [heap lst ios nots mmp acts]. state_simpl.
    unfold bind_new_sdev in H.
    destruct (negb (or_kzalloc_sdev o)); [discriminate H|].
    destruct (negb (or_enable_pasid o =? 0)); [discriminate H|].
    destruct (dev_info dev) as [info|]; [|discriminate H].
    unfold kzalloc_svm in H. state_simpl.
    destruct (or_kzalloc_svm o) as [p|]; [|discriminate H].
    destruct (bool_decide (heap !! p = None)) eqn:Hfresh; [|discriminate H].
    apply bool_decide_eq_true in Hfresh.
    set (cap := if pasid_max >? intel_pasid_max_id G
                then intel_pasid_max_id G else pasid_max) in *.
    assert (Hcap : 0 < cap <= PASID_MAX).
    { unfold cap. destruct (Z.gtb_spec pasid_max (intel_pasid_max_id G)); lia. }
    destruct (ioasid_alloc (or_ioasid o) (host_pasid_set G) (IOASID_ALLOC_BASE G)
                ((cap - 1) mod 2 ^ 32) p ios) as [pasid t] eqn:Halloc.
    destruct (Z.eqb_spec pasid INVALID_IOASID) as [|Hvalid]; [discriminate H|].
    destruct (ioasid_alloc_fresh _ _ _ _ _ _ _ _ Halloc Hvalid)
      as (Hrange & Hfree & ->).
    assert (Hlt : pasid < PASID_MAX).
    { unfold PASID_MAX in *. rewrite Z.mod_small in Hrange; [lia|].
      change (2 ^ 32) with 4294967296. lia. }
    set (h0 := mark_success pasid dev (new_sdev G dev iommu info)) in *.
    assert (Hgen : forall st',
      (exists svm0, svms st' = <[p := svm0]> heap /\
                    svm_pasid svm0 = pasid /\ svm_devs svm0 = [h0]) ->
      ioasids st' = <[pasid := mk_ioasid (host_pasid_set G) (Some p) 1]> ios ->
      global_svm_list st' = lst ++ [p] ->
      (forall q, is_Some (notifiers st' !! q) ->
                 q = p \/ is_Some (nots !! q)) ->
      wf st').
    { intros st' (svm0 & Esvms & Epasid & Edevs) Eios Elist Enots. split.
      - intros q Hq. rewrite Elist in Hq. apply in_app_or in Hq as [Hq|[<-|[]]].
        + destruct (Hwf q Hq)
            as (svmq & Hsq & (io & Hio & Hset & Hpriv) & Hl & Hd & Hf).
          state_simpl.
          assert (Hqp : p <> q) by congruence.
          assert (Hpq : pasid <> svm_pasid svmq) by congruence.
          exists svmq. rewrite Esvms, lookup_insert_ne by exact Hqp.
          split; [exact Hsq|]. unfold Registry.svm_wf.
          rewrite Eios, lookup_insert_ne by exact Hpq. eauto 10.
        + exists svm0. rewrite Esvms, lookup_insert_eq. split; [reflexivity|].
          unfold Registry.svm_wf. rewrite Eios, Epasid, lookup_insert_eq, Edevs.
          split; [eexists; split; [reflexivity|split; reflexivity]|].
          split; [exact Hlt|]. split; [discriminate|].
          constructor; [|constructor].
          unfold Registry.sdev_wf. cbn. rewrite Hiommu, Epasid.
          split; [lia|]. eauto.
      - intros q Hq. rewrite Esvms. apply lookup_insert_is_Some.
        destruct (Enots q Hq) as [->|Hq']; [auto|].
        destruct (decide (p = q)); auto. }
    destruct mm as [m|].
    + destruct (negb (or_notifier_register o =? 0)); [discriminate H|].
      state_simpl.
      destruct (negb (or_setup_first_level o =? 0)); [discriminate H|].
      injection H as <- <-. state_simpl. apply Hgen; state_simpl.
      * eexists. split; [reflexivity|]. split; reflexivity.
      * reflexivity.
      * reflexivity.
      * intros q Hq. apply lookup_insert_is_Some in Hq as [->|[_ Hq]]; auto.
    + state_simpl.
      destruct (negb (or_setup_first_level o =? 0)); [discriminate H|].
      injection H as <- <-. state_simpl. apply Hgen; state_simpl.
      * eexists. split; [reflexivity|]. split; reflexivity.
      * reflexivity.
      * reflexivity.
      * auto.
Qed.


(** *** Unbind, case by case *)

(** Unbind changes nothing unless the PASID, looked up in the host set, leads
    to a live binding that has a device-binding for the device: a device
    without IOMMU, a PASID out of range or not allocated, and a device that
    was never bound, all leave the state as it was, whatever is returned. *)
Theorem unbind_mm_not_bound (dev : device) (pasid : Z) (st st2 : state) (r : Z) :
  (forall p svm d,
     ioasid_find (Some (host_pasid_set G)) pasid (ioasids st) = FPtr p ->
     svms st !! p = Some svm -> In d (svm_devs svm) ->
     dev_eqb (sd_dev d) dev = false) ->
  intel_svm_unbind_mm G dev pasid st = Some (r, st2) ->
  st2 = st.
Proof.
  intros Hnone H. unfold intel_svm_unbind_mm, pasid_to_svm_sdev in H.
  destruct (dev_iommu dev); [|injection H as _ <-; reflexivity].
  destruct ((pasid =? INVALID_IOASID) || (pasid >=? PASID_MAX));
    [injection H as _ <-; reflexivity|].
  destruct (ioasid_find (Some (host_pasid_set G)) pasid (ioasids st))
    as [p| |e] eqn:Ef.
  - destruct (svms st !! p) as [svm|] eqn:Hp; [|discriminate H].
    destruct (svm_devs svm) as [|d0 l] eqn:Hd;
      [injection H as _ <-; reflexivity|].
    cbn [negb Z.eqb] in H.
    destruct (List.find _ (d0 :: l)) as [d|] eqn:Hfind;
      [|injection H as _ <-; reflexivity].
    apply find_some in Hfind. destruct Hfind as [Hin Hp'].
    rewrite <- Hd in Hin. rewrite (Hnone p svm d eq_refl Hp Hin) in Hp'.
    discriminate Hp'.
  - injection H as _ <-. reflexivity.
  - destruct (pasid =? PASID_RID2PASID); [injection H as _ <-; reflexivity|].
    destruct (negb (- e =? 0)); injection H as _ <-; reflexivity.
Qed.

Lemma unbind_mm_found dev st p svm :
  wf st -> In p (global_svm_list st) -> svms st !! p = Some svm ->
  is_Some (dev_iommu dev) ->
  pasid_to_svm_sdev dev (Some (host_pasid_set G)) (svm_pasid svm) st =
  Some (0, Some (p, svm),
        List.find (fun d => dev_eqb (sd_dev d) dev) (svm_devs svm)).
Proof.
  intros [Hwf _] Hin Hp _.
  destruct (Hwf p Hin)
    as (svm0 & Hp0 & (io & Hio & Hset & Hpriv) & Hlt & Hne & Hall).
  rewrite Hp in Hp0. injection Hp0 as <-.
  eapply pasid_to_svm_sdev_found; eassumption.
Qed.

(** Unbind of a device-binding that has other users only decrements its
    usage count: no PASID entry is torn down, nothing is drained, and the
    binding, its list node, its PASID and its notifier stay. *)
Theorem unbind_mm_shared (dev : device) (st : state) (p : Z) (svm : intel_svm)
    (d : intel_svm_dev) :
  wf st -> In p (global_svm_list st) -> svms st !! p = Some svm ->
  is_Some (dev_iommu dev) ->
  List.find (fun t => dev_eqb (sd_dev t) dev) (svm_devs svm) = Some d ->
  1 < sd_users d ->
  exists devs',
    update_first (fun t => dev_eqb (sd_dev t) dev)
      (with_users (sd_users d - 1)) (svm_devs svm)
      = Some (with_users (sd_users d - 1) d, devs') /\
    intel_svm_unbind_mm G dev (svm_pasid svm) st =
      Some (0, set_svms (<[p := with_devs devs' svm]> (svms st)) st).
Proof.
  intros Hwf Hin Hp Hiommu Hd Hu.
  pose proof (unbind_mm_found dev st p svm Hwf Hin Hp Hiommu) as Hfound.
  destruct Hwf as [Hwf _].
  destruct (Hwf p Hin) as (svm0 & Hp0 & _ & _ & _ & Hall).
  rewrite Hp in Hp0. injection Hp0 as <-.
  apply find_some in Hd as Hd'. destruct Hd' as [Hdin _].
  rewrite List.Forall_forall in Hall.
  destruct (Hall d Hdin) as (Hus & _).
  unfold intel_svm_unbind_mm. destruct Hiommu as [iommu ->].
  rewrite Hfound, Hd. cbn [negb Z.eqb].
  rewrite s32_small by lia.
  destruct (Z.eqb_spec (sd_users d - 1) 0) as [?|_]; [lia|].
  pose proof (update_first_find (fun t => dev_eqb (sd_dev t) dev)
                (with_users (sd_users d - 1)) (svm_devs svm)) as Hf.
  rewrite Hd in Hf. destruct Hf as (devs' & Hf). rewrite Hf.
  exists devs'. auto.
Qed.

(** Unbind of the last user of a device-binding clears the PASID entry of
    the device and then drains its page requests, in this order, and removes
    the device-binding.  When it was the only device-binding, the binding is
    destroyed: its PASID reference is dropped, its notifier unregistered, the
    address space's PASID reset to [PASID_DISABLED], its list node removed
    and the object freed.  Otherwise the binding stays, with one
    device-binding fewer. *)
Theorem unbind_mm_last_user (dev : device) (st : state) (p : Z)
    (svm : intel_svm) (d : intel_svm_dev) :
  wf st -> In p (global_svm_list st) -> svms st !! p = Some svm ->
  is_Some (dev_iommu dev) ->
  List.find (fun t => dev_eqb (sd_dev t) dev) (svm_devs svm) = Some d ->
  sd_users d = 1 ->
  let devs := remove_first (fun t => dev_eqb (sd_dev t) dev) (svm_devs svm) in
  exists st2,
    intel_svm_unbind_mm G dev (svm_pasid svm) st = Some (0, st2) /\
    actions st2 =
      actions st ++ [ActTearDownEntry (dev_id dev) (svm_pasid svm) false false;
                     ActDrainPrq (dev_id dev) (svm_pasid svm)] /\
    (devs <> [] ->
     svms st2 = <[p := with_devs devs svm]> (svms st) /\
     global_svm_list st2 = global_svm_list st /\
     ioasids st2 = ioasids st /\ notifiers st2 = notifiers st /\
     mm_pasid st2 = mm_pasid st) /\
    (devs = [] ->
     svms st2 = delete p (svms st) /\
     global_svm_list st2 = remove_first (Z.eqb p) (global_svm_list st) /\
     ioasids st2 = ioasid_put (svm_pasid svm) (ioasids st) /\
     notifiers st2 = match svm_mm svm with
                     | Some _ => delete p (notifiers st)
                     | None => notifiers st
                     end /\
     mm_pasid st2 = match svm_mm svm with
                    | Some m => <[m := PASID_DISABLED G]> (mm_pasid st)
                    | None => mm_pasid st
                    end).
Proof.
  intros Hwf Hin Hp Hiommu Hd Hu devs.
  pose proof (unbind_mm_found dev st p svm Hwf Hin Hp Hiommu) as Hfound.
  unfold intel_svm_unbind_mm. destruct Hiommu as [iommu ->].
  rewrite Hfound, Hd. cbn [negb Z.eqb]. rewrite Hu.
  change (s32 (1 - 1) =? 0) with true. cbv iota. fold devs.
  destruct st as [heap lst ios nots mmp acts]. state_simpl.
  destruct devs as [|d1 rest]; [destruct (svm_mm svm)|];
    (eexists; split; [reflexivity|]); state_simpl;
    (split; [rewrite <- app_assoc; reflexivity|]);
    (split; [intros N|intros N]); try contradiction; try discriminate N;
    repeat split; reflexivity.
Qed.

(** *** Bind, case by case *)

(** Bind either succeeds, returning 0 and a handle, or fails, returning a
    non-zero value and no handle; a failed bind leaves the registry (live
    bindings, list, allocated PASIDs, notifiers) and every address space's
    PASID as they were: whatever it allocated or registered on the way is
    released again. *)
Theorem bind_mm_failure (o : bind_oracle) (dev : device) (flags : Z)
    (mm : option Z) (st st1 : state) (r : Z) (h : option intel_svm_dev) :
  wf st ->
  intel_svm_bind_mm G o dev flags mm st = Some (r, h, st1) ->
  (r = 0 /\ is_Some h) \/
  (r <> 0 /\ h = None /\ registry st1 = registry st /\
   mm_pasid st1 = mm_pasid st).
Proof.
  intros [Hwf Hnot] H. unfold intel_svm_bind_mm in H.
  assert (Hfail : forall e, e <> 0 ->
            (e = 0 /\ is_Some (@None intel_svm_dev)) \/
            (e <> 0 /\ @None intel_svm_dev = None /\
             registry st = registry st /\ mm_pasid st = mm_pasid st))
    by (intros e He; right; auto).
  destruct (dev_iommu dev) as [iommu|];
    [|injection H as <- <- <-; apply Hfail; discriminate].
  destruct (dmar_disabled G);
    [injection H as <- <- <-; apply Hfail; discriminate|].
  destruct (negb (iommu_svm_capable iommu));
    [injection H as <- <- <-; apply Hfail; discriminate|].
  destruct (dev_is_pci dev && _);
    [injection H as <- <- <-; apply Hfail; discriminate|].
  destruct (negb (Z.land _ _ =? 0) && _);
    [injection H as <- <- <-; apply Hfail; discriminate|].
  assert (Hnew : forall found pasid_max,
    bind_new_sdev G o dev iommu flags mm pasid_max found st
      = Some (r, h, st1) ->
    (r = 0 /\ is_Some h) \/
    (r <> 0 /\ h = None /\ registry st1 = registry st /\
     mm_pasid st1 = mm_pasid st)).
  { clear H. intros found pasid_max H. unfold bind_new_sdev in H.
    destruct (negb (or_kzalloc_sdev o));
      [injection H as <- <- <-; apply Hfail; discriminate|].
    destruct (negb (or_enable_pasid o =? 0)) eqn:Een.
    { injection H as <- <- <-. right.
      apply negb_true_iff, Z.eqb_neq in Een. auto. }
    destruct (dev_info dev) as [info|]; [|discriminate H].
    destruct found as [[p svm]|].
    - destruct (negb (or_setup_first_level o =? 0)) eqn:Es.
      + injection H as <- <- <-. right.
        apply negb_true_iff, Z.eqb_neq in Es. auto.
      + injection H as <- <- <-. left. eauto.
    - destruct st as [heap lst ios nots mmp acts]. state_simpl.
      unfold kzalloc_svm in H. state_simpl.
      destruct (or_kzalloc_svm o) as [p|];
        [|injection H as <- <- <-; right; repeat split; discriminate].
      destruct (bool_decide (heap !! p = None)) eqn:Hfresh;
        [|injection H as <- <- <-; right; repeat split; discriminate].
      apply bool_decide_eq_true in Hfresh.
      destruct (ioasid_alloc _ _ _ _ _ ios) as [pasid t] eqn:Halloc.
      destruct (Z.eqb_spec pasid INVALID_IOASID) as [|Hvalid];
        [injection H as <- <- <-; right; repeat split; discriminate|].
      destruct (ioasid_alloc_fresh _ _ _ _ _ _ _ _ Halloc Hvalid)
        as (_ & Hfree & ->).
      assert (Hput : ioasid_put pasid
                (<[pasid := mk_ioasid (host_pasid_set G) (Some p) 1]> ios)
              = ios).
      { unfold ioasid_put. rewrite lookup_insert_eq. cbn.
        apply delete_insert_id. exact Hfree. }
      assert (Hnotif : nots !! p = None).
      { destruct (nots !! p) eqn:E; [|reflexivity].
        destruct (Hnot p (ex_intro _ _ E)) as [x Hx]. state_simpl.
        congruence. }
      destruct mm as [m|]; state_simpl.
      + destruct (negb (or_notifier_register o =? 0)) eqn:En.
        { injection H as <- <- <-. state_simpl. rewrite Hput. right.
          apply negb_true_iff, Z.eqb_neq in En. auto. }
        state_simpl.
        destruct (negb (or_setup_first_level o =? 0)) eqn:Es.
        * injection H as <- <- <-. state_simpl.
          rewrite Hput, delete_insert_id by exact Hnotif. right.
          apply negb_true_iff, Z.eqb_neq in Es. auto.
        * injection H as <- <- <-. left. eauto.
      + destruct (negb (or_setup_first_level o =? 0)) eqn:Es.
        * injection H as <- <- <-. state_simpl. rewrite Hput. right.
          apply negb_true_iff, Z.eqb_neq in Es. auto.
        * injection H as <- <- <-. left. eauto. }
  destruct (find_svm_by_mm mm (global_svm_list st) (svms st))
    as [[[p svm]|]|]; [| |discriminate H].
  - destruct (svm_pasid svm >=? _);
      [injection H as <- <- <-; apply Hfail; discriminate|].
    destruct (update_first _ _ (svm_devs svm)) as [[sdev devs]|].
    + injection H as <- <- <-. left. eauto.
    + eapply Hnew. exact H.
  - eapply Hnew. exact H.
Qed.

Lemma bind_new_binding_inv o dev iommu flags mm pasid_max st h st1 :
  0 < intel_pasid_max_id G <= PASID_MAX -> 0 < pasid_max ->
  bind_new_sdev G o dev iommu flags mm pasid_max None st
    = Some (0, Some h, st1) ->
  exists p info pasid,
    dev_info dev = Some info /\
    h = mark_success pasid dev (new_sdev G dev iommu info) /\
    svms st !! p = None /\ ioasids st !! pasid = None /\
    IOASID_ALLOC_BASE G <= pasid /\
    pasid < pasid_max /\ pasid < intel_pasid_max_id G /\
    svms st1 = <[p := mk_svm mm flags pasid 0 [h]]> (svms st) /\
    global_svm_list st1 = global_svm_list st ++ [p] /\
    ioasids st1 =
      <[pasid := mk_ioasid (host_pasid_set G) (Some p) 1]> (ioasids st) /\
    notifiers st1 = match mm with
                    | Some m => <[p := m]> (notifiers st)
                    | None => notifiers st
                    end /\
    mm_pasid st1 = match mm with
                   | Some m => <[m := pasid]> (mm_pasid st)
                   | None => mm_pasid st
                   end /\
    actions st1 =
      actions st ++
      [ActEnablePasid (dev_id dev);
       ActSetupFirstLevel (dev_id dev) mm pasid (FLPT_DEFAULT_DID G)
         (negb (bool_decide (is_Some mm))) (cpu_has_la57 G)].
Proof.
  intros Hmax Hpm H.
  destruct st as [heap lst ios nots mmp acts]. state_simpl.
  unfold bind_new_sdev in H.
  destruct (negb (or_kzalloc_sdev o)); [discriminate H|].
  destruct (negb (or_enable_pasid o =? 0)); [discriminate H|].
  destruct (dev_info dev) as [info|]; [|discriminate H].
  unfold kzalloc_svm in H. state_simpl.
  destruct (or_kzalloc_svm o) as [p|]; [|discriminate H].
  destruct (bool_decide (heap !! p = None)) eqn:Hfresh; [|discriminate H].
  apply bool_decide_eq_true in Hfresh.
  set (cap := if pasid_max >? intel_pasid_max_id G
              then intel_pasid_max_id G else pasid_max) in *.
  assert (Hcap : 0 < cap <= PASID_MAX /\ cap <= pasid_max /\
                 cap <= intel_pasid_max_id G).
  { unfold cap. destruct (Z.gtb_spec pasid_max (intel_pasid_max_id G)); lia. }
  destruct (ioasid_alloc (or_ioasid o) (host_pasid_set G) (IOASID_ALLOC_BASE G)
              ((cap - 1) mod 2 ^ 32) p ios) as [pasid t] eqn:Halloc.
  destruct (Z.eqb_spec pasid INVALID_IOASID) as [|Hvalid]; [discriminate H|].
  destruct (ioasid_alloc_fresh _ _ _ _ _ _ _ _ Halloc Hvalid)
    as (Hrange & Hfree & ->).
  assert (Hlt : pasid <= cap - 1).
  { unfold PASID_MAX in *. rewrite Z.mod_small in Hrange; [lia|].
    change (2 ^ 32) with 4294967296. lia. }
  exists p, info, pasid.
  destruct mm as [m|].
  - destruct (negb (or_notifier_register o =? 0)); [discriminate H|].
    state_simpl.
    destruct (negb (or_setup_first_level o =? 0)); [discriminate H|].
    injection H as <- <-. state_simpl. rewrite <- app_assoc.
    repeat split; try reflexivity; try assumption; lia.
  - state_simpl.
    destruct (negb (or_setup_first_level o =? 0)); [discriminate H|].
    injection H as <- <-. state_simpl. rewrite <- app_assoc.
    repeat split; try reflexivity; try assumption; lia.
Qed.

(** The first bind of an address space allocates a PASID that was free, from
    [IOASID_ALLOC_BASE] up to, not including, the smaller of the device's
    PASID limit and [intel_pasid_max_id]; it creates the binding with one
    device-binding of usage count 1, appends it to the list, registers the
    notifier and publishes the PASID in the address space (both only for a
    non-NULL address space), after enabling PASID on the device and setting
    up its first-level PASID entry, in supervisor mode exactly for a NULL
    address space. *)
Theorem bind_mm_new_binding (o : bind_oracle) (dev : device) (flags : Z)
    (mm : option Z) (st st1 : state) (h : intel_svm_dev) :
  0 < intel_pasid_max_id G <= PASID_MAX ->
  (dev_is_pci dev = true -> dev_max_pasids dev <> 0) ->
  find_svm_by_mm mm (global_svm_list st) (svms st) = Some None ->
  intel_svm_bind_mm G o dev flags mm st = Some (0, Some h, st1) ->
  exists p,
    let pasid := intel_svm_get_pasid h in
    IOASID_ALLOC_BASE G <= pasid /\
    pasid < Z.min (pasid_limit dev) (intel_pasid_max_id G) /\
    ioasids st !! pasid = None /\ svms st !! p = None /\
    sd_dev h = dev /\ sd_users h = 1 /\ sd_sva_dev h = Some (dev_id dev) /\
    svms st1 = <[p := mk_svm mm flags pasid 0 [h]]> (svms st) /\
    global_svm_list st1 = global_svm_list st ++ [p] /\
    ioasids st1 =
      <[pasid := mk_ioasid (host_pasid_set G) (Some p) 1]> (ioasids st) /\
    notifiers st1 = match mm with
                    | Some m => <[p := m]> (notifiers st)
                    | None => notifiers st
                    end /\
    mm_pasid st1 = match mm with
                   | Some m => <[m := pasid]> (mm_pasid st)
                   | None => mm_pasid st
                   end /\
    actions st1 =
      actions st ++
      [ActEnablePasid (dev_id dev);
       ActSetupFirstLevel (dev_id dev) mm pasid (FLPT_DEFAULT_DID G)
         (negb (bool_decide (is_Some mm))) (cpu_has_la57 G)].
Proof.
  intros Hmax Hpci Hfind H. unfold intel_svm_bind_mm in H.
  destruct (dev_iommu dev) as [iommu|] eqn:Hiommu; [|discriminate H].
  destruct (dmar_disabled G); [discriminate H|].
  destruct (negb (iommu_svm_capable iommu)); [discriminate H|].
  destruct (dev_is_pci dev && _) eqn:Eneg; [discriminate H|].
  destruct (negb (Z.land _ _ =? 0) && _); [discriminate H|].
  rewrite Hfind in H. fold (pasid_limit dev) in *.
  assert (Hpos : 0 < pasid_limit dev).
  { unfold pasid_limit in *. destruct (dev_is_pci dev); [|reflexivity].
    cbn [andb] in Eneg. apply Z.ltb_ge in Eneg. specialize (Hpci eq_refl). lia. }
  destruct (bind_new_binding_inv _ _ _ _ _ _ _ _ _ Hmax Hpos H)
    as (p & info & pasid & Hinfo & -> & I1 & I2 & I3 & I4 & I5 & I6 & I7 & I8
        & I9 & I10 & I11).
  exists p. cbv zeta. unfold intel_svm_get_pasid.
  cbn [mark_success sd_pasid sd_dev sd_users sd_sva_dev new_sdev].
  repeat split; try assumption; try reflexivity; lia.
Qed.

(** The handle a successful bind returns is the device-binding that the
    lookup by device and PASID finds afterwards: the PASID read from the
    handle is allocated in the host set, it leads to a listed binding of the
    address space that was bound, and that binding's first device-binding
    for the device is the handle itself. *)
Theorem bind_mm_lookup (o : bind_oracle) (dev : device) (flags : Z)
    (mm : option Z) (st st1 : state) (h : intel_svm_dev) :
  wf st ->
  0 < intel_pasid_max_id G <= PASID_MAX ->
  (dev_is_pci dev = true -> dev_max_pasids dev <> 0) ->
  intel_svm_bind_mm G o dev flags mm st = Some (0, Some h, st1) ->
  exists p svm1,
    pasid_to_svm_sdev dev (Some (host_pasid_set G)) (intel_svm_get_pasid h) st1
      = Some (0, Some (p, svm1), Some h) /\
    In p (global_svm_list st1) /\
    svm_mm svm1 = mm /\
    svm_pasid svm1 = intel_svm_get_pasid h.
Proof.
  intros Hwf Hmax Hpci H. pose proof H as H0. unfold intel_svm_bind_mm in H.
  destruct (dev_iommu dev) as [iommu|] eqn:Hiommu; [|discriminate H].
  destruct (dmar_disabled G); [discriminate H|].
  destruct (negb (iommu_svm_capable iommu)); [discriminate H|].
  destruct (dev_is_pci dev && _) eqn:Eneg; [discriminate H|].
  destruct (negb (Z.land _ _ =? 0) && _); [discriminate H|].
  destruct (find_svm_by_mm mm (global_svm_list st) (svms st))
    as [[[p svm]|]|] eqn:Hfind; [| |discriminate H].
  - destruct (find_svm_by_mm_found _ _ _ _ _ Hfind) as (Hin & Hp & Hmm).
    apply mm_eqb_eq in Hmm.
    destruct (proj1 Hwf p Hin)
      as (svm0 & Hp0 & (io & Hio & Hset & Hpriv) & Hlt & Hne & Hall).
    rewrite Hp in Hp0. injection Hp0 as <-.
    destruct (svm_pasid svm >=? _); [discriminate H|].
    set (pr := fun t => dev_eqb (sd_dev t) dev) in *.
    destruct (update_first pr _ (svm_devs svm)) as [[sdev devs]|] eqn:Hu.
    + injection H as <- <-.
      set (f := fun t => mark_success (svm_pasid svm) dev
                           (with_users (s32 (sd_users t + 1)) t)) in *.
      pose proof (update_first_find pr f (svm_devs svm)) as Hf.
      destruct (List.find pr (svm_devs svm)) as [d|] eqn:Hd;
        [|rewrite Hf in Hu; discriminate Hu].
      apply find_some in Hd as Hd'. destruct Hd' as [_ Hdp].
      destruct (update_first_undo pr f (fun _ => d) (svm_devs svm) d Hd Hdp
                  eq_refl) as (l' & U1 & U2 & _).
      rewrite Hu in U1. injection U1 as -> ->.
      exists p, (with_devs l' svm). unfold intel_svm_get_pasid.
      change (sd_pasid (f d)) with (svm_pasid svm).
      rewrite (pasid_to_svm_sdev_found dev (svm_pasid svm) _ io p
                 (with_devs l' svm)); try assumption.
      * cbn [with_devs svm_devs svm_mm svm_pasid]. fold pr. rewrite U2. auto.
      * cbn. apply lookup_insert_eq.
      * cbn. intros E. rewrite E in U2. discriminate U2.
    + unfold bind_new_sdev in H.
      destruct (negb (or_kzalloc_sdev o)); [discriminate H|].
      destruct (negb (or_enable_pasid o =? 0)); [discriminate H|].
      destruct (dev_info dev) as [info|]; [|discriminate H].
      destruct (negb (or_setup_first_level o =? 0)); [discriminate H|].
      injection H as <- <-.
      set (h := mark_success (svm_pasid svm) dev (new_sdev G dev iommu info)).
      exists p, (with_devs (h :: svm_devs svm) svm). unfold intel_svm_get_pasid.
      change (sd_pasid h) with (svm_pasid svm).
      rewrite (pasid_to_svm_sdev_found dev (svm_pasid svm) _ io p
                 (with_devs (h :: svm_devs svm) svm)); try assumption.
      * cbn [with_devs svm_devs svm_mm svm_pasid].
        rewrite find_head_dev by reflexivity. auto.
      * cbn. apply lookup_insert_eq.
      * cbn. discriminate.
  - assert (Hpos : 0 < (if dev_is_pci dev then dev_max_pasids dev
                        else Z.shiftl 1 20)).
    { destruct (dev_is_pci dev); [|reflexivity]. cbn [andb] in Eneg.
      apply Z.ltb_ge in Eneg. specialize (Hpci eq_refl). lia. }
    destruct (bind_new_binding_inv _ _ _ _ _ _ _ _ _ Hmax Hpos H)
      as (p & info & pasid & Hinfo & -> & I1 & I2 & I3 & I4 & I5 & I6 & I7 & I8
          & I9 & I10 & I11).
    set (h := mark_success pasid dev (new_sdev G dev iommu info)) in *.
    exists p, (mk_svm mm flags pasid 0 [h]). unfold intel_svm_get_pasid.
    change (sd_pasid h) with pasid.
    rewrite (pasid_to_svm_sdev_found dev pasid st1
               (mk_ioasid (host_pasid_set G) (Some p) 1) p
               (mk_svm mm flags pasid 0 [h])); try reflexivity.
    + cbn [svm_devs svm_mm svm_pasid]. rewrite find_head_dev by reflexivity.
      rewrite I7. split; [reflexivity|]. split; [|auto].
      apply in_or_app. right. left. reflexivity.
    + unfold PASID_MAX in *. lia.
    + rewrite I8. apply lookup_insert_eq.
    + rewrite I6. apply lookup_insert_eq.
    + cbn. discriminate.
Qed.

End RegistryFacts.

(** ** The registry on the concrete system *)

Section RegistryExamples.
Import K Svm Registry Demo.

Lemma demo_state_wf : wf demo_config demo_state.
Proof.
  split.
  - intros p [<-|[]]. exists svm_h. split; [reflexivity|].
    split; [|split; [|split]].
    + eexists. split; [reflexivity|]. split; reflexivity.
    + reflexivity.
    + discriminate.
    + repeat constructor; cbn; try lia. eauto.
  - intros p [x Hx]. cbn in Hx.
    apply lookup_singleton_Some in Hx as [<- _]. cbn. eauto.
Qed.




(** The second bind in full: only the usage count changes, from 1 to 2. *)
Example bind_twice_users :
  match intel_svm_bind_mm demo_config demo_oracle dev_y 0 (Some 100) demo_state
  with
  | Some (ret, Some h, st1) =>
      ret = 0 /\ sd_users h = 2 /\
      (svm_devs <$> svms st1 !! 0x9000)
        = Some [mark_success 3 dev_y (with_users 2 (sdev_of dev_y 6 3))] /\
      global_svm_list st1 = global_svm_list demo_state /\
      ioasids st1 = ioasids demo_state /\
      notifiers st1 = notifiers demo_state
  | _ => False
  end.
Proof. vm_compute. auto 10. Qed.

Lemma demo_state_users p svm d :
  svms demo_state !! p = Some svm -> In d (svm_devs svm) ->
  sd_users d < 2 ^ 31 - 1.
Proof.
  intros Hp Hin. cbn in Hp. apply lookup_singleton_Some in Hp as [_ <-].
  destruct Hin as [<-|[]]. cbn. lia.
Qed.

(** After device x has bound the new address space 200, the registry is
    well-formed. *)
Lemma bind_mm_wf_witness :
  exists h st1,
    intel_svm_bind_mm demo_config demo_oracle dev_x 0 (Some 200) demo_state
      = Some (0, Some h, st1) /\
    wf demo_config st1.
Proof.
  destruct (intel_svm_bind_mm demo_config demo_oracle dev_x 0 (Some 200)
              demo_state) as [[[r [h|]] st1]|] eqn:E;
    try (vm_compute in E; discriminate E).
  assert (Hr : r = 0) by (pose proof E as E'; vm_compute in E';
                          injection E' as <- _ _; reflexivity).
  subst r. exists h, st1. split; [reflexivity|].
  exact (bind_mm_wf demo_config demo_oracle dev_x 0 (Some 200) demo_state h
           st1 demo_state_wf ltac:(split; [reflexivity|discriminate])
           ltac:(cbn; discriminate) demo_state_users E).
Defined.

(** Device x unbinds PASID 3, which only device y has bound. *)
Lemma unbind_mm_not_bound_witness :
  exists r st2,
    intel_svm_unbind_mm demo_config dev_x 3 demo_state = Some (r, st2) /\
    st2 = demo_state.
Proof.
  destruct (intel_svm_unbind_mm demo_config dev_x 3 demo_state)
    as [[r st2]|] eqn:E; [|vm_compute in E; discriminate E].
  exists r, st2. split; [reflexivity|].
  apply (unbind_mm_not_bound demo_config dev_x 3 demo_state st2 r); [|exact E].
  intros p svm d Hf Hp Hin. vm_compute in Hf. injection Hf as <-.
  cbn in Hp. apply lookup_singleton_Some in Hp as [_ <-].
  destruct Hin as [<-|[]]. reflexivity.
Defined.

Lemma demo_state_shared_wf : wf demo_config DemoMore.demo_state_shared.
Proof.
  split.
  - intros p [<-|[]]. exists DemoMore.svm_shared. split; [reflexivity|].
    split; [|split; [|split]].
    + eexists. split; [reflexivity|]. split; reflexivity.
    + reflexivity.
    + discriminate.
    + repeat constructor; cbn; try lia. eauto.
  - intros p [x Hx]. cbn in Hx.
    apply lookup_singleton_Some in Hx as [<- _]. cbn. eauto.
Qed.

(** Device y has bound address space 100 twice; its first unbind leaves the
    device-binding with one user. *)
Lemma unbind_mm_shared_witness :
  exists devs',
    intel_svm_unbind_mm demo_config dev_y 3 DemoMore.demo_state_shared =
      Some (0, set_svms
                 (<[0x9000 := with_devs devs' DemoMore.svm_shared]>
                    (svms DemoMore.demo_state_shared))
                 DemoMore.demo_state_shared).
Proof.
  destruct (unbind_mm_shared demo_config dev_y DemoMore.demo_state_shared
              0x9000 DemoMore.svm_shared
              (mk_sdev dev_y 1 1 2 1 6 4 true 3 (Some 0x6000))
              demo_state_shared_wf ltac:(left; reflexivity) eq_refl
              ltac:(cbn; eauto) eq_refl ltac:(cbn; lia))
    as (devs' & _ & H).
  exists devs'. exact H.
Defined.

(** Device y, the only user of the only device-binding of PASID 3, unbinds:
    the binding is destroyed. *)
Lemma unbind_mm_last_user_witness :
  exists st2,
    intel_svm_unbind_mm demo_config dev_y 3 demo_state = Some (0, st2) /\
    actions st2 = [ActTearDownEntry 0x6000 3 false false; ActDrainPrq 0x6000 3] /\
    svms st2 = delete 0x9000 (svms demo_state).
Proof.
  destruct (unbind_mm_last_user demo_config dev_y demo_state 0x9000 svm_h
              (sdev_of dev_y 6 3) demo_state_wf ltac:(left; reflexivity)
              eq_refl ltac:(cbn; eauto) eq_refl eq_refl)
    as (st2 & H1 & H2 & _ & H4).
  exists st2. split; [exact H1|]. split; [exact H2|].
  exact (proj1 (H4 eq_refl)).
Defined.

(** The set-up of the PASID entry fails on the first bind of address space
    200: the PASID and the notifier are released again. *)
Lemma bind_mm_failure_witness :
  exists st1,
    intel_svm_bind_mm demo_config DemoMore.failing_oracle dev_x 0 (Some 200)
      demo_state = Some (-22, None, st1) /\
    registry st1 = registry demo_state.
Proof.
  destruct (intel_svm_bind_mm demo_config DemoMore.failing_oracle dev_x 0
              (Some 200) demo_state) as [[[r h] st1]|] eqn:E;
    [|vm_compute in E; discriminate E].
  assert (Hr : r = -22 /\ h = None).
  { pose proof E as E'. vm_compute in E'. injection E' as <- <- _. auto. }
  destruct Hr as [-> ->]. exists st1. split; [reflexivity|].
  destruct (bind_mm_failure demo_config DemoMore.failing_oracle dev_x 0
              (Some 200) demo_state st1 (-22) None demo_state_wf E)
    as [(N & _)|(_ & _ & H & _)]; [discriminate N|exact H].
Defined.

(** Device x binds the new address space 200: PASID 4, binding at 0xa000. *)
Lemma bind_mm_new_binding_witness :
  exists h st1 p,
    intel_svm_bind_mm demo_config demo_oracle dev_x 0 (Some 200) demo_state
      = Some (0, Some h, st1) /\
    1 <= intel_svm_get_pasid h < 0x100000 /\
    global_svm_list st1 = [0x9000; p].
Proof.
  destruct (intel_svm_bind_mm demo_config demo_oracle dev_x 0 (Some 200)
              demo_state) as [[[r [h|]] st1]|] eqn:E;
    try (vm_compute in E; discriminate E).
  assert (Hr : r = 0) by (pose proof E as E'; vm_compute in E';
                          injection E' as <- _ _; reflexivity).
  subst r.
  destruct (bind_mm_new_binding demo_config demo_oracle dev_x 0 (Some 200)
              demo_state st1 h ltac:(split; [reflexivity|discriminate])
              ltac:(cbn; discriminate) eq_refl E)
    as (p & H1 & H2 & _ & _ & _ & _ & _ & _ & H9 & _).
  exists h, st1, p. split; [reflexivity|].
  split; [|exact H9]. cbn in H1, H2. lia.
Defined.

(** The handle of that bind is what the lookup by device x and its PASID
    finds. *)
Lemma bind_mm_lookup_witness :
  exists h st1 p svm1,
    intel_svm_bind_mm demo_config demo_oracle dev_x 0 (Some 200) demo_state
      = Some (0, Some h, st1) /\
    pasid_to_svm_sdev dev_x (Some 1) (intel_svm_get_pasid h) st1
      = Some (0, Some (p, svm1), Some h) /\
    svm_mm svm1 = Some 200.
Proof.
  destruct (intel_svm_bind_mm demo_config demo_oracle dev_x 0 (Some 200)
              demo_state) as [[[r [h|]] st1]|] eqn:E;
    try (vm_compute in E; discriminate E).
  assert (Hr : r = 0) by (pose proof E as E'; vm_compute in E';
                          injection E' as <- _ _; reflexivity).
  subst r.
  destruct (bind_mm_lookup demo_config demo_oracle dev_x 0 (Some 200)
              demo_state st1 h demo_state_wf
              ltac:(split; [reflexivity|discriminate])
              ltac:(cbn; discriminate) E)
    as (p & svm1 & H1 & _ & H3 & _).
  exists h, st1, p, svm1. auto.
Defined.

End RegistryExamples.

(** ** The page response of an external fault handler *)

Section ResponseFacts.
Import K Svm Prq Registry Response.

Context {World : Type}.
Variable Kn : kernel World.

Lemma pasid_field_bound req : 0 <= pasid req < PASID_MAX.
Proof.
  unfold pasid, field, PASID_MAX. rewrite Z.land_ones by lia.
  change 0x100000 with (2 ^ 20). apply Z.mod_pos_bound. lia.
Qed.

(** [intel_svm_page_response] submits at most one descriptor, and none when
    it returns an error.  When it returns 0 the device is a PCI device
    behind an IOMMU, the event has a valid PASID, not 0 and below
    [PASID_MAX], which leads (in any PASID set) to a live binding with a
    device-binding for the device; the descriptor is submitted exactly when
    the event has the last-page or the private-data flag, and carries the
    caller's response code, the event's PASID and group index, the
    source-ID of the device, and the private data when flagged. *)
Theorem page_response_sound (dev : option device) (bus devfn : Z)
    (evt : option iommu_fault_event) (msg : option Z) (st : state)
    (r : Z) (ds : list pgrp_resp) :
  intel_svm_page_response dev bus devfn evt msg st = Some (r, ds) ->
  (r <> 0 -> ds = []) /\
  (r = 0 ->
   exists d e code p svm sdev,
     dev = Some d /\ evt = Some e /\ msg = Some code /\
     dev_is_pci d = true /\ is_Some (dev_iommu d) /\
     prm_pasid_valid e = true /\ prm_pasid e <> 0 /\ prm_pasid e < PASID_MAX /\
     ioasid_find None (prm_pasid e) (ioasids st) = FPtr p /\
     svms st !! p = Some svm /\
     In sdev (svm_devs svm) /\ dev_eqb (sd_dev sdev) d = true /\
     ds = if prm_last_page e || prm_priv_data e
          then [mk_pgrp (prm_pasid e) (PCI_DEVID bus devfn) true
                  (prm_priv_data e) code (prm_grpid e) (prm_last_page e)
                  (if prm_priv_data e then fst (prm_private_data e) else 0)
                  (if prm_priv_data e then snd (prm_private_data e) else 0)]
          else []).
Proof.
  intros H. unfold intel_svm_page_response in H.
  assert (Herr : forall e, e <> 0 ->
            (- e <> 0 -> @nil pgrp_resp = []) /\
            (- e = 0 -> exists d e code p svm sdev,
               dev = Some d /\ evt = Some e /\ msg = Some code /\
               dev_is_pci d = true /\ is_Some (dev_iommu d) /\
               prm_pasid_valid e = true /\ prm_pasid e <> 0 /\
               prm_pasid e < PASID_MAX /\
               ioasid_find None (prm_pasid e) (ioasids st) = FPtr p /\
               svms st !! p = Some svm /\
               In sdev (svm_devs svm) /\ dev_eqb (sd_dev sdev) d = true /\
               @nil pgrp_resp =
                 if prm_last_page e || prm_priv_data e
                 then [mk_pgrp (prm_pasid e) (PCI_DEVID bus devfn) true
                         (prm_priv_data e) code (prm_grpid e) (prm_last_page e)
                         (if prm_priv_data e then fst (prm_private_data e) else 0)
                         (if prm_priv_data e then snd (prm_private_data e) else 0)]
                 else []))
    by (intros e He; split; [reflexivity|lia]).
  destruct dev as [d|]; [|injection H as <- <-; apply Herr; discriminate].
  destruct (dev_is_pci d) eqn:Hpci; cbn [negb] in H;
    [|injection H as <- <-; apply Herr; discriminate].
  destruct (dev_iommu d) as [iommu|] eqn:Hi;
    [|injection H as <- <-; apply Herr; discriminate].
  destruct msg as [code|]; [|injection H as <- <-; apply Herr; discriminate].
  destruct evt as [e|]; [|injection H as <- <-; apply Herr; discriminate].
  destruct (prm_pasid_valid e) eqn:Hv; cbn [negb] in H;
    [|injection H as <- <-; apply Herr; discriminate].
  destruct ((prm_pasid e =? 0) || (prm_pasid e >=? PASID_MAX)) eqn:Hr;
    [injection H as <- <-; apply Herr; discriminate|].
  apply orb_false_iff in Hr as [Hr1 Hr2].
  apply Z.eqb_neq in Hr1. rewrite Z.geb_leb in Hr2. apply Z.leb_gt in Hr2.
  unfold pasid_to_svm_sdev in H.
  destruct ((prm_pasid e =? INVALID_IOASID) || (prm_pasid e >=? PASID_MAX));
    [injection H as <- <-; apply Herr; discriminate|].
  destruct (ioasid_find None (prm_pasid e) (ioasids st)) as [p| |err] eqn:Ef.
  - destruct (svms st !! p) as [svm|] eqn:Hp; [|discriminate H].
    destruct (svm_devs svm) as [|d0 l] eqn:Hd;
      [injection H as <- <-; apply Herr; discriminate|].
    cbn [negb Z.eqb orb] in H.
    destruct (List.find _ (d0 :: l)) as [sdev|] eqn:Hfind.
    + rewrite bool_decide_eq_true_2 in H by eauto. cbn [negb] in H.
      apply find_some in Hfind. destruct Hfind as [Hin Hdev].
      rewrite <- Hd in Hin.
      assert (E : r = 0 /\
                  ds = if prm_last_page e || prm_priv_data e
                       then [mk_pgrp (prm_pasid e) (PCI_DEVID bus devfn) true
                               (prm_priv_data e) code (prm_grpid e)
                               (prm_last_page e)
                               (if prm_priv_data e
                                then fst (prm_private_data e) else 0)
                               (if prm_priv_data e
                                then snd (prm_private_data e) else 0)]
                       else []).
      { destruct (prm_last_page e || prm_priv_data e);
          injection H as <- <-; auto. }
      destruct E as [-> ->]. split; [intros N; contradiction|]. intros _.
      exists d, e, code, p, svm, sdev. repeat split; eauto.
    + rewrite bool_decide_eq_false_2 in H by (intros [x Hx]; discriminate Hx).
      cbn [negb] in H. injection H as <- <-. apply Herr. discriminate.
  - cbn [negb Z.eqb orb] in H.
    rewrite bool_decide_eq_false_2 in H by (intros [x Hx]; discriminate Hx).
    cbn [negb] in H. injection H as <- <-. apply Herr. discriminate.
  - destruct (prm_pasid e =? PASID_RID2PASID).
    + cbn [negb Z.eqb orb] in H.
      rewrite bool_decide_eq_false_2 in H by (intros [x Hx]; discriminate Hx).
      cbn [negb] in H. injection H as <- <-. apply Herr. discriminate.
    + rewrite bool_decide_eq_false_2 in H by (intros [x Hx]; discriminate Hx).
      cbn [negb] in H. rewrite orb_true_r in H.
      injection H as <- <-. apply Herr. discriminate.
Qed.

(** A fault the reader reported and the response to it.  For a PCI device
    with domain info, [intel_svm_prq_report] submits [fault_event_of] the
    descriptor.  When the device is bound under the descriptor's PASID, the
    page response to that event with code [code] submits a descriptor
    exactly when the reader itself would have answered (LPIG or private data
    in the descriptor); it has the descriptor's PASID, group index and
    private data, and its last-page bit is set also for a descriptor that
    has private data without LPIG. *)
Theorem page_response_of_report (d : device) (info : device_domain_info)
    (bus devfn : Z) (req : page_req_dsc) (code : Z) (st : state)
    (found : option (Z * intel_svm)) (sdev : intel_svm_dev) (w : World) :
  dev_is_pci d = true -> dev_info d = Some info -> is_Some (dev_iommu d) ->
  pasid_present req = true -> pasid req <> 0 ->
  pasid_to_svm_sdev d None (pasid req) st = Some (0, found, Some sdev) ->
  intel_svm_prq_report Kn d req w
    = iommu_report_device_fault Kn d (fault_event_of info req) w /\
  intel_svm_page_response (Some d) bus devfn (Some (fault_event_of info req))
    (Some code) st
  = Some (0,
          if wants_response req
          then [mk_pgrp (pasid req) (PCI_DEVID bus devfn) true
                  (priv_data_present req) code (prg_index req)
                  (lpig req || priv_data_present req)
                  (if priv_data_present req then priv_data0 req else 0)
                  (if priv_data_present req then priv_data1 req else 0)]
          else []).
Proof.
  intros Hpci Hinfo [iommu Hi] Hp Hne Hfound. split.
  - unfold intel_svm_prq_report. rewrite Hpci, Hinfo. reflexivity.
  - unfold intel_svm_page_response. rewrite Hpci, Hi.
    cbn [negb fault_event_of prm_pasid_valid prm_priv_data prm_last_page
         prm_pasid prm_grpid prm_private_data].
    rewrite Hp. cbn [negb].
    pose proof (pasid_field_bound req) as Hb.
    destruct (Z.eqb_spec (pasid req) 0) as [?|_]; [contradiction|].
    rewrite Z.geb_leb.
    destruct (Z.leb_spec PASID_MAX (pasid req)) as [?|_]; [lia|].
    cbn [orb]. rewrite Hfound. cbn [negb Z.eqb orb].
    rewrite bool_decide_eq_true_2 by eauto. cbn [negb].
    unfold wants_response.
    destruct (lpig req), (priv_data_present req); reflexivity.
Qed.

End ResponseFacts.

(** ** The capability check *)

Section CapabilityFacts.
Import Capability.

Variable VTD_FLAG_SVM_CAPABLE : Z.

Lemma land_lor_same f c : Z.land (Z.lor f c) c = c.
Proof.
  apply Z.bits_inj'. intros n _. rewrite Z.land_spec, Z.lor_spec.
  destruct (Z.testbit f n), (Z.testbit c n); reflexivity.
Qed.

(** After [intel_svm_check] the IOMMU is SVM capable exactly when it was
    before, or when it supports PASID and has every paging capability the
    CPU uses: 1 GiB first-level pages when the CPU has them, 5-level paging
    when the CPU runs with it.  The check sets no other flag and clears
    none. *)
Theorem intel_svm_check_capable (cpu : cpu_features) (iommu : iommu_caps) :
  VTD_FLAG_SVM_CAPABLE <> 0 ->
  let iommu' := intel_svm_check VTD_FLAG_SVM_CAPABLE cpu iommu in
  intel_svm_capable VTD_FLAG_SVM_CAPABLE iommu' =
    intel_svm_capable VTD_FLAG_SVM_CAPABLE iommu
    || (pasid_supported iommu
        && (negb (X86_FEATURE_GBPAGES cpu) || cap_fl1gp_support iommu)
        && (negb (X86_FEATURE_LA57 cpu) || cap_5lp_support iommu)) /\
  (iommu_flags iommu' = iommu_flags iommu \/
   iommu_flags iommu' = Z.lor (iommu_flags iommu) VTD_FLAG_SVM_CAPABLE).
Proof.
  intros Hc. cbv zeta. unfold intel_svm_check, intel_svm_capable.
  destruct (pasid_supported iommu), (X86_FEATURE_GBPAGES cpu),
    (cap_fl1gp_support iommu), (X86_FEATURE_LA57 cpu),
    (cap_5lp_support iommu);
    cbn [negb andb orb iommu_flags];
    rewrite ?orb_false_r, ?land_lor_same; auto;
    (split; [|auto]);
    destruct (Z.eqb_spec VTD_FLAG_SVM_CAPABLE 0) as [?|_];
    try contradiction; cbn [negb]; rewrite orb_true_r; reflexivity.
Qed.

End CapabilityFacts.

(** ** Setting up and shutting down the page request queue *)

Section PrqSetupFacts.
Import PrqSetup.

Variable prq_size_page_order : Z.
Variable DMAR_UNITS_SUPPORTED : Z.
Variable virt_to_phys : Z -> Z.

Local Abbreviation enable :=
  (intel_svm_enable_prq prq_size_page_order DMAR_UNITS_SUPPORTED virt_to_phys).
Local Abbreviation finish := (intel_svm_finish_prq prq_size_page_order).

Lemma remove_one_head x l : ~ In x l -> remove_one x (x :: l) = l.
Proof.
  intros H. unfold remove_one. cbn [List.remove].
  destruct (Z.eq_dec x x) as [_|N]; [|contradiction].
  apply List.notin_remove. exact H.
Qed.


(** A successful [intel_svm_enable_prq] holds the pages, the interrupt
    number and the handler, and has programmed head 0, tail 0 and the queue
    address with the size order, in this order, after the handler was
    registered.  [intel_svm_finish_prq] after it zeroes the three registers
    first and then releases all three: nothing is held, [iommu->prq] is NULL
    and [iommu->pr_irq] is 0. *)
Theorem enable_finish_prq (o : enable_oracle) (iommu iommu1 : iommu_prq)
    (evs1 : list event) :
  enable o iommu = (0, iommu1, evs1) ->
  exists pages irq iommu2 evs2,
    or_alloc_pages o = Some pages /\ or_alloc_hwirq o = irq /\ 0 < irq /\
    prq iommu1 = Some pages /\ pr_irq iommu1 = irq /\
    held_after evs1 = mk_held [pages] [irq] [irq] /\
    evs1 = [EvAllocPages prq_size_page_order (Some pages);
            EvAllocHwirq (DMAR_UNITS_SUPPORTED + seq_id iommu) irq;
            EvRequestIrq irq 0;
            EvWriteq DMAR_PQH_REG 0; EvWriteq DMAR_PQT_REG 0;
            EvWriteq DMAR_PQA_REG
              (Z.lor (virt_to_phys pages) prq_size_page_order);
            EvInitCompletion] /\
    finish iommu1 = (0, iommu2, evs2) /\
    evs2 = [EvWriteq DMAR_PQH_REG 0; EvWriteq DMAR_PQT_REG 0;
            EvWriteq DMAR_PQA_REG 0; EvFreeIrq irq; EvFreeHwirq irq;
            EvFreePages (Some pages) prq_size_page_order] /\
    prq iommu2 = None /\ pr_irq iommu2 = 0 /\
    held_after (evs1 ++ evs2) = mk_held [] [] [].
Proof.
  intros H. unfold intel_svm_enable_prq, enable_err in H.
  destruct (or_alloc_pages o) as [pages|] eqn:Hp; [|discriminate H].
  cbn [prq pr_irq seq_id] in H.
  destruct (Z.leb_spec (or_alloc_hwirq o) 0) as [Hle|Hgt]; [discriminate H|].
  destruct (Z.eqb_spec (or_request_irq o) 0) as [E|E]; cbn [negb] in H.
  2:{ injection H as N _ _. contradiction. }
  injection H as <- <-. rewrite E.
  set (irq := or_alloc_hwirq o) in *.
  eexists pages, irq, _, _.
  split; [reflexivity|]. split; [reflexivity|]. split; [exact Hgt|].
  split; [reflexivity|]. split; [reflexivity|].
  assert (Hpos : (0 <? irq) = true) by (apply Z.ltb_lt; exact Hgt).
  assert (Hnz : (irq =? 0) = false) by (apply Z.eqb_neq; lia).
  split.
  { unfold held_after. cbn [app fold_left step_held]. rewrite Hpos.
    cbn [Z.eqb held_pages held_hwirqs held_handlers]. reflexivity. }
  split; [reflexivity|].
  unfold intel_svm_finish_prq. cbn [prq pr_irq seq_id]. rewrite Hnz.
  cbn [negb app].
  split; [reflexivity|]. split; [reflexivity|].
  split; [reflexivity|]. split; [reflexivity|].
  unfold held_after. cbn [app fold_left step_held]. rewrite Hpos.
  cbn [Z.eqb held_pages held_hwirqs held_handlers].
  rewrite !remove_one_head by (intros []). reflexivity.
Qed.

End PrqSetupFacts.

(** ** Guest-mode bind and unbind *)

Section GuestFacts.
Import K Svm Registry Guest.

Variable G : config.
Variable GC : guest_constants.

Local Abbreviation bind_gpasid := (intel_svm_bind_gpasid G GC).
Local Abbreviation unbind_gpasid := (intel_svm_unbind_gpasid G GC).

(** The device-binding a guest-mode bind creates. *)
Local Abbreviation new_gsdev o domain dev iommu info :=
  (mk_sdev dev (iommu_id iommu) domain (if go_feat_aux o then 1 else 0) 0
     (PCI_DEVID (di_bus info) (di_devfn info)) 0 false 0 None).

Lemma gbind_out_ret o dev data fd ret hpasid created st log r hp st1 log1 :
  gbind_out o dev data fd ret hpasid created st log = (r, hp, st1, log1) ->
  r = ret /\ hp = bd_hpasid data.
Proof.
  unfold gbind_out. destruct created; intros [= <- <- _ _]; auto.
Qed.

(** The paths of a guest-mode bind that got past the argument checks, the
    choice of the PASID and the lookup. *)
Lemma gbind_paths o domain dev data fd st r hp st1 log :
  bind_gpasid o domain dev data fd st = Some (r, hp, st1, log) ->
  (r <> 0 /\ st1 = st /\ allocator_calls log = []) \/
  exists iommu d info hpasid pasid_set ret found sdev log0,
    data = Some d /\ dev_iommu dev = Some iommu /\ dev_info dev = Some info /\
    dev_is_pci dev = true /\
    (hpasid_def GC (bd_flags d) = true /\
     hpasid = go_domain_get_pasid o /\ pasid_set = Some (host_pasid_set G) /\
     0 <= hpasid \/
     hpasid_def GC (bd_flags d) = false /\
     hpasid = bd_hpasid d /\ pasid_set = None /\ 0 < hpasid) /\
    allocator_calls log0 = [] /\
    pasid_to_svm_sdev dev pasid_set hpasid st = Some (ret, found, sdev) /\
    ret = 0 /\ sdev = None /\
    match found with
    | Some (p, svm) =>
        (r, hp, st1, log) =
        gbind_sdev GC o domain dev iommu info d fd hpasid p svm false st log0
    | None =>
        exists p,
          kzalloc_svm (go_kzalloc_svm o) (svms st) = Some p /\
          let gval := negb (Z.land (bd_flags d) (IOMMU_SVA_GPASID_VAL GC) =? 0) in
          (r, hp, st1, log) =
          gbind_sdev GC o domain dev iommu info d fd hpasid p
            (mk_svm None (if gval then SVM_FLAG_GUEST_PASID GC else 0) hpasid
               (if gval then bd_gpasid d else 0) [])
            true
            (set_ioasids
               (ioasid_get hpasid (ioasid_attach_data hpasid p (ioasids st)))
               st)
            ((if gval && negb (hpasid_def GC (bd_flags d))
              then log0 ++ [GaAttachSpid hpasid (bd_gpasid d)] else log0)
             ++ [GaAttachData hpasid p; GaIoasidGet hpasid])
    end.
Proof.
  intros H. unfold intel_svm_bind_gpasid in H.
  assert (Hfail : forall e hp0, e <> 0 ->
            Some (e, hp0, st, @nil gaction) = Some (r, hp, st1, log) ->
            r <> 0 /\ st1 = st /\ allocator_calls log = [])
    by (intros e hp0 He [= <- _ <- <-]; auto).
  destruct (dev_iommu dev) as [iommu|] eqn:Hi, data as [d|];
    try (left; eapply Hfail; [|exact H]; discriminate).
  destruct (negb (bd_format d =? _));
    [left; eapply Hfail; [|exact H]; discriminate|].
  destruct (bd_argsz d <? _);
    [left; eapply Hfail; [|exact H]; discriminate|].
  destruct (negb (Z.land (bd_vtd_flags d) _ =? 0));
    [left; eapply Hfail; [|exact H]; discriminate|].
  destruct (dev_is_pci dev) eqn:Hpci; cbn [negb] in H;
    [|left; eapply Hfail; [|exact H]; discriminate].
  destruct (negb (hpasid_def GC (bd_flags d)) && _);
    [left; eapply Hfail; [|exact H]; discriminate|].
  assert (Hchoice :
    (exists e, e <> 0 /\ Some (e, bd_hpasid d, st, @nil gaction)
                         = Some (r, hp, st1, log)) \/
    exists hpasid pasid_set,
      (hpasid_def GC (bd_flags d) = true /\
       hpasid = go_domain_get_pasid o /\ pasid_set = Some (host_pasid_set G) /\
       0 <= hpasid \/
       hpasid_def GC (bd_flags d) = false /\
       hpasid = bd_hpasid d /\ pasid_set = None /\ 0 < hpasid) /\
      match dev_info dev with
      | None => Some (- EINVAL, hpasid, st, [])
      | Some info =>
          let add := go_is_aux_domain o && fd in
          let log :=
            if add
            then [GaAddFaultData (dev_id dev) hpasid (go_add_fault_data o)]
            else [] in
          if add && negb (go_add_fault_data o =? 0)
          then Some (go_add_fault_data o, hpasid, st, log)
          else
            match pasid_to_svm_sdev dev pasid_set hpasid st with
            | None => None
            | Some (ret, found, sdev) =>
                if negb (ret =? 0) then
                  Some (gbind_out o dev d fd ret hpasid None st log)
                else
                  match sdev, found with
                  | Some _, _ =>
                      Some (gbind_out o dev d fd (- EBUSY) hpasid None st log)
                  | None, Some (p, svm) =>
                      Some (gbind_sdev GC o domain dev iommu info d fd hpasid
                              p svm false st log)
                  | None, None =>
                      match kzalloc_svm (go_kzalloc_svm o) (svms st) with
                      | None =>
                          Some (gbind_out o dev d fd (- ENOMEM) hpasid None
                                  st log)
                      | Some p =>
                          let gval :=
                            negb (Z.land (bd_flags d)
                                    (IOMMU_SVA_GPASID_VAL GC) =? 0) in
                          let svm :=
                            mk_svm None
                              (if gval then SVM_FLAG_GUEST_PASID GC else 0)
                              hpasid (if gval then bd_gpasid d else 0) [] in
                          let log :=
                            if gval && negb (hpasid_def GC (bd_flags d))
                            then log ++ [GaAttachSpid hpasid (bd_gpasid d)]
                            else log in
                          let log :=
                            log ++ [GaAttachData hpasid p; GaIoasidGet hpasid] in
                          let st :=
                            set_ioasids
                              (ioasid_get hpasid
                                 (ioasid_attach_data hpasid p (ioasids st)))
                              st in
                          Some (gbind_sdev GC o domain dev iommu info d fd
                                  hpasid p svm true st log)
                      end
                  end
            end
      end = Some (r, hp, st1, log)).
  { destruct (hpasid_def GC (bd_flags d)) eqn:Hd.
    - destruct (Z.ltb_spec (go_domain_get_pasid o) 0) as [Hneg|Hpos].
      + left. exists (go_domain_get_pasid o). split; [lia|exact H].
      + right. exists (go_domain_get_pasid o), (Some (host_pasid_set G)).
        split; [left; auto|exact H].
    - destruct ((bd_hpasid d <=? 0) || (bd_hpasid d >=? PASID_MAX)) eqn:Hr.
      + left. exists (- EINVAL). split; [discriminate|exact H].
      + right. exists (bd_hpasid d), None.
        apply orb_false_iff in Hr as [Hr _]. apply Z.leb_gt in Hr.
        split; [right; auto|exact H]. }
  clear H. destruct Hchoice as [(e & He & H)|(hpasid & pasid_set & Hsel & H)];
    [left; eapply Hfail; eassumption|].
  destruct (dev_info dev) as [info|] eqn:Hinfo;
    [|left; eapply Hfail; [|exact H]; discriminate].
  cbv zeta in H.
  set (log0 := if go_is_aux_domain o && fd
               then [GaAddFaultData (dev_id dev) hpasid (go_add_fault_data o)]
               else []) in *.
  assert (Hlog0 : allocator_calls log0 = [])
    by (unfold log0; destruct (go_is_aux_domain o && fd); reflexivity).
  destruct (go_is_aux_domain o && fd && negb (go_add_fault_data o =? 0)) eqn:Ea.
  { left. injection H as <- _ <- <-. apply andb_true_iff in Ea as [_ Ea].
    apply negb_true_iff, Z.eqb_neq in Ea. auto. }
  assert (Hout : forall ret,
            ret <> 0 ->
            gbind_out o dev d fd ret hpasid None st log0 = (r, hp, st1, log) ->
            r <> 0 /\ st1 = st /\ allocator_calls log = []).
  { intros ret Hret E. unfold gbind_out in E. injection E as <- _ <- <-.
    split; [exact Hret|]. split; [reflexivity|].
    destruct (negb (ret =? 0) && go_is_aux_domain o && fd); [|exact Hlog0].
    unfold allocator_calls in *. rewrite List.filter_app, Hlog0. reflexivity. }
  destruct (pasid_to_svm_sdev dev pasid_set hpasid st)
    as [[[ret found] sdev]|] eqn:Hfound; [|discriminate H].
  destruct (Z.eqb_spec ret 0) as [->|Hret]; cbn [negb] in H.
  2:{ left. apply (inj Some) in H. eapply Hout; [|exact H]. exact Hret. }
  destruct sdev as [sd|].
  { left. apply (inj Some) in H. eapply Hout; [|exact H]. discriminate. }
  destruct found as [[p svm]|].
  - right. exists iommu, d, info, hpasid, pasid_set, 0, (Some (p, svm)), None, log0.
    repeat (split; [first [reflexivity|assumption]|]).
    apply (inj Some) in H. symmetry. exact H.
  - destruct (kzalloc_svm (go_kzalloc_svm o) (svms st)) as [p|] eqn:Hk.
    + right. exists iommu, d, info, hpasid, pasid_set, 0, None, None, log0.
      repeat (split; [first [reflexivity|assumption]|]).
      exists p. split; [reflexivity|]. apply (inj Some) in H. symmetry. exact H.
    + left. apply (inj Some) in H. eapply Hout; [|exact H]. discriminate.
Qed.

Lemma allocator_calls_app a b :
  allocator_calls (a ++ b) = allocator_calls a ++ allocator_calls b.
Proof. apply List.filter_app. Qed.

Lemma lor_flag_set f c : Z.land (Z.lor f c) c = c.
Proof.
  apply Z.bits_inj'. intros n _. rewrite Z.land_spec, Z.lor_spec.
  destruct (Z.testbit f n), (Z.testbit c n); reflexivity.
Qed.

Lemma lor_flag_id f c : Z.land f c = c -> Z.lor f c = f.
Proof.
  intros H. apply Z.bits_inj'. intros n _. rewrite Z.lor_spec.
  apply (f_equal (fun z => Z.testbit z n)) in H. rewrite Z.land_spec in H.
  destruct (Z.testbit f n), (Z.testbit c n); try reflexivity; discriminate H.
Qed.

(** From [sdev = kzalloc(...)] on: success installs the device-binding at
    the head and sets the guest-mode flag; failure undoes the attachment of
    a binding this call created, and nothing else. *)
Lemma gbind_sdev_cases o domain dev iommu info d fd hpasid p svm created st
    log r hp st1 log1 :
  gbind_sdev GC o domain dev iommu info d fd hpasid p svm created st log
    = (r, hp, st1, log1) ->
  hp = bd_hpasid d /\
  (r = 0 /\
   st1 = set_svms
           (<[p := with_devs (new_gsdev o domain dev iommu info :: svm_devs svm)
                     (with_flags
                        (Z.lor (svm_flags svm) (SVM_FLAG_GUEST_MODE GC)) svm)]>
              (svms st)) st /\
   allocator_calls log1 = allocator_calls log
   \/
   r <> 0 /\
   st1 = (if created
          then set_ioasids (ioasid_detach_data hpasid (ioasids st)) st
          else st) /\
   allocator_calls log1 =
     allocator_calls log ++ (if created then [GaDetachData hpasid] else [])).
Proof.
  unfold gbind_sdev, gbind_out. intros H.
  set (enable := negb (hpasid_def GC (bd_flags d))
                 && (dev_max_pasids dev =? PASID_MAX)) in *.
  destruct (go_kzalloc_sdev o); cbn [negb] in H.
  2:{ destruct created; injection H as <- <- <- <-;
        (split; [reflexivity|]); right;
        (split; [discriminate|]); (split; [reflexivity|]);
        destruct (go_is_aux_domain o && fd); cbn [negb Z.eqb andb];
        rewrite ?allocator_calls_app; cbn; rewrite ?app_nil_r; reflexivity. }
  destruct (enable && negb (go_enable_pasid o =? 0)) eqn:Een.
  { apply andb_true_iff in Een as [-> Een]. rewrite Een in H.
    apply negb_true_iff, Z.eqb_neq in Een.
    destruct created; injection H as <- <- <- <-;
      (split; [reflexivity|]); right;
      (split; [exact Een|]); (split; [reflexivity|]);
      destruct (go_is_aux_domain o && fd); cbn [negb andb];
      rewrite ?allocator_calls_app; cbn; rewrite ?app_nil_r; reflexivity. }
  destruct (Z.eqb_spec (go_setup_nested o) 0) as [E0|E0]; cbn [negb] in H.
  - cbn [Z.eqb negb andb] in H. injection H as <- <- <- <-.
    split; [reflexivity|]. left. split; [reflexivity|]. split; [reflexivity|].
    destruct enable; rewrite ?allocator_calls_app; cbn;
      rewrite ?app_nil_r; reflexivity.
  - destruct created; injection H as <- <- <- <-;
      (split; [reflexivity|]); right;
      (split; [exact E0|]); (split; [reflexivity|]);
      destruct (go_is_aux_domain o && fd), enable; cbn [negb andb];
      rewrite ?allocator_calls_app; cbn; rewrite ?app_nil_r; reflexivity.
Qed.

(** A guest-mode bind that fails leaves every binding as it was.  When it
    had not yet created a binding it leaves the allocator as it was too and
    has made no allocator call.  When it had created one, its allocator
    calls are the attachment of the guest PASID (if the descriptor has one
    and the host PASID is the caller's), the attachment of the binding, one
    [ioasid_get] and the detachment of the binding: the reference taken is
    not put back and the guest PASID stays attached. *)
Theorem bind_gpasid_failure (o : guest_oracle) (domain : Z) (dev : device)
    (data : option gpasid_bind_data) (fd : bool) (st st1 : state)
    (r hp : Z) (log : list gaction) :
  bind_gpasid o domain dev data fd st = Some (r, hp, st1, log) ->
  r <> 0 ->
  svms st1 = svms st /\ global_svm_list st1 = global_svm_list st /\
  notifiers st1 = notifiers st /\
  (ioasids st1 = ioasids st /\ allocator_calls log = [] \/
   exists hpasid p spid,
     svms st !! p = None /\
     (spid = [] \/ exists g, spid = [GaAttachSpid hpasid g]) /\
     allocator_calls log =
       spid ++ [GaAttachData hpasid p; GaIoasidGet hpasid;
                GaDetachData hpasid] /\
     ioasids st1 =
       ioasid_detach_data hpasid
         (ioasid_get hpasid (ioasid_attach_data hpasid p (ioasids st)))).
Proof.
  intros H Hr.
  destruct (gbind_paths _ _ _ _ _ _ _ _ _ _ H)
    as [(_ & -> & Hl)
       |(iommu & d & info & hpasid & pasid_set & ret & found & sdev & log0
         & -> & Hi & Hinfo & Hpci & Hsel & Hl0 & Hfound & -> & -> & Hrest)];
    [auto 10|].
  destruct found as [[p svm]|].
  - symmetry in Hrest. apply gbind_sdev_cases in Hrest.
    destruct Hrest as [_ [(-> & _)|(_ & -> & Hl)]]; [contradiction|].
    rewrite Hl, Hl0. auto 10.
  - destruct Hrest as (p & Hk & Hrest). cbv zeta in Hrest.
    symmetry in Hrest. apply gbind_sdev_cases in Hrest.
    destruct Hrest as [_ [(-> & _)|(_ & -> & Hl)]]; [contradiction|].
    cbn [svms global_svm_list notifiers ioasids set_ioasids].
    repeat (split; [reflexivity|]). right.
    unfold kzalloc_svm in Hk.
    destruct (go_kzalloc_svm o) as [q|]; [|discriminate Hk].
    destruct (bool_decide (svms st !! q = None)) eqn:Hfresh;
      [|discriminate Hk].
    injection Hk as <-. apply bool_decide_eq_true in Hfresh.
    exists hpasid, q,
      (if negb (Z.land (bd_flags d) (IOMMU_SVA_GPASID_VAL GC) =? 0)
          && negb (hpasid_def GC (bd_flags d))
       then [GaAttachSpid hpasid (bd_gpasid d)] else []).
    split; [exact Hfresh|]. split.
    { destruct (_ && _); eauto. }
    split; [|reflexivity].
    rewrite Hl, allocator_calls_app.
    destruct (_ && _); rewrite ?allocator_calls_app, Hl0; cbn;
      reflexivity.
Qed.

(** *** The lookup, forwards and backwards *)

Lemma pasid_to_svm_sdev_inv dev set pasid st found sdev :
  pasid_to_svm_sdev dev set pasid st = Some (0, found, sdev) ->
  pasid <> INVALID_IOASID /\ pasid < PASID_MAX /\
  match found with
  | Some (p, svm) =>
      ioasid_find set pasid (ioasids st) = FPtr p /\
      svms st !! p = Some svm /\ svm_devs svm <> [] /\
      sdev = List.find (fun d => dev_eqb (sd_dev d) dev) (svm_devs svm)
  | None =>
      sdev = None /\
      (ioasid_find set pasid (ioasids st) = FNull \/
       pasid = PASID_RID2PASID)
  end.
Proof.
  unfold pasid_to_svm_sdev. intros H.
  destruct ((pasid =? INVALID_IOASID) || (pasid >=? PASID_MAX)) eqn:Hr;
    [discriminate H|].
  apply orb_false_iff in Hr as [Hr1 Hr2]. apply Z.eqb_neq in Hr1.
  rewrite Z.geb_leb in Hr2. apply Z.leb_gt in Hr2.
  split; [exact Hr1|]. split; [exact Hr2|].
  destruct (ioasid_find set pasid (ioasids st)) as [p| |e] eqn:Ef.
  - destruct (svms st !! p) as [svm|] eqn:Hp; [|discriminate H].
    destruct (svm_devs svm) as [|d0 l] eqn:Hd; [discriminate H|].
    injection H as <- <-. rewrite Hd. repeat split; auto; discriminate.
  - injection H as <- <-. auto.
  - destruct (Z.eqb_spec pasid PASID_RID2PASID) as [E|E].
    + injection H as <- <-. auto.
    + injection H as He _ _. exfalso.
      unfold ioasid_find in Ef.
      destruct (ioasids st !! pasid) as [io|];
        [|injection Ef as <-; discriminate He].
      destruct set as [s0|].
      * destruct (negb (io_set io =? s0));
          [injection Ef as <-; discriminate He|].
        destruct (io_private io); discriminate Ef.
      * destruct (io_private io); discriminate Ef.
Qed.

Lemma pasid_to_svm_sdev_ptr dev set pasid st p svm :
  pasid <> INVALID_IOASID -> pasid < PASID_MAX ->
  ioasid_find set pasid (ioasids st) = FPtr p ->
  svms st !! p = Some svm -> svm_devs svm <> [] ->
  pasid_to_svm_sdev dev set pasid st =
  Some (0, Some (p, svm),
        List.find (fun d => dev_eqb (sd_dev d) dev) (svm_devs svm)).
Proof.
  intros H1 H2 Hf Hp Hne. unfold pasid_to_svm_sdev.
  assert (E : (pasid =? INVALID_IOASID) || (pasid >=? PASID_MAX) = false).
  { apply orb_false_iff. split; [apply Z.eqb_neq; exact H1|].
    rewrite Z.geb_leb. apply Z.leb_gt. exact H2. }
  rewrite E, Hf, Hp. destruct (svm_devs svm); [contradiction|reflexivity].
Qed.

Lemma ioasid_find_null set h t :
  ioasid_find set h t = FNull ->
  exists io, t !! h = Some io /\ io_private io = None /\
             match set with Some s => io_set io = s | None => True end.
Proof.
  unfold ioasid_find. destruct (t !! h) as [io|]; [|discriminate].
  intros H. exists io. split; [reflexivity|].
  destruct set as [s|].
  - destruct (Z.eqb_spec (io_set io) s) as [E|E]; cbn [negb] in H;
      [|discriminate H].
    destruct (io_private io); [discriminate H|auto].
  - destruct (io_private io); [discriminate H|auto].
Qed.

Lemma ioasid_find_attached set h p t io :
  t !! h = Some io ->
  match set with Some s => io_set io = s | None => True end ->
  ioasid_find set h (ioasid_get h (ioasid_attach_data h p t)) = FPtr p.
Proof.
  intros Hio Hset. unfold ioasid_find, ioasid_get, ioasid_attach_data.
  rewrite Hio.
  repeat (rewrite lookup_insert_eq; cbn [io_set io_private io_refs]).
  destruct set as [s|]; [|reflexivity].
  rewrite Hset, Z.eqb_refl. reflexivity.
Qed.

(** Attaching a binding and taking a reference, then detaching it and
    putting the reference, gives the allocator's table back. *)
Lemma ioasid_drop_roundtrip h p t io :
  t !! h = Some io -> io_private io = None -> 0 < io_refs io ->
  ioasid_put h
    (ioasid_detach_data h (ioasid_get h (ioasid_attach_data h p t))) = t.
Proof.
  intros Hio Hpriv Hrefs.
  unfold ioasid_put, ioasid_detach_data, ioasid_get, ioasid_attach_data.
  rewrite Hio.
  repeat (rewrite lookup_insert_eq; cbn [io_set io_private io_refs]).
  destruct (Z.leb_spec (io_refs io + 1) 1) as [?|_]; [lia|].
  rewrite !insert_insert_eq.
  replace (io_refs io + 1 - 1) with (io_refs io) by lia.
  rewrite <- Hpriv. destruct io. apply insert_id. exact Hio.
Qed.

(** A successful guest-mode bind followed by the unbind of the same device
    and PASID, with the same flags: the unbind returns 0, the PASID entry of
    the device is cleared and its requests drained, and the allocator is as
    before the bind.  When the bind created the binding, the bindings are as
    before too: the binding is freed, its data detached and its reference
    put.  When the device joined an existing binding, that binding has its
    device set back and keeps the guest-mode flag the bind set. *)
Theorem bind_unbind_gpasid_roundtrip (o : guest_oracle) (domain : Z)
    (dev : device) (d : gpasid_bind_data) (fd : bool) (st st1 : state)
    (hp : Z) (log : list gaction) :
  (forall id io, ioasids st !! id = Some io -> 0 < io_refs io) ->
  (hpasid_def GC (bd_flags d) = true -> go_domain_get_pasid o <> 0) ->
  bind_gpasid o domain dev (Some d) fd st = Some (0, hp, st1, log) ->
  exists st2 log2 pasid,
    unbind_gpasid o dev (bd_hpasid d) (bd_flags d) st1 = Some (0, st2, log2) /\
    ioasids st2 = ioasids st /\
    global_svm_list st2 = global_svm_list st /\
    notifiers st2 = notifiers st /\
    (svms st2 = svms st /\
     allocator_calls log2 =
       (if hpasid_def GC (bd_flags d) then [] else [GaDetachSpid pasid])
       ++ [GaDetachData pasid; GaIoasidPut pasid]
     \/
     allocator_calls log2 = [] /\
     exists p svm,
       svms st !! p = Some svm /\
       svms st2 =
         <[p := with_flags (Z.lor (svm_flags svm) (SVM_FLAG_GUEST_MODE GC))
                  svm]> (svms st)).
Proof.
  intros Hrefs Hnz H.
  destruct (gbind_paths _ _ _ _ _ _ _ _ _ _ H)
    as [(N & _)
       |(iommu & d0 & info & hpasid & pasid_set & ret & found & sdev & log0
         & Hd0 & Hi & Hinfo & Hpci & Hsel & Hl0 & Hfound & -> & -> & Hrest)];
    [contradiction|].
  injection Hd0 as <-.
  destruct (pasid_to_svm_sdev_inv _ _ _ _ _ _ Hfound) as (Hr1 & Hr2 & Hinv).
  set (sd := new_gsdev o domain dev iommu info) in *.
  assert (Hchosen :
    (if hpasid_def GC (bd_flags d)
     then if go_domain_get_pasid o <? 0
          then inl (go_domain_get_pasid o)
          else inr (go_domain_get_pasid o, Some (host_pasid_set G), true)
     else inr (bd_hpasid d, None, false))
    = inr (hpasid, pasid_set, hpasid_def GC (bd_flags d))
    :> Z + Z * option Z * bool).
  { destruct Hsel as [(-> & -> & -> & Hpos)|(-> & -> & -> & _)];
      [|reflexivity].
    destruct (Z.ltb_spec (go_domain_get_pasid o) 0) as [?|_]; [lia|].
    reflexivity. }
  assert (Husers : forall l,
    List.find (fun t => dev_eqb (sd_dev t) dev) (sd :: l) = Some sd /\
    remove_first (fun t => dev_eqb (sd_dev t) dev) (sd :: l) = l /\
    ((if go_feat_aux o then s32 (sd_users sd - 1) else sd_users sd) =? 0)
    = true).
  { intros l. rewrite find_head_dev, remove_head_dev by reflexivity.
    split; [reflexivity|]. split; [reflexivity|].
    unfold sd. cbn [sd_users]. destruct (go_feat_aux o); reflexivity. }
  destruct found as [[p svm]|].
  - destruct Hinv as (Hf & Hp & Hne & _).
    symmetry in Hrest. apply gbind_sdev_cases in Hrest.
    destruct Hrest as [_ [(_ & -> & _)|(N & _)]]; [|contradiction].
    set (f := Z.lor (svm_flags svm) (SVM_FLAG_GUEST_MODE GC)).
    set (svm' := with_devs (sd :: svm_devs svm) (with_flags f svm)).
    unfold intel_svm_unbind_gpasid. rewrite Hi, Hchosen.
    rewrite (pasid_to_svm_sdev_ptr dev pasid_set hpasid _ p svm');
      try assumption.
    2:{ cbn. apply lookup_insert_eq. }
    2:{ cbn. discriminate. }
    cbn [negb Z.eqb svm' with_devs svm_devs].
    destruct (Husers (svm_devs svm)) as (U1 & U2 & U3).
    rewrite U1, U3, U2.
    destruct (svm_devs svm) as [|d1 rest] eqn:Hdevs; [contradiction|].
    eexists _, _, hpasid. split; [reflexivity|].
    cbn [svms global_svm_list ioasids notifiers set_svms].
    repeat (split; [reflexivity|]). right. split.
    { destruct (go_is_aux_domain o); reflexivity. }
    exists p, svm. split; [exact Hp|].
    rewrite insert_insert_eq. f_equal. rewrite <- Hdevs.
    destruct svm. reflexivity.
  - destruct Hinv as (_ & Hnull). destruct Hrest as (p & Hk & Hrest).
    cbv zeta in Hrest. symmetry in Hrest. apply gbind_sdev_cases in Hrest.
    destruct Hrest as [_ [(_ & -> & _)|(N & _)]]; [|contradiction].
    assert (Hnz' : hpasid <> PASID_RID2PASID).
    { unfold PASID_RID2PASID.
      destruct Hsel as [(Hd & -> & _)|(_ & _ & _ & Hpos)]; [auto|lia]. }
    destruct Hnull as [Hnull|?]; [|contradiction].
    destruct (ioasid_find_null _ _ _ Hnull) as (io & Hio & Hpriv & Hset).
    unfold kzalloc_svm in Hk.
    destruct (go_kzalloc_svm o) as [q|]; [|discriminate Hk].
    destruct (bool_decide (svms st !! q = None)) eqn:Hfresh;
      [|discriminate Hk].
    injection Hk as <-. apply bool_decide_eq_true in Hfresh.
    set (svm0 := mk_svm None _ hpasid _ []).
    set (f := Z.lor (svm_flags svm0) (SVM_FLAG_GUEST_MODE GC)).
    set (svm' := with_devs (sd :: svm_devs svm0) (with_flags f svm0)).
    unfold intel_svm_unbind_gpasid. rewrite Hi, Hchosen.
    rewrite (pasid_to_svm_sdev_ptr dev pasid_set hpasid _ q svm');
      try assumption.
    2:{ cbn. eapply ioasid_find_attached; eassumption. }
    2:{ cbn. apply lookup_insert_eq. }
    2:{ cbn. discriminate. }
    cbn [negb Z.eqb svm' svm0 with_devs with_flags svm_devs].
    destruct (Husers []) as (U1 & U2 & U3).
    rewrite U1, U3, U2.
    unfold intel_svm_drop_pasid.
    eexists _, _, hpasid. split; [reflexivity|].
    cbn [svms global_svm_list ioasids notifiers set_svms set_ioasids].
    rewrite (ioasid_drop_roundtrip hpasid q (ioasids st) io Hio Hpriv
               (Hrefs _ _ Hio)).
    repeat (split; [reflexivity|]). left.
    split; [apply delete_insert_id; exact Hfresh|].
    destruct (hpasid_def GC (bd_flags d)), (go_is_aux_domain o); reflexivity.
Qed.

(** A guest-mode bind never gives a device a second device-binding under
    one PASID: when the lookup already finds one for the device, the bind
    fails, changes nothing and makes no allocator call. *)
Theorem bind_gpasid_refuses_duplicate (o : guest_oracle) (domain : Z)
    (dev : device) (d : gpasid_bind_data) (fd : bool) (st st1 : state)
    (r hp : Z) (log : list gaction) (found : option (Z * intel_svm))
    (sd : intel_svm_dev) :
  let hdef := hpasid_def GC (bd_flags d) in
  pasid_to_svm_sdev dev (if hdef then Some (host_pasid_set G) else None)
    (if hdef then go_domain_get_pasid o else bd_hpasid d) st
    = Some (0, found, Some sd) ->
  bind_gpasid o domain dev (Some d) fd st = Some (r, hp, st1, log) ->
  r <> 0 /\ st1 = st /\ allocator_calls log = [].
Proof.
  intros hdef Hdup H.
  destruct (gbind_paths _ _ _ _ _ _ _ _ _ _ H)
    as [?|(iommu & d0 & info & hpasid & pasid_set & ret & found' & sdev & log0
           & Hd0 & Hi & Hinfo & Hpci & Hsel & Hl0 & Hfound & -> & -> & _)];
    [assumption|].
  injection Hd0 as <-. exfalso. subst hdef.
  destruct Hsel as [(E & -> & -> & _)|(E & -> & -> & _)]; rewrite E in Hdup;
    rewrite Hdup in Hfound; discriminate Hfound.
Qed.

End GuestFacts.

(** ** A PASID freed while it is bound *)

Section FreeNotifyFacts.
Import K Svm Registry Guest FreeNotify.

Variable GC : guest_constants.
Variable NOTIFY_DONE NOTIFY_OK IOASID_NOTIFY_FREE : Z.

Lemma free_devs_spec env pasid devs :
  let log := fst (free_devs env pasid devs) in
  let subdevs := snd (free_devs env pasid devs) in
  List.filter is_teardown log = flat_map (teardown_of pasid) devs /\
  allocator_calls log = [] /\
  List.filter is_fault_data_delete log = [] /\
  subdevs =
    map (fun sd => dev_id (sd_dev sd))
      (List.filter
         (fun sd => se_is_aux_domain (env (dev_id (sd_dev sd)))
                    && se_kzalloc_subdev (env (dev_id (sd_dev sd)))) devs) /\
  List.filter (fun a => match a with GaKfreeSdev _ => true | _ => false end)
    log = map GaKfreeSdev subdevs.
Proof.
  induction devs as [|sd rest IH]; [cbn; auto|].
  cbv zeta in *. cbn [free_devs].
  destruct (free_devs env pasid rest) as [log subdevs].
  cbn [fst snd] in IH. destruct IH as (I1 & I2 & I3 & I4 & I5).
  cbn [flat_map List.filter map].
  destruct (se_is_aux_domain (env (dev_id (sd_dev sd)))),
    (se_kzalloc_subdev (env (dev_id (sd_dev sd))));
    cbn [fst snd andb app List.filter is_teardown is_fault_data_delete
         allocator_calls map teardown_of];
    unfold allocator_calls in *; cbn [List.filter];
    rewrite I1, I2, I3, I5, <- I4; auto.
Qed.

(** The worker that cleans up after a PASID was freed while bound: for
    every device-binding of the binding, in list order, it clears the PASID
    entry (faults ignored) and then drains the page requests; after the
    last one it detaches the guest PASID and the binding from the allocator
    and puts the one reference, once each; then it frees the binding; the
    fault data of the auxiliary-domain devices for which a record could be
    allocated is deleted last, after the binding is freed.  Only the
    device-bindings of those devices are freed.  The binding is no longer
    live afterwards. *)
Theorem free_async_cleanup (env : Z -> sdev_env) (p : Z) (svm : intel_svm)
    (st : state) :
  svms st !! p = Some svm ->
  exists st2 log pre subdevs,
    intel_svm_free_async_fn GC env p st = Some (st2, log) /\
    log = pre
          ++ [GaDetachSpid (svm_pasid svm); GaDetachData (svm_pasid svm);
              GaIoasidPut (svm_pasid svm); GaKfreeSvm p]
          ++ map (fun dev => GaDeleteFaultData dev (svm_pasid svm)) subdevs /\
    List.filter is_teardown pre = flat_map (teardown_of (svm_pasid svm))
                                    (svm_devs svm) /\
    allocator_calls pre = [] /\
    List.filter is_fault_data_delete pre = [] /\
    subdevs =
      map (fun sd => dev_id (sd_dev sd))
        (List.filter
           (fun sd => se_is_aux_domain (env (dev_id (sd_dev sd)))
                      && se_kzalloc_subdev (env (dev_id (sd_dev sd))))
           (svm_devs svm)) /\
    List.filter (fun a => match a with GaKfreeSdev _ => true | _ => false end)
      log = map GaKfreeSdev subdevs /\
    svms st2 = delete p (svms st) /\
    ioasids st2 =
      ioasid_put (svm_pasid svm)
        (ioasid_detach_data (svm_pasid svm) (ioasids st)).
Proof.
  intros Hp. unfold intel_svm_free_async_fn, intel_svm_drop_pasid. rewrite Hp.
  pose proof (free_devs_spec env (svm_pasid svm) (svm_devs svm)) as Hs.
  cbv zeta in Hs.
  destruct (free_devs env (svm_pasid svm) (svm_devs svm)) as [pre subdevs].
  cbn [fst snd] in Hs. destruct Hs as (S1 & S2 & S3 & S4 & S5).
  assert (Hdef : hpasid_def GC 0 = false).
  { unfold hpasid_def. rewrite Z.land_0_l. reflexivity. }
  rewrite Hdef. cbn [negb app].
  eexists _, _, pre, subdevs. split; [reflexivity|].
  split; [reflexivity|].
  repeat (split; [assumption|]).
  split; [|split; reflexivity].
  rewrite List.filter_app, S5. cbn [List.filter].
  assert (E : List.filter
                (fun a => match a with GaKfreeSdev _ => true | _ => false end)
                (map (fun dev => GaDeleteFaultData dev (svm_pasid svm)) subdevs)
              = []).
  { clear. induction subdevs as [|x l IH]; [reflexivity|exact IH]. }
  rewrite E, app_nil_r. reflexivity.
Qed.

(** The allocator's notification queues the clean-up, and answers
    [NOTIFY_OK], exactly for a FREE event whose private data is a binding of
    that PASID; every other event is answered [NOTIFY_DONE] and queues
    nothing. *)
Theorem pasid_status_change_queues (code id : Z) (pdata : option Z)
    (st : state) (r : Z) (queued : option Z) :
  NOTIFY_OK <> NOTIFY_DONE ->
  pasid_status_change NOTIFY_DONE NOTIFY_OK IOASID_NOTIFY_FREE code id pdata st
    = Some (r, queued) ->
  (r = NOTIFY_OK <->
   exists p svm, queued = Some p /\ pdata = Some p /\
                 code = IOASID_NOTIFY_FREE /\
                 svms st !! p = Some svm /\ svm_pasid svm = id) /\
  (r <> NOTIFY_OK -> r = NOTIFY_DONE /\ queued = None).
Proof.
  intros Hne H. unfold pasid_status_change in H.
  assert (Hdone : Some (NOTIFY_DONE, @None Z) = Some (r, queued) ->
    (r = NOTIFY_OK <->
     exists p svm, queued = Some p /\ pdata = Some p /\
                   code = IOASID_NOTIFY_FREE /\
                   svms st !! p = Some svm /\ svm_pasid svm = id) /\
    (r <> NOTIFY_OK -> r = NOTIFY_DONE /\ queued = None)).
  { intros [= <- <-]. split; [|auto]. split.
    - intros E. symmetry in E. contradiction.
    - intros (q & svm & N & _). discriminate N. }
  destruct (Z.eqb_spec code IOASID_NOTIFY_FREE) as [Hc|Hc]; [|auto].
  destruct pdata as [p|]; [|auto].
  destruct (svms st !! p) as [svm|] eqn:Hp; [|discriminate H].
  destruct (Z.eqb_spec id (svm_pasid svm)) as [Hid|Hid]; cbn [negb] in H;
    [|auto].
  injection H as <- <-. split; [|intros N; contradiction].
  split; [intros _|reflexivity]. exists p, svm. auto.
Qed.

End FreeNotifyFacts.

(** ** The further parts on the concrete system *)

Section VaSlotFacts.

Import VaSlots.

Lemma first_zero_from_spec (addr : Z) (n : nat) : forall i,
  let r := first_zero_from addr i n in
  i <= r <= i + Z.of_nat n /\
  (forall j, i <= j < r -> Z.testbit addr j = true) /\
  (r < i + Z.of_nat n -> Z.testbit addr r = false).
Proof.
  induction n as [|n IH]; intros i; cbn [first_zero_from].
  - split; [lia|]. split; intros; lia.
  - destruct (Z.testbit addr i) eqn:Ei.
    + specialize (IH (i + 1)). cbv zeta in IH.
      destruct IH as (Hr & Hset & Hclr).
      split; [lia|]. split.
      * intros j Hj. destruct (Z.eq_dec j i) as [->|Hne]; [exact Ei|].
        apply Hset. lia.
      * intros Hlt. apply Hclr. lia.
    + split; [lia|]. split; [intros; lia|]. intros _. exact Ei.
Qed.

Lemma find_first_zero_bit_spec (addr size : Z) :
  0 <= size ->
  let r := find_first_zero_bit addr size in
  0 <= r <= size /\
  (forall j, 0 <= j < r -> Z.testbit addr j = true) /\
  (r < size -> Z.testbit addr r = false).
Proof.
  intros Hs. unfold find_first_zero_bit.
  pose proof (first_zero_from_spec addr (Z.to_nat size) 0) as H.
  cbv zeta in H. rewrite Z2Nat.id in H by assumption. exact H.
Qed.

Lemma shiftl3_u32 (slot : Z) :
  0 <= slot < 2 ^ 28 -> u32 (Z.shiftl slot 3) = 8 * slot.
Proof.
  intros H. unfold u32. rewrite Z.shiftl_mul_pow2 by lia.
  change (2 ^ 3) with 8. rewrite Z.mod_small; lia.
Qed.

Lemma shiftr3_mul8 (slot : Z) : Z.shiftr (8 * slot) 3 = slot.
Proof.
  rewrite Z.shiftr_div_pow2 by lia. change (2 ^ 3) with 8.
  rewrite Z.mul_comm. apply Z.div_mul. lia.
Qed.

(** On a VA page that is not full, [sgx_alloc_va_slot] takes the lowest free
    slot: it returns eight times the number of a slot that was free while
    all slots below it were taken, and marks that slot, and no other, as
    taken. *)
Theorem sgx_alloc_va_slot_lowest_free (COUNT slots : Z) :
  0 < COUNT < 2 ^ 28 ->
  sgx_va_page_full COUNT slots = false ->
  exists slot,
    0 <= slot < COUNT /\
    fst (sgx_alloc_va_slot COUNT slots) = 8 * slot /\
    Z.testbit slots slot = false /\
    (forall j, 0 <= j < slot -> Z.testbit slots j = true) /\
    (forall j, 0 <= j ->
       Z.testbit (snd (sgx_alloc_va_slot COUNT slots)) j
       = (j =? slot) || Z.testbit slots j).
Proof.
  intros Hc Hfull. unfold sgx_va_page_full in Hfull.
  apply Z.eqb_neq in Hfull.
  destruct (find_first_zero_bit_spec slots COUNT ltac:(lia))
    as (Hr & Hset & Hclr).
  set (slot := find_first_zero_bit slots COUNT) in *.
  assert (Hlt : slot < COUNT) by lia.
  exists slot. split; [lia|]. unfold sgx_alloc_va_slot. fold slot.
  cbn [fst snd]. split; [apply shiftl3_u32; lia|].
  split; [apply Hclr; exact Hlt|]. split; [exact Hset|].
  intros j Hj. destruct (Z.ltb_spec slot COUNT); [|lia].
  unfold set_bit. rewrite Z.setbit_eqb by lia.
  rewrite (Z.eqb_sym slot j). reflexivity.
Qed.

(** Freeing the slot [sgx_alloc_va_slot] has just handed out gives back the
    bitmap the page had before the allocation. *)
Theorem sgx_alloc_free_va_slot_roundtrip (COUNT slots : Z) :
  0 < COUNT < 2 ^ 28 ->
  sgx_va_page_full COUNT slots = false ->
  sgx_free_va_slot COUNT (snd (sgx_alloc_va_slot COUNT slots))
    (fst (sgx_alloc_va_slot COUNT slots)) = Some slots.
Proof.
  intros Hc Hfull. unfold sgx_va_page_full in Hfull.
  apply Z.eqb_neq in Hfull.
  destruct (find_first_zero_bit_spec slots COUNT ltac:(lia))
    as (Hr & Hset & Hclr).
  unfold sgx_alloc_va_slot.
  set (slot := find_first_zero_bit slots COUNT) in *.
  assert (Hlt : slot < COUNT) by lia.
  cbn [fst snd]. rewrite shiftl3_u32 by lia.
  unfold sgx_free_va_slot. rewrite shiftr3_mul8.
  destruct (Z.ltb_spec slot COUNT); [|lia].
  destruct (Z.leb_spec 0 slot); [|lia]. cbn [andb].
  f_equal. apply Z.bits_inj'. intros j Hj.
  unfold clear_bit, set_bit.
  rewrite Z.clearbit_eqb, Z.setbit_eqb by lia.
  destruct (Z.eqb_spec slot j) as [<-|Hne]; cbn.
  - symmetry. apply Hclr. exact Hlt.
  - apply andb_true_r.
Qed.

(** A VA page is full exactly when each of its [SGX_VA_SLOT_COUNT] slots is
    taken; on a full page [sgx_alloc_va_slot] changes nothing and returns
    [8 * SGX_VA_SLOT_COUNT], the offset of no slot, rather than an error. *)
Theorem sgx_va_page_full_spec (COUNT slots : Z) :
  0 < COUNT < 2 ^ 28 ->
  (sgx_va_page_full COUNT slots = true <->
   forall j, 0 <= j < COUNT -> Z.testbit slots j = true) /\
  (sgx_va_page_full COUNT slots = true ->
   sgx_alloc_va_slot COUNT slots = (8 * COUNT, slots)).
Proof.
  intros Hc.
  destruct (find_first_zero_bit_spec slots COUNT ltac:(lia))
    as (Hr & Hset & Hclr).
  unfold sgx_va_page_full, sgx_alloc_va_slot.
  set (slot := find_first_zero_bit slots COUNT) in *.
  split; [split|].
  - intros Hfull%Z.eqb_eq j Hj. apply Hset. lia.
  - intros Hall. apply Z.eqb_eq.
    destruct (Z.eq_dec slot COUNT) as [|Hne]; [assumption|].
    assert (Hlt : slot < COUNT) by lia.
    specialize (Hclr Hlt). rewrite Hall in Hclr by lia. discriminate.
  - intros Hfull%Z.eqb_eq. rewrite Hfull, Z.ltb_irrefl.
    f_equal. unfold u32. rewrite Z.shiftl_mul_pow2 by lia.
    change (2 ^ 3) with 8. rewrite Z.mod_small; lia.
Qed.

(** After [sgx_free_va_slot] of an offset inside the page, the page is not
    full and the next [sgx_alloc_va_slot] returns the offset of the freed
    slot or a lower one; on a page that was full it returns the freed slot
    and the page is as it was before the slot was freed. *)
Theorem sgx_free_then_alloc_va_slot (COUNT slots offset slots' : Z) :
  0 < COUNT < 2 ^ 28 ->
  sgx_free_va_slot COUNT slots offset = Some slots' ->
  sgx_va_page_full COUNT slots' = false /\
  fst (sgx_alloc_va_slot COUNT slots') <= 8 * Z.shiftr offset 3 /\
  (sgx_va_page_full COUNT slots = true ->
   sgx_alloc_va_slot COUNT slots' = (8 * Z.shiftr offset 3, slots)).
Proof.
  intros Hc Hfree. unfold sgx_free_va_slot in Hfree.
  set (nr := Z.shiftr offset 3) in *.
  destruct (Z.leb_spec 0 nr); [|discriminate].
  destruct (Z.ltb_spec nr COUNT); [|discriminate].
  cbn [andb] in Hfree. apply (inj Some) in Hfree. subst slots'.
  assert (Hnr : Z.testbit (clear_bit nr slots) nr = false).
  { unfold clear_bit. rewrite Z.clearbit_eqb, Z.eqb_refl. apply andb_false_r. }
  destruct (find_first_zero_bit_spec (clear_bit nr slots) COUNT ltac:(lia))
    as (Hr & Hset & Hclr).
  unfold sgx_va_page_full, sgx_alloc_va_slot.
  set (slot := find_first_zero_bit (clear_bit nr slots) COUNT) in *.
  assert (Hle : slot <= nr).
  { destruct (Z.le_gt_cases slot nr) as [|Hgt]; [assumption|].
    rewrite Hset in Hnr by lia. discriminate. }
  cbn [fst]. split; [apply Z.eqb_neq; lia|].
  split; [rewrite shiftl3_u32 by lia; lia|].
  intros Hfull.
  destruct (find_first_zero_bit_spec slots COUNT ltac:(lia))
    as (_ & Hall & _).
  apply Z.eqb_eq in Hfull. rewrite Hfull in Hall.
  assert (Heq : slot = nr).
  { destruct (Z.eq_dec slot nr) as [|Hne]; [assumption|].
    assert (Hlt : slot < COUNT) by lia. specialize (Hclr Hlt).
    unfold clear_bit in Hclr. rewrite Z.clearbit_eqb in Hclr.
    rewrite Hall in Hclr by lia.
    destruct (Z.eqb_spec nr slot); [lia|discriminate]. }
  rewrite Heq. destruct (Z.ltb_spec nr COUNT); [|lia].
  rewrite shiftl3_u32 by lia. f_equal.
  apply Z.bits_inj'. intros j Hj. unfold set_bit, clear_bit.
  rewrite Z.setbit_eqb, Z.clearbit_eqb by lia.
  destruct (Z.eqb_spec nr j) as [<-|Hne]; cbn.
  - symmetry. apply Hall. lia.
  - apply andb_true_r.
Qed.

(** The theorem at a page of 512 slots with slots 0, 1 and 3 taken. *)
Lemma sgx_alloc_va_slot_lowest_free_witness :
  0 < 512 < 2 ^ 28 /\ sgx_va_page_full 512 11 = false /\
  exists slot,
    0 <= slot < 512 /\
    fst (sgx_alloc_va_slot 512 11) = 8 * slot /\
    Z.testbit 11 slot = false /\
    (forall j, 0 <= j < slot -> Z.testbit 11 j = true) /\
    (forall j, 0 <= j ->
       Z.testbit (snd (sgx_alloc_va_slot 512 11)) j
       = (j =? slot) || Z.testbit 11 j).
Proof.
  split; [lia|]. split; [reflexivity|].
  apply (sgx_alloc_va_slot_lowest_free 512 11); [lia | reflexivity].
Defined.

(** The round trip at the same page. *)
Lemma sgx_alloc_free_va_slot_roundtrip_witness :
  0 < 512 < 2 ^ 28 /\ sgx_va_page_full 512 11 = false /\
  sgx_free_va_slot 512 (snd (sgx_alloc_va_slot 512 11))
    (fst (sgx_alloc_va_slot 512 11)) = Some 11.
Proof.
  split; [lia|]. split; [reflexivity|].
  apply (sgx_alloc_free_va_slot_roundtrip 512 11); [lia | reflexivity].
Defined.

(** The theorem at a page of 512 slots, all taken. *)
Lemma sgx_va_page_full_spec_witness :
  0 < 512 < 2 ^ 28 /\
  (sgx_va_page_full 512 (Z.ones 512) = true <->
   forall j, 0 <= j < 512 -> Z.testbit (Z.ones 512) j = true) /\
  (sgx_va_page_full 512 (Z.ones 512) = true ->
   sgx_alloc_va_slot 512 (Z.ones 512) = (8 * 512, Z.ones 512)).
Proof.
  split; [lia|]. apply (sgx_va_page_full_spec 512 (Z.ones 512)). lia.
Defined.

(** The theorem at the full page, freeing the slot at offset 40. *)
Lemma sgx_free_then_alloc_va_slot_witness :
  0 < 512 < 2 ^ 28 /\
  sgx_free_va_slot 512 (Z.ones 512) 40 = Some (Z.clearbit (Z.ones 512) 5) /\
  sgx_va_page_full 512 (Z.clearbit (Z.ones 512) 5) = false /\
  fst (sgx_alloc_va_slot 512 (Z.clearbit (Z.ones 512) 5)) <= 8 * Z.shiftr 40 3 /\
  (sgx_va_page_full 512 (Z.ones 512) = true ->
   sgx_alloc_va_slot 512 (Z.clearbit (Z.ones 512) 5)
   = (8 * Z.shiftr 40 3, Z.ones 512)).
Proof.
  split; [lia|]. split; [reflexivity|].
  apply (sgx_free_then_alloc_va_slot 512 (Z.ones 512) 40); [lia | reflexivity].
Defined.

End VaSlotFacts.

Section MoreExamples.
Import K Svm Prq Registry Guest FreeNotify Response Demo DemoMore.

(** The external handler answers, with code 0, the read request of PASID 1
    that the reader reported for device x. *)
Lemma page_response_sound_witness :
  exists ds p svm sdev,
    intel_svm_page_response (Some dev_x) 0 5
      (Some (fault_event_of (demo_info 5) (read_req_of 5 1 1))) (Some 0)
      demo_guest_state = Some (0, ds) /\
    length ds = 1%nat /\
    svms demo_guest_state !! p = Some svm /\ In sdev (svm_devs svm).
Proof.
  destruct (intel_svm_page_response (Some dev_x) 0 5
              (Some (fault_event_of (demo_info 5) (read_req_of 5 1 1)))
              (Some 0) demo_guest_state) as [[r ds]|] eqn:E;
    [|vm_compute in E; discriminate E].
  assert (Hr : r = 0 /\ length ds = 1%nat).
  { pose proof E as E'. vm_compute in E'. injection E' as <- <-. auto. }
  destruct Hr as [-> Hl].
  destruct (proj2 (page_response_sound _ _ _ _ _ _ _ _ E) eq_refl)
    as (d & e & code & p & svm & sdev & _ & _ & _ & _ & _ & _ & _ & _ & _ & Hp
        & Hin & _).
  exists ds, p, svm, sdev. auto.
Defined.

Lemma page_response_of_report_witness :
  intel_svm_page_response (Some dev_x) 0 5
    (Some (fault_event_of (demo_info 5) (read_req_of 5 1 1))) (Some 0)
    demo_guest_state
  = Some (0, [mk_pgrp 1 5 true false 0 0 true 0 0]).
Proof.
  exact (proj2 (page_response_of_report (demo_kernel (ring_of []) 0 0) dev_x
                  (demo_info 5) 0 5 (read_req_of 5 1 1) 0 demo_guest_state
                  (Some (0x8000, svm_a)) (sdev_of dev_x 5 1) 0%nat
                  eq_refl eq_refl ltac:(cbn; eauto) eq_refl
                  ltac:(vm_compute; discriminate) eq_refl)).
Defined.

(** A CPU with 1 GiB pages and an IOMMU without first-level 1 GiB page
    support: the check leaves the IOMMU not capable. *)
Lemma intel_svm_check_capable_witness :
  Capability.intel_svm_capable 1
    (Capability.intel_svm_check 1 (Capability.mk_cpu true false)
       (Capability.mk_caps true false true 0)) = false.
Proof.
  exact (proj1 (intel_svm_check_capable 1 (Capability.mk_cpu true false)
                  (Capability.mk_caps true false true 0)
                  ltac:(discriminate))).
Defined.


Lemma enable_finish_prq_witness :
  exists iommu1 evs1 iommu2 evs2,
    PrqSetup.intel_svm_enable_prq 0 1024 (fun a => a) (demo_enable_oracle 0)
      demo_iommu_prq = (0, iommu1, evs1) /\
    PrqSetup.intel_svm_finish_prq 0 iommu1 = (0, iommu2, evs2) /\
    PrqSetup.held_after (evs1 ++ evs2) = PrqSetup.mk_held [] [] [].
Proof.
  destruct (PrqSetup.intel_svm_enable_prq 0 1024 (fun a => a)
              (demo_enable_oracle 0) demo_iommu_prq)
    as [[r iommu1] evs1] eqn:E.
  assert (Hr : r = 0) by (pose proof E as E'; vm_compute in E';
                          injection E' as <- _ _; reflexivity).
  subst r.
  destruct (enable_finish_prq 0 1024 (fun a => a) (demo_enable_oracle 0)
              demo_iommu_prq iommu1 evs1 E)
    as (pages & irq & iommu2 & evs2 & _ & _ & _ & _ & _ & _ & _ & H8 & _ & _
        & _ & H12).
  exists iommu1, evs1, iommu2, evs2. auto.
Defined.

(** The nested set-up fails on the first bind of the host PASID 7: the
    reference taken is not put back. *)
Lemma bind_gpasid_failure_witness :
  exists hp st1 log,
    intel_svm_bind_gpasid demo_config demo_guest_constants
      (demo_guest_oracle (-22)) 1 dev_y (Some (demo_bind_data 7)) false
      demo_guest_state = Some (-22, hp, st1, log) /\
    svms st1 = svms demo_guest_state /\
    allocator_calls log
    = [GaAttachSpid 7 70; GaAttachData 7 0xb000; GaIoasidGet 7;
       GaDetachData 7].
Proof.
  destruct (intel_svm_bind_gpasid demo_config demo_guest_constants
              (demo_guest_oracle (-22)) 1 dev_y (Some (demo_bind_data 7)) false
              demo_guest_state) as [[[[r hp] st1] log]|] eqn:E;
    [|vm_compute in E; discriminate E].
  assert (Hr : r = -22 /\
               allocator_calls log
               = [GaAttachSpid 7 70; GaAttachData 7 0xb000; GaIoasidGet 7;
                  GaDetachData 7]).
  { pose proof E as E'. vm_compute in E'. injection E' as <- _ _ <-. auto. }
  destruct Hr as [-> Hl]. exists hp, st1, log. split; [reflexivity|].
  destruct (bind_gpasid_failure demo_config demo_guest_constants _ _ _ _ _ _
              _ _ _ _ E ltac:(discriminate)) as (H1 & _).
  auto.
Defined.

Lemma demo_guest_refs id io :
  ioasids demo_guest_state !! id = Some io -> 0 < io_refs io.
Proof.
  cbn. intros H. apply lookup_insert_Some in H as [[_ <-]|[_ H]]; [cbn; lia|].
  apply lookup_singleton_Some in H as [_ <-]. cbn. lia.
Qed.

(** Device y binds the host PASID 7 in guest mode and unbinds it. *)
Lemma bind_unbind_gpasid_roundtrip_witness :
  exists hp st1 log st2 log2,
    intel_svm_bind_gpasid demo_config demo_guest_constants
      (demo_guest_oracle 0) 1 dev_y (Some (demo_bind_data 7)) false
      demo_guest_state = Some (0, hp, st1, log) /\
    intel_svm_unbind_gpasid demo_config demo_guest_constants
      (demo_guest_oracle 0) dev_y 7 1 st1 = Some (0, st2, log2) /\
    ioasids st2 = ioasids demo_guest_state.
Proof.
  destruct (intel_svm_bind_gpasid demo_config demo_guest_constants
              (demo_guest_oracle 0) 1 dev_y (Some (demo_bind_data 7)) false
              demo_guest_state) as [[[[r hp] st1] log]|] eqn:E;
    [|vm_compute in E; discriminate E].
  assert (Hr : r = 0) by (pose proof E as E'; vm_compute in E';
                          injection E' as <- _ _ _; reflexivity).
  subst r.
  destruct (bind_unbind_gpasid_roundtrip demo_config demo_guest_constants
              (demo_guest_oracle 0) 1 dev_y (demo_bind_data 7) false
              demo_guest_state st1 hp log demo_guest_refs
              ltac:(vm_compute; discriminate) E)
    as (st2 & log2 & pasid & H1 & H2 & _).
  exists hp, st1, log, st2, log2. auto.
Defined.

(** Device x is bound under PASID 1 already. *)
Lemma bind_gpasid_refuses_duplicate_witness :
  exists r hp log,
    intel_svm_bind_gpasid demo_config demo_guest_constants
      (demo_guest_oracle 0) 1 dev_x (Some (demo_bind_data 1)) false
      demo_guest_state = Some (r, hp, demo_guest_state, log) /\
    r <> 0.
Proof.
  destruct (intel_svm_bind_gpasid demo_config demo_guest_constants
              (demo_guest_oracle 0) 1 dev_x (Some (demo_bind_data 1)) false
              demo_guest_state) as [[[[r hp] st1] log]|] eqn:E;
    [|vm_compute in E; discriminate E].
  destruct (bind_gpasid_refuses_duplicate demo_config demo_guest_constants
              (demo_guest_oracle 0) 1 dev_x (demo_bind_data 1) false
              demo_guest_state st1 r hp log (Some (0x8000, svm_a))
              (sdev_of dev_x 5 1) eq_refl E) as (H1 & -> & _).
  exists r, hp, log. auto.
Defined.

(** PASID 1 is freed while device x is bound to it. *)
Lemma free_async_cleanup_witness :
  exists st2 log,
    intel_svm_free_async_fn demo_guest_constants
      (fun _ => mk_sdev_env false false) 0x8000 demo_guest_state
      = Some (st2, log) /\
    svms st2 = delete 0x8000 (svms demo_guest_state) /\
    allocator_calls log = [GaDetachSpid 1; GaDetachData 1; GaIoasidPut 1].
Proof.
  destruct (free_async_cleanup demo_guest_constants
              (fun _ => mk_sdev_env false false) 0x8000 svm_a
              demo_guest_state eq_refl)
    as (st2 & log & pre & subdevs & H1 & H2 & _ & H4 & _ & H6 & _ & H8 & _).
  exists st2, log. split; [exact H1|]. split; [exact H8|].
  rewrite H2, H6, allocator_calls_app, H4. reflexivity.
Defined.

Lemma pasid_status_change_queues_witness :
  pasid_status_change 0 1 2 2 1 (Some 0x8000) demo_guest_state
    = Some (1, Some 0x8000) /\
  exists p svm, Some 0x8000 = Some p /\ svms demo_guest_state !! p = Some svm.
Proof.
  split; [reflexivity|].
  destruct (proj1 (proj1 (pasid_status_change_queues 0 1 2 2 1 (Some 0x8000)
                            demo_guest_state 1 (Some 0x8000)
                            ltac:(discriminate) eq_refl)) eq_refl)
    as (p & svm & H1 & _ & _ & H4 & _).
  exists p, svm. auto.
Defined.

End MoreExamples.
